(** * The trace-upload handler of the course API server

    A shallow embedding of [internal/handler/course.go]: the filename
    deriver ([sanitizeFilename] and the [fmt.Sprintf] template), the
    storage upload ([uploadToGCS]), the authentication gate
    ([authenticateRequest], [handleAuthError]) and the orchestrating
    handler [HandleTraceUpload], together with the properties of the
    specification that concern them.

    Go strings are byte sequences; they are modelled by [string], whose
    characters are the 256 values of [ascii]. *)

From Stdlib Require Import ZArith Bool Ascii String List Lia.
From Stdlib Require Import Numbers.DecimalString.
From stdpp Require Import base option list gmap strings.

Local Open Scope string_scope.
Local Open Scope Z_scope.

(** ** Bytes and the classes of the regular expression *)

Module Bytes.

Definition code (c : ascii) : N := N_of_ascii c.

Definition between (lo hi c : ascii) : bool :=
  ((code lo <=? code c) && (code c <=? code hi))%N.

Definition isUpper (c : ascii) : bool := between "A" "Z" c.
Definition isLower (c : ascii) : bool := between "a" "z" c.
Definition isDigit (c : ascii) : bool := between "0" "9" c.

(** The class [a-zA-Z0-9] of the pattern in [sanitizeFilename]. *)
Definition isAlnum (c : ascii) : bool := isLower c || isUpper c || isDigit c.

Definition isUnderscore (c : ascii) : bool := Ascii.eqb c "_".

(** The characters of [[A-Za-z0-9_.]]. *)
Definition isFileChar (c : ascii) : bool :=
  isAlnum c || isUnderscore c || Ascii.eqb c ".".

(** [utf8.RuneSelf] is 0x80: bytes below it are ASCII. *)
Definition isASCII (c : ascii) : bool := (code c <? 128)%N.

(** [c += 'a' - 'A'] on an upper-case byte. *)
Definition toLowerByte (c : ascii) : ascii :=
  if isUpper c then ascii_of_N (code c + 32) else c.

End Bytes.

(** ** The string functions of the Go library that the handler calls *)

Module Strings.
Import Bytes.

Fixpoint all (p : ascii -> bool) (s : string) : bool :=
  match s with
  | EmptyString => true
  | String c s' => p c && all p s'
  end.

Fixpoint any (p : ascii -> bool) (s : string) : bool :=
  match s with
  | EmptyString => false
  | String c s' => p c || any p s'
  end.

Fixpoint map (f : ascii -> ascii) (s : string) : string :=
  match s with
  | EmptyString => EmptyString
  | String c s' => String (f c) (map f s')
  end.

Fixpoint rev (s : string) : string :=
  match s with
  | EmptyString => EmptyString
  | String c s' => rev s' +:+ String c EmptyString
  end.

(** [strings.TrimLeft(s, "_")] for the one-byte cutset: drop the leading
    bytes equal to [c]. *)
Fixpoint TrimLeft (c : ascii) (s : string) : string :=
  match s with
  | EmptyString => EmptyString
  | String a s' => if Ascii.eqb a c then TrimLeft c s' else s
  end.

(** [strings.TrimRight(s, "_")]: drop the trailing bytes equal to [c]. *)
Definition TrimRight (c : ascii) (s : string) : string :=
  rev (TrimLeft c (rev s)).

(** [strings.Trim(s, cutset)] for a cutset of one ASCII byte, which is the
    library's [trimLeftByte] followed by [trimRightByte]. *)
Definition Trim (s : string) (c : ascii) : string :=
  TrimRight c (TrimLeft c s).

(** [strings.ToLower].  The library first scans for a byte at or above
    [utf8.RuneSelf]; an ASCII-only string is returned as it is when it has
    no upper-case letter and with every upper-case byte shifted otherwise.
    Any other string goes through [strings.Map(unicode.ToLower, s)], whose
    Unicode tables are taken as the parameter [mapLower]. *)
Definition ToLower (mapLower : string -> string) (s : string) : string :=
  let isASCII := all Bytes.isASCII s in
  let hasUpper := any isUpper s in
  if isASCII then
    if negb hasUpper then s else map toLowerByte s
  else mapLower s.

(** [fmt.Sprintf("%d", n)] on an integer. *)
Definition itoa (n : Z) : string := NilZero.string_of_int (Z.to_int n).

End Strings.

(** ** The filename deriver *)

Module Filename.
Import Bytes Strings.

(** [reg.ReplaceAllString(input, "_")] for the pattern [[^a-zA-Z0-9]+].
    The matcher scans from the left; a match starts at the first byte
    outside the class and, [+] being greedy, extends over every following
    byte outside the class; the whole match is replaced by the one
    replacement string.  [inMatch] says that the current match has begun
    and its replacement has been emitted.  The pattern is matched rune by
    rune in Go; every byte of a rune that is not ASCII is at or above 0x80,
    hence outside the class, so that the runs of runs outside the class
    are the runs of bytes outside the class. *)
Fixpoint replaceFrom (inMatch : bool) (s : string) : string :=
  match s with
  | EmptyString => EmptyString
  | String c s' =>
      if isAlnum c then String c (replaceFrom false s')
      else if inMatch then replaceFrom true s'
      else String "_" (replaceFrom true s')
  end.

Definition ReplaceAllString (input : string) : string := replaceFrom false input.

(** [sanitizeFilename]. *)
Definition sanitizeFilename (input : string) : string :=
  let cleaned := ReplaceAllString input in
  Trim cleaned "_".

(** The call
    [fmt.Sprintf("%s_%s_%s_%d_%s_%d.pdf", sanitizeFilename(course.Name),
    sanitizeFilename(instructor.Name), course.SubjectCode, course.CourseID,
    course.SemesterTerm, course.SemesterYear)] of [HandleTraceUpload]. *)
Definition customName (courseName instructorName subjectCode : string)
    (courseNumber : Z) (semesterTerm : string) (semesterYear : Z) : string :=
  sanitizeFilename courseName +:+ "_" +:+
  sanitizeFilename instructorName +:+ "_" +:+
  subjectCode +:+ "_" +:+
  itoa courseNumber +:+ "_" +:+
  semesterTerm +:+ "_" +:+
  itoa semesterYear +:+ ".pdf".

End Filename.

(** ** Errors, identifiers and the records of [internal/model] *)

(** A Go [error], kept as the text of [err.Error()]. *)
Definition error := string.

(** A [uuid.UUID], sixteen bytes read as one number. *)
Definition UUID := N.

Module Model.

(** Modelled from the spec: [model.User] is declared in [internal/model],
    which is not among the sources; the handler reads [ID] and [Role]. *)
Record User := {
  user_ID : UUID;
  user_Role : string;
}.

(** Modelled from the spec: [model.Course], section 3 of the specification;
    the verbs of the two [Sprintf] calls fix the field types ([%s] for
    strings, [%d] for integers). *)
Record Course := {
  course_Name : string;
  course_SubjectCode : string;
  course_CourseID : Z;
  course_SemesterTerm : string;
  course_SemesterYear : Z;
  course_CreditHours : Z;
  course_InstructorID : UUID;
}.

(** Modelled from the spec: [model.Instructor]. *)
Record Instructor := {
  instructor_Name : string;
}.

(** A row of [api.traces] as [model.InsertTrace] receives it: the columns
    [user_id], [instructor_id], [status], [course_id], [vector_id] (nullable),
    [file_name] and [bucket_url].  The columns [id], [date_created] and
    [date_updated] are filled by the database. *)
Record Trace := {
  trace_user_id : UUID;
  trace_instructor_id : UUID;
  trace_status : string;
  trace_course_id : UUID;
  trace_vector_id : option string;
  trace_file_name : string;
  trace_bucket_url : string;
}.

End Model.
Import Model.

(** ** The collaborators held by the handler *)

(** The functions of [internal/model] over [h.db].  Each is an outcome per
    argument: the handler calls each of them at most once per request. *)
Record DB := {
  AuthenticateUser : string -> string -> error + User;
  GetCourseByID : UUID -> error + Course;
  GetInstructorByID : UUID -> error + Instructor;
  (** [None]: the row is stored; [Some e]: the insert fails with [e]. *)
  InsertTrace_result : Trace -> option error;
}.

(** The object of [h.gcsClient.Bucket(h.bucketName).Object(filename)]:
    [io.Copy] into its writer, [Close] of the writer, and [Attrs], of which
    the handler reads [Name]. *)
Record Storage := {
  gcs_Copy : string -> string -> option error;
  gcs_Close : string -> option error;
  gcs_Attrs_Name : string -> error + string;
}.

(** A [sarama.ProducerMessage]; [Value] holds the marshalled JSON object,
    kept as the map it encodes. *)
Record ProducerMessage := {
  msg_Topic : string;
  msg_Value : gmap string string;
}.

(** [sarama.SyncProducer]: [SendMessage] answers a partition and an offset,
    or an error. *)
Record SyncProducer := {
  SendMessage : ProducerMessage -> error + (Z * Z);
}.

Record CourseHandler := {
  db : DB;
  gcsClient : Storage;
  bucketName : string;
  producer : SyncProducer;
}.

(** The library functions whose code is outside the repository. *)
Record Lib := {
  (** [uuid.Parse] *)
  uuid_Parse : string -> error + UUID;
  (** [strings.Map(unicode.ToLower, s)], the non-ASCII path of [strings.ToLower] *)
  unicode_mapLower : string -> string;
  (** [json.Marshal] of the notification map: [None] when it succeeds *)
  json_Marshal_result : gmap string string -> option error;
}.

(** ** The request *)

(** A [multipart.FileHeader]: what [Open] gives, the bytes of the part. *)
Record FileHeader := {
  fh_Open : error + string;
}.

(** What [r.ParseMultipartForm] leaves in the request: [r.Form] and
    [r.MultipartForm.File]. *)
Record ParsedForm := {
  Form : gmap string (list string);
  File : gmap string (list FileHeader);
}.

Record Request := {
  (** [r.BasicAuth()]: user name and password, when the header is there *)
  req_BasicAuth : option (string * string);
  (** the wildcards of the matched route pattern *)
  req_PathValues : gmap string string;
  (** the outcome of [r.ParseMultipartForm(10 << 20)] *)
  req_ParseMultipartForm : error + ParsedForm;
}.

(** [r.PathValue(name)]: the empty string when the pattern has no such
    wildcard. *)
Definition PathValue (r : Request) (name : string) : string :=
  default "" (req_PathValues r !! name).

(** [r.FormValue(key)]: the first value for [key] in [r.Form], or the empty
    string. *)
Definition FormValue (f : ParsedForm) (key : string) : string :=
  match Form f !! key with
  | Some (v :: _) => v
  | _ => ""
  end.

(** [r.FormFile(key)]: the first file of [key], opened; [http.ErrMissingFile]
    when there is none. *)
Definition FormFile (f : ParsedForm) (key : string) : error + string :=
  match File f !! key with
  | Some (fh :: _) => fh_Open fh
  | _ => inl "http: no such file"
  end.

(** ** The response writer *)

Record ResponseWriter := {
  (** [w.Header()], the header map as the handler sees it *)
  rw_header : gmap string string;
  (** the status line has been sent *)
  rw_wroteHeader : bool;
  rw_status : Z;
  (** the header map as it was sent with the status line *)
  rw_sentHeader : gmap string string;
  (** the JSON documents written to the body, oldest first *)
  rw_body : list (gmap string string);
}.

Definition StatusOK : Z := 200.
Definition StatusCreated : Z := 201.
Definition StatusBadRequest : Z := 400.
Definition StatusUnauthorized : Z := 401.
Definition StatusForbidden : Z := 403.
Definition StatusInternalServerError : Z := 500.

Definition newResponseWriter : ResponseWriter :=
  {| rw_header := ∅; rw_wroteHeader := false; rw_status := 0;
     rw_sentHeader := ∅; rw_body := [] |}.

Definition rw_Header_Set (k v : string) (w : ResponseWriter) : ResponseWriter :=
  {| rw_header := <[k := v]> (rw_header w);
     rw_wroteHeader := rw_wroteHeader w; rw_status := rw_status w;
     rw_sentHeader := rw_sentHeader w; rw_body := rw_body w |}.

(** [w.WriteHeader(code)]: the first call decides the status and sends the
    header map; a later call is superfluous and changes nothing. *)
Definition rw_WriteHeader (code : Z) (w : ResponseWriter) : ResponseWriter :=
  if rw_wroteHeader w then w
  else {| rw_header := rw_header w; rw_wroteHeader := true; rw_status := code;
          rw_sentHeader := rw_header w; rw_body := rw_body w |}.

(** [w.Write]: sends [200 OK] first when no status has been sent. *)
Definition rw_Write (doc : gmap string string) (w : ResponseWriter) : ResponseWriter :=
  let w' := rw_WriteHeader StatusOK w in
  {| rw_header := rw_header w'; rw_wroteHeader := rw_wroteHeader w';
     rw_status := rw_status w'; rw_sentHeader := rw_sentHeader w';
     rw_body := rw_body w' ++ [doc] |}.

(** ** The state a request runs in, and the handler monad *)

Record World := {
  w : ResponseWriter;
  (** rows stored in [api.traces] by this request *)
  traces : list Trace;
  (** objects a storage writer was opened for: name and payload *)
  gcs_writes : list (string * string);
  (** messages handed to the producer *)
  outbox : list ProducerMessage;
  (** lines given to [log.Printf] *)
  logs : list string;
}.

Definition newWorld : World :=
  {| w := newResponseWriter; traces := []; gcs_writes := []; outbox := []; logs := [] |}.

(** A computation either goes on with a value or has left the handler
    ([None], Go's [return]); the state is threaded in both cases. *)
Definition M (A : Type) : Type := World -> option A * World.

Definition ret {A} (a : A) : M A := fun s => (Some a, s).

Definition bind {A B} (m : M A) (k : A -> M B) : M B :=
  fun s => match m s with
           | (Some a, s') => k a s'
           | (None, s') => (None, s')
           end.

(** Go's [return] inside the handler. *)
Definition leave {A} : M A := fun s => (None, s).

Declare Scope handler_scope.
Delimit Scope handler_scope with handler.
Notation "x <- m ;; k" := (bind m (fun x => k))
  (at level 100, m at next level, right associativity) : handler_scope.
Notation "m ;; k" := (bind m (fun _ => k))
  (at level 100, right associativity) : handler_scope.
Local Open Scope handler_scope.

Definition modify_w (f : ResponseWriter -> ResponseWriter) : M unit :=
  fun s => (Some tt, {| w := f (w s); traces := traces s; gcs_writes := gcs_writes s;
                        outbox := outbox s; logs := logs s |}).

Definition Header_Set (k v : string) : M unit := modify_w (rw_Header_Set k v).
Definition WriteHeader (code : Z) : M unit := modify_w (rw_WriteHeader code).

(** [json.NewEncoder(w).Encode(m)] for a [map[string]string]. *)
Definition Encode (m : gmap string string) : M unit := modify_w (rw_Write m).

Definition Printf (line : string) : M unit :=
  fun s => (Some tt, {| w := w s; traces := traces s; gcs_writes := gcs_writes s;
                        outbox := outbox s; logs := logs s ++ [line] |}).

(** The [if err != nil { ...; return }] of the handler: on an error run the
    branch and leave, otherwise go on with the value. *)
Definition orLeave {A} (x : error + A) (onError : error -> M unit) : M A :=
  match x with
  | inl e => onError e ;; leave
  | inr a => ret a
  end.

(** ** The handler *)

Section Handler.

Variable L : Lib.
Variable h : CourseHandler.

Definition ToLower (s : string) : string := Strings.ToLower (unicode_mapLower L) s.

(** [authenticateRequest]: the caller's credentials are checked, then the
    role; a caller who is not an administrator gets [403] written here, and
    the error goes back to the caller of the function all the same. *)
Definition authenticateRequest (r : Request) : M (error + User) :=
  match req_BasicAuth r with
  | None => ret (inl "authentication required")
  | Some (username, password) =>
      match AuthenticateUser (db h) username password with
      | inl err => ret (inl err)
      | inr user =>
          if negb (String.eqb (user_Role user) "admin") then
            WriteHeader StatusForbidden ;;
            Encode {[ "error" := "Insufficient permissions" ]} ;;
            ret (inl "insufficient permissions")
          else ret (inr user)
      end
  end.

(** The byte 0x22. *)
Definition dquote : string := String (ascii_of_nat 34) EmptyString.

(** [handleAuthError]. *)
Definition handleAuthError (err : error) : M unit :=
  Header_Set "WWW-Authenticate"
    ("Basic realm=" +:+ dquote +:+ "Course Authentication Required" +:+ dquote) ;;
  WriteHeader StatusUnauthorized ;;
  Encode {[ "error" := err ]}.

(** [uploadToGCS]: a writer is opened for the object, the file is copied
    into it, the writer is closed, and the attributes are read back. *)
Definition uploadToGCS (file filename : string) : error + string :=
  match gcs_Copy (gcsClient h) filename file with
  | Some err => inl err
  | None =>
      match gcs_Close (gcsClient h) filename with
      | Some err => inl err
      | None =>
          match gcs_Attrs_Name (gcsClient h) filename with
          | inl err => inl err
          | inr name =>
              inr ("https://storage.googleapis.com/" +:+ bucketName h +:+ "/" +:+ name)
          end
      end
  end.

(** The call [h.uploadToGCS(file, customName)]; the attempt is recorded. *)
Definition call_uploadToGCS (file filename : string) : M (error + string) :=
  fun s => (Some (uploadToGCS file filename),
            {| w := w s; traces := traces s;
               gcs_writes := gcs_writes s ++ [(filename, file)];
               outbox := outbox s; logs := logs s |}).

(** Modelled from the spec: [model.InsertTrace] is in [internal/model],
    which is not among the sources.  It persists one new Trace row made of
    its arguments, or fails and stores nothing. *)
Definition InsertTrace (userID instructorID : UUID) (status : string)
    (courseID : UUID) (vectorID : option string) (fileName bucketURL : string)
    : M (option error) :=
  fun s =>
    let row := {| trace_user_id := userID; trace_instructor_id := instructorID;
                  trace_status := status; trace_course_id := courseID;
                  trace_vector_id := vectorID; trace_file_name := fileName;
                  trace_bucket_url := bucketURL |} in
    match InsertTrace_result (db h) row with
    | Some err => (Some (Some err), s)
    | None => (Some None, {| w := w s; traces := traces s ++ [row];
                             gcs_writes := gcs_writes s; outbox := outbox s;
                             logs := logs s |})
    end.

(** [h.producer.SendMessage(msg)]. *)
Definition producer_SendMessage (msg : ProducerMessage) : M (error + (Z * Z)) :=
  fun s => (Some (SendMessage (producer h) msg),
            {| w := w s; traces := traces s; gcs_writes := gcs_writes s;
               outbox := outbox s ++ [msg]; logs := logs s |}).

(** [json.Marshal(traceMessage)]. *)
Definition json_Marshal (m : gmap string string) : error + gmap string string :=
  match json_Marshal_result L m with
  | Some err => inl err
  | None => inr m
  end.

(** The [traceMessage] literal of [HandleTraceUpload]. *)
Definition traceMessage (course : Course) (instructor : Instructor)
    (bucketURL : string) : gmap string string :=
  <[ "instructor_name" := ToLower (instructor_Name instructor) ]>
  (<[ "course_code" := ToLower (course_SubjectCode course +:+ " "
                                  +:+ Strings.itoa (course_CourseID course)) ]>
  (<[ "semester_term" := ToLower (course_SemesterTerm course) ]>
  (<[ "semester_year" := ToLower (Strings.itoa (course_SemesterYear course)) ]>
  (<[ "course_name" := ToLower (course_Name course) ]>
  (<[ "credit_hours" := ToLower (Strings.itoa (course_CreditHours course)) ]>
  (<[ "bucket_path" := bucketURL ]> ∅)))))).

(** The file name the handler derives for a course and its instructor. *)
Definition deriveName (course : Course) (instructor : Instructor) : string :=
  Filename.customName (course_Name course) (instructor_Name instructor)
    (course_SubjectCode course) (course_CourseID course)
    (course_SemesterTerm course) (course_SemesterYear course).

Definition errorBody (msg : string) : gmap string string := {[ "error" := msg ]}.

Definition successBody (bucketURL : string) : gmap string string :=
  <[ "message" := "File uploaded successfully" ]> (<[ "bucket_url" := bucketURL ]> ∅).

(** [HandleTraceUpload]. *)
Definition HandleTraceUpload (r : Request) : M unit :=
  Header_Set "Content-Type" "application/json" ;;
  auth <- authenticateRequest r ;;
  user <- orLeave auth handleAuthError ;;
  let courseIDStr := PathValue r "course_id" in
  courseID <- orLeave (uuid_Parse L courseIDStr) (fun _ =>
    WriteHeader StatusBadRequest ;;
    Encode (errorBody "Invalid course_id format")) ;;
  form <- orLeave (req_ParseMultipartForm r) (fun _ =>
    WriteHeader StatusBadRequest ;;
    Encode (errorBody "Failed to parse multipart form")) ;;
  file <- orLeave (FormFile form "file") (fun _ =>
    WriteHeader StatusBadRequest ;;
    Encode (errorBody "File is required")) ;;
  let vectorID : option string :=
    let vid := FormValue form "vector_id" in
    if negb (String.eqb vid "") then Some vid else None in
  course <- orLeave (GetCourseByID (db h) courseID) (fun err =>
    Printf ("Failed to fetch course: " +:+ err) ;;
    WriteHeader StatusInternalServerError ;;
    Encode (errorBody "Failed to fetch course details")) ;;
  instructor <- orLeave (GetInstructorByID (db h) (course_InstructorID course)) (fun err =>
    Printf ("Failed to fetch instructor: " +:+ err) ;;
    WriteHeader StatusInternalServerError ;;
    Encode (errorBody "Failed to fetch instructor details")) ;;
  let customName := deriveName course instructor in
  uploaded <- call_uploadToGCS file customName ;;
  match uploaded with
  | inl err =>
      Printf ("GCS upload failed: " +:+ err) ;;
      let status := "failed" in
      let bucketURL := "" in
      inserted <- InsertTrace (user_ID user) (course_InstructorID course) status
                    courseID vectorID customName bucketURL ;;
      match inserted with
      | Some _ =>
          WriteHeader StatusInternalServerError ;;
          Encode (errorBody "Failed to insert trace record") ;;
          leave
      | None =>
          WriteHeader StatusInternalServerError ;;
          Encode (errorBody "Failed to upload file to GCS") ;;
          leave
      end
  | inr bucketURL =>
      let status := "uploaded" in
      inserted <- InsertTrace (user_ID user) (course_InstructorID course) status
                    courseID vectorID customName bucketURL ;;
      match inserted with
      | Some _ =>
          WriteHeader StatusInternalServerError ;;
          Encode (errorBody "Failed to insert trace record") ;;
          leave
      | None =>
          let traceMessage := traceMessage course instructor bucketURL in
          match json_Marshal traceMessage with
          | inl err => Printf ("Failed to marshal Kafka message: " +:+ err)
          | inr messageBytes =>
              let msg := {| msg_Topic := "pdf-upload"; msg_Value := messageBytes |} in
              sent <- producer_SendMessage msg ;;
              match sent with
              | inl err => Printf ("Failed to send Kafka message: " +:+ err)
              | inr (partition, offset) =>
                  Printf ("Sent message to partition " +:+ Strings.itoa partition
                          +:+ ", offset " +:+ Strings.itoa offset)
              end
          end ;;
          WriteHeader StatusCreated ;;
          Encode (successBody bucketURL)
      end
  end.

(** The state in which the handler leaves a fresh request. *)
Definition serve (r : Request) : World := snd (HandleTraceUpload r newWorld).

End Handler.

(** * Definitions used to state the properties *)

(** ** Strings *)

Module StringSpec.
Import Bytes Strings.

(** First and last byte tests. *)
Definition firstIs (c : ascii) (s : string) : bool :=
  match s with
  | EmptyString => false
  | String a _ => Ascii.eqb a c
  end.

Definition lastIs (c : ascii) (s : string) : bool := firstIs c (rev s).

(** [t] is [s] without its leading and trailing bytes [c]. *)
Definition stripped (c : ascii) (s t : string) : Prop :=
  (exists p q, all (fun a => Ascii.eqb a c) p = true /\
               all (fun a => Ascii.eqb a c) q = true /\
               s = p +:+ t +:+ q) /\
  firstIs c t = false /\ lastIs c t = false.

End StringSpec.

(** ** Sanitization in the words of the specification *)

Module FilenameSpec.
Import Bytes Strings Filename.

(** The maximal runs of a string: neighbouring bytes share a run when both
    are in the class [a-zA-Z0-9] or both are outside it.  A run carries its
    class. *)
Fixpoint runs (s : string) : list (bool * string) :=
  match s with
  | EmptyString => []
  | String c s' =>
      match runs s' with
      | (k, run) :: rest =>
          if Bool.eqb k (isAlnum c) then (k, String c run) :: rest
          else (isAlnum c, String c EmptyString) :: (k, run) :: rest
      | [] => [(isAlnum c, String c EmptyString)]
      end
  end.

Fixpoint joinRuns (f : bool * string -> string) (rs : list (bool * string)) : string :=
  match rs with
  | [] => EmptyString
  | r :: rs' => f r +:+ joinRuns f rs'
  end.

(** A run outside the class becomes one underscore, a run inside the class
    stays. *)
Definition underscoreRun (r : bool * string) : string :=
  if fst r then snd r else "_".

Definition replaceRuns (s : string) : string := joinRuns underscoreRun (runs s).

(** The runs partition the string, are not empty, hold bytes of their class
    only, and neighbouring runs differ in class: they are maximal. *)
Fixpoint alternating (rs : list (bool * string)) : Prop :=
  match rs with
  | r1 :: ((r2 :: _) as rs') => fst r1 <> fst r2 /\ alternating rs'
  | _ => True
  end.

Definition homogeneous (r : bool * string) : Prop :=
  snd r <> "" /\ all (fun c => Bool.eqb (isAlnum c) (fst r)) (snd r) = true.

(** Inside a match the replacement of the run in progress is out already:
    a leading run outside the class adds nothing. *)
Definition afterMatch (rs : list (bool * string)) : list (bool * string) :=
  match rs with
  | (false, _) :: rest => rest
  | _ => rs
  end.

(** The bytes a sanitized name is made of. *)
Definition isWord (c : ascii) : bool := isAlnum c || isUnderscore c.

(** A byte outside the class [a-zA-Z0-9]. *)
Definition notAlnum (c : ascii) : bool := negb (isAlnum c).

End FilenameSpec.

(** ** The branches of the handler *)

(** The response of a handler that set the content type, sent [code] and
    wrote the one document [doc]. *)
Definition respond (code : Z) (doc : gmap string string) : ResponseWriter :=
  {| rw_header := <[ "Content-Type" := "application/json" ]> ∅;
     rw_wroteHeader := true;
     rw_status := code;
     rw_sentHeader := <[ "Content-Type" := "application/json" ]> ∅;
     rw_body := [doc] |}.

(** The caller presents credentials that [model.AuthenticateUser] accepts,
    for the user [user]. *)
Definition Authenticates (h : CourseHandler) (r : Request) (user : User) : Prop :=
  exists username password,
    req_BasicAuth r = Some (username, password) /\
    AuthenticateUser (db h) username password = inr user.

(** The request is well formed: the course id parses to [courseID], the
    multipart form parses to [form], and it has the part [file]. *)
Definition WellFormed (L : Lib) (r : Request) (courseID : UUID)
    (form : ParsedForm) (file : string) : Prop :=
  uuid_Parse L (PathValue r "course_id") = inr courseID /\
  req_ParseMultipartForm r = inr form /\
  FormFile form "file" = inr file.

(** The course id resolves to a course, and its instructor id to an
    instructor. *)
Definition Resolves (h : CourseHandler) (courseID : UUID)
    (course : Course) (instructor : Instructor) : Prop :=
  GetCourseByID (db h) courseID = inr course /\
  GetInstructorByID (db h) (course_InstructorID course) = inr instructor.

(** The [vectorID] variable of the handler. *)
Definition vectorID_of (form : ParsedForm) : option string :=
  let vid := FormValue form "vector_id" in
  if negb (String.eqb vid "") then Some vid else None.

(** The row the handler hands to [model.InsertTrace]. *)
Definition traceRow (user : User) (course : Course) (instructor : Instructor)
    (status : string) (courseID : UUID) (form : ParsedForm) (bucketURL : string) : Trace :=
  {| trace_user_id := user_ID user;
     trace_instructor_id := course_InstructorID course;
     trace_status := status;
     trace_course_id := courseID;
     trace_vector_id := vectorID_of form;
     trace_file_name := deriveName course instructor;
     trace_bucket_url := bucketURL |}.

(** The message the handler hands to the producer. *)
Definition notification (L : Lib) (course : Course) (instructor : Instructor)
    (bucketURL : string) : ProducerMessage :=
  {| msg_Topic := "pdf-upload";
     msg_Value := traceMessage L course instructor bucketURL |}.

(** The keys of the notification. *)
Definition notificationKeys : gset string :=
  {[ "instructor_name"; "course_code"; "semester_term"; "semester_year";
     "course_name"; "credit_hours"; "bucket_path" ]}.

(** A request that is not well formed. *)
Definition Malformed (L : Lib) (r : Request) : Prop :=
  (exists err, uuid_Parse L (PathValue r "course_id") = inl err) \/
  (exists err, req_ParseMultipartForm r = inl err) \/
  (exists form err, req_ParseMultipartForm r = inr form /\ FormFile form "file" = inl err).

(** The course, or its instructor, cannot be fetched. *)
Definition Unresolved (h : CourseHandler) (courseID : UUID) : Prop :=
  (exists err, GetCourseByID (db h) courseID = inl err) \/
  (exists course err, GetCourseByID (db h) courseID = inr course /\
                      GetInstructorByID (db h) (course_InstructorID course) = inl err).

(** The same handler with another producer, the same library with another
    outcome of [json.Marshal]. *)
Definition withProducer (h : CourseHandler) (p : SyncProducer) : CourseHandler :=
  {| db := db h; gcsClient := gcsClient h; bucketName := bucketName h; producer := p |}.

Definition withMarshal (L : Lib) (j : gmap string string -> option error) : Lib :=
  {| uuid_Parse := uuid_Parse L; unicode_mapLower := unicode_mapLower L;
     json_Marshal_result := j |}.

(** Every request takes one of these branches. *)
Inductive Path (L : Lib) (h : CourseHandler) (r : Request) : Prop :=
| NoCredentials :
    req_BasicAuth r = None -> Path L h r
| BadCredentials username password err :
    req_BasicAuth r = Some (username, password) ->
    AuthenticateUser (db h) username password = inl err -> Path L h r
| Forbidden user :
    Authenticates h r user -> user_Role user <> "admin" -> Path L h r
| BadCourseID user err :
    Authenticates h r user -> user_Role user = "admin" ->
    uuid_Parse L (PathValue r "course_id") = inl err -> Path L h r
| BadForm user courseID err :
    Authenticates h r user -> user_Role user = "admin" ->
    uuid_Parse L (PathValue r "course_id") = inr courseID ->
    req_ParseMultipartForm r = inl err -> Path L h r
| MissingFile user courseID form err :
    Authenticates h r user -> user_Role user = "admin" ->
    uuid_Parse L (PathValue r "course_id") = inr courseID ->
    req_ParseMultipartForm r = inr form ->
    FormFile form "file" = inl err -> Path L h r
| CourseError user courseID form file err :
    Authenticates h r user -> user_Role user = "admin" ->
    WellFormed L r courseID form file ->
    GetCourseByID (db h) courseID = inl err -> Path L h r
| InstructorError user courseID form file course err :
    Authenticates h r user -> user_Role user = "admin" ->
    WellFormed L r courseID form file ->
    GetCourseByID (db h) courseID = inr course ->
    GetInstructorByID (db h) (course_InstructorID course) = inl err -> Path L h r
| UploadFailedRecorded user courseID form file course instructor err :
    Authenticates h r user -> user_Role user = "admin" ->
    WellFormed L r courseID form file ->
    Resolves h courseID course instructor ->
    uploadToGCS h file (deriveName course instructor) = inl err ->
    InsertTrace_result (db h) (traceRow user course instructor "failed" courseID form "")
      = None -> Path L h r
| UploadFailedUnrecorded user courseID form file course instructor err err' :
    Authenticates h r user -> user_Role user = "admin" ->
    WellFormed L r courseID form file ->
    Resolves h courseID course instructor ->
    uploadToGCS h file (deriveName course instructor) = inl err ->
    InsertTrace_result (db h) (traceRow user course instructor "failed" courseID form "")
      = Some err' -> Path L h r
| InsertFailed user courseID form file course instructor bucketURL err :
    Authenticates h r user -> user_Role user = "admin" ->
    WellFormed L r courseID form file ->
    Resolves h courseID course instructor ->
    uploadToGCS h file (deriveName course instructor) = inr bucketURL ->
    InsertTrace_result (db h)
      (traceRow user course instructor "uploaded" courseID form bucketURL) = Some err ->
    Path L h r
| Created user courseID form file course instructor bucketURL :
    Authenticates h r user -> user_Role user = "admin" ->
    WellFormed L r courseID form file ->
    Resolves h courseID course instructor ->
    uploadToGCS h file (deriveName course instructor) = inr bucketURL ->
    InsertTrace_result (db h)
      (traceRow user course instructor "uploaded" courseID form bucketURL) = None ->
    Path L h r.

(** ** A small deployment to run the handler on *)

Module Demo.

Definition courseID : UUID := 190741239871236%N.
Definition otherID : UUID := 5%N.
Definition instructorID : UUID := 77%N.

Definition lib : Lib :=
  {| uuid_Parse := fun s =>
       if String.eqb s "8f14e45f-ceea-467f-a9c1-0d4b5e3a7c21" then inr courseID
       else if String.eqb s "00000000-0000-0000-0000-000000000005" then inr otherID
       else inl "invalid UUID length";
     unicode_mapLower := fun s => s;
     json_Marshal_result := fun _ => None |}.

Definition administrator : User := {| user_ID := 3%N; user_Role := "admin" |}.
Definition student : User := {| user_ID := 4%N; user_Role := "user" |}.

Definition course : Course :=
  {| course_Name := "Network Structures & Cloud Computing";
     course_SubjectCode := "CSYE";
     course_CourseID := 7125;
     course_SemesterTerm := "Spring";
     course_SemesterYear := 2025;
     course_CreditHours := 4;
     course_InstructorID := instructorID |}.

Definition instructor : Instructor := {| instructor_Name := "Dr. Tejas Parikh" |}.

Definition database : DB :=
  {| AuthenticateUser := fun username password =>
       if String.eqb username "root@example.com" && String.eqb password "s3cret"
       then inr administrator
       else if String.eqb username "jane@example.com" && String.eqb password "pa55"
       then inr student
       else inl "invalid credentials";
     GetCourseByID := fun id =>
       if N.eqb id courseID then inr course else inl "sql: no rows in result set";
     GetInstructorByID := fun id =>
       if N.eqb id instructorID then inr instructor else inl "sql: no rows in result set";
     InsertTrace_result := fun _ => None |}.

Definition workingStorage : Storage :=
  {| gcs_Copy := fun _ _ => None;
     gcs_Close := fun _ => None;
     gcs_Attrs_Name := fun name => inr name |}.

Definition failingStorage : Storage :=
  {| gcs_Copy := fun _ _ => Some "googleapi: Error 403: forbidden";
     gcs_Close := fun _ => None;
     gcs_Attrs_Name := fun name => inr name |}.

Definition workingProducer : SyncProducer :=
  {| SendMessage := fun _ => inr (0, 42) |}.

Definition failingProducer : SyncProducer :=
  {| SendMessage := fun _ => inl "kafka: client has run out of available brokers" |}.

Definition handler : CourseHandler :=
  {| db := database; gcsClient := workingStorage; bucketName := "trace-bucket";
     producer := workingProducer |}.

Definition handlerWithFailingStorage : CourseHandler :=
  {| db := database; gcsClient := failingStorage; bucketName := "trace-bucket";
     producer := workingProducer |}.

Definition payload : string := "%PDF-1.7 trace".

Definition form (vectorID : list string) : ParsedForm :=
  {| Form := {[ "vector_id" := vectorID ]};
     File := {[ "file" := [ {| fh_Open := inr payload |} ] ]} |}.

Definition request : Request :=
  {| req_BasicAuth := Some ("root@example.com", "s3cret");
     req_PathValues := {[ "course_id" := "8f14e45f-ceea-467f-a9c1-0d4b5e3a7c21" ]};
     req_ParseMultipartForm := inr (form ["vec-17"]) |}.

(** The field [vector_id] is there and empty. *)
Definition requestWithEmptyVectorID : Request :=
  {| req_BasicAuth := Some ("root@example.com", "s3cret");
     req_PathValues := {[ "course_id" := "8f14e45f-ceea-467f-a9c1-0d4b5e3a7c21" ]};
     req_ParseMultipartForm := inr (form [""]) |}.

(** The credentials of a user who is not an administrator. *)
Definition requestOfStudent : Request :=
  {| req_BasicAuth := Some ("jane@example.com", "pa55");
     req_PathValues := {[ "course_id" := "8f14e45f-ceea-467f-a9c1-0d4b5e3a7c21" ]};
     req_ParseMultipartForm := inr (form ["vec-17"]) |}.

(** A course id that parses and names no course. *)
Definition requestForUnknownCourse : Request :=
  {| req_BasicAuth := Some ("root@example.com", "s3cret");
     req_PathValues := {[ "course_id" := "00000000-0000-0000-0000-000000000005" ]};
     req_ParseMultipartForm := inr (form ["vec-17"]) |}.

Definition fileName : string :=
  "Network_Structures_Cloud_Computing_Dr_Tejas_Parikh_CSYE_7125_Spring_2025.pdf".

Definition location : string :=
  "https://storage.googleapis.com/trace-bucket/" +:+ fileName.

End Demo.

(** ** The shape of a sanitized name *)

Module NameShape.
Import Bytes Strings Filename StringSpec FilenameSpec.

Definition startsAlnum (s : string) : bool :=
  match s with
  | String c _ => isAlnum c
  | EmptyString => false
  end.

(** The words of a string: its maximal runs of letters and digits, in
    order. *)
Fixpoint words (s : string) : list string :=
  match s with
  | EmptyString => []
  | String c s' =>
      if isAlnum c then
        match startsAlnum s', words s' with
        | true, w :: ws => String c w :: ws
        | _, ws => String c EmptyString :: ws
        end
      else words s'
  end.

(** [strings.Join(ws, "_")]. *)
Fixpoint joinWords (ws : list string) : string :=
  match ws with
  | [] => EmptyString
  | w :: ws' =>
      match ws' with
      | [] => w
      | _ :: _ => w +:+ "_" +:+ joinWords ws'
      end
  end.

(** A word is not empty and holds letters and digits only. *)
Definition isWordOf (w : string) : Prop := w <> "" /\ all isAlnum w = true.

(** No two underscores next to each other. *)
Fixpoint noDouble (s : string) : bool :=
  match s with
  | EmptyString => true
  | String a s' =>
      negb (isUnderscore a && firstIs "_" s') && noDouble s'
  end.

(** A clean name: letters, digits and underscores, no underscore at either
    end and no two underscores in a row. *)
Definition clean (s : string) : bool :=
  all isWord s && noDouble s && negb (firstIs "_" s) && negb (lastIs "_" s).

(** The letters and digits of a string, in order. *)
Fixpoint keepAlnum (s : string) : string :=
  match s with
  | EmptyString => EmptyString
  | String c s' => if isAlnum c then String c (keepAlnum s') else keepAlnum s'
  end.

(** What the scanner emits before the first word: an underscore when the
    string starts outside the class and no match is in progress. *)
Definition lead (inMatch : bool) (s : string) : string :=
  match s with
  | String c _ => if negb inMatch && negb (isAlnum c) then "_" else EmptyString
  | EmptyString => EmptyString
  end.

End NameShape.

(** ** The table [api.traces] and the envelope of a response *)

(** The CHECK constraint on the column [status] of
    [migrations/003_create_trace_table.sql], and its [VARCHAR(10)]. *)
Definition status_allowed (s : string) : bool :=
  String.eqb s "failed" || String.eqb s "processed" || String.eqb s "uploaded".

Definition fits_status_column (s : string) : bool :=
  (String.length s <=? 10)%nat.

(** The value [handleAuthError] gives to [WWW-Authenticate]. *)
Definition challenge : string :=
  "Basic realm=" +:+ dquote +:+ "Course Authentication Required" +:+ dquote.

(** The keys of the body a status comes with. *)
Definition bodyKeys (status : Z) : gset string :=
  if status =? StatusCreated then {[ "message"; "bucket_url" ]} else {[ "error" ]}.

(** The same handler over a database whose insert answers [f]. *)
Definition withInsertResult (h : CourseHandler) (f : Trace -> option error) : CourseHandler :=
  {| db := {| AuthenticateUser := AuthenticateUser (db h);
              GetCourseByID := GetCourseByID (db h);
              GetInstructorByID := GetInstructorByID (db h);
              InsertTrace_result := f |};
     gcsClient := gcsClient h; bucketName := bucketName h; producer := producer h |}.

(** The lines the success path logs about the notification. *)
Definition notificationLog (L : Lib) (h : CourseHandler) (course : Course)
    (instructor : Instructor) (bucketURL : string) : list string :=
  match json_Marshal_result L (traceMessage L course instructor bucketURL) with
  | Some err => ["Failed to marshal Kafka message: " +:+ err]
  | None =>
      match SendMessage (producer h) (notification L course instructor bucketURL) with
      | inl err => ["Failed to send Kafka message: " +:+ err]
      | inr (partition, offset) =>
          ["Sent message to partition " +:+ Strings.itoa partition
           +:+ ", offset " +:+ Strings.itoa offset]
      end
  end.

(** The world a request leaves, whatever branch it takes, as a disjunction
    of the shapes it can have. *)
Inductive Leaves (L : Lib) (h : CourseHandler) (r : Request) : World -> Prop :=
| LeftUnauthenticated err :
    (forall user, ~ Authenticates h r user) ->
    Leaves L h r
      {| w := {| rw_header := <[ "WWW-Authenticate" := challenge ]>
                              (<[ "Content-Type" := "application/json" ]> ∅);
                 rw_wroteHeader := true;
                 rw_status := StatusUnauthorized;
                 rw_sentHeader := <[ "WWW-Authenticate" := challenge ]>
                                  (<[ "Content-Type" := "application/json" ]> ∅);
                 rw_body := [errorBody err] |};
         traces := []; gcs_writes := []; outbox := []; logs := [] |}
| LeftForbidden user :
    Authenticates h r user -> user_Role user <> "admin" ->
    Leaves L h r
      {| w := {| rw_header := <[ "WWW-Authenticate" := challenge ]>
                              (<[ "Content-Type" := "application/json" ]> ∅);
                 rw_wroteHeader := true;
                 rw_status := StatusForbidden;
                 rw_sentHeader := <[ "Content-Type" := "application/json" ]> ∅;
                 rw_body := [errorBody "Insufficient permissions";
                             errorBody "insufficient permissions"] |};
         traces := []; gcs_writes := []; outbox := []; logs := [] |}
| LeftBadRequest user msg :
    Authenticates h r user -> user_Role user = "admin" ->
    Leaves L h r
      {| w := respond StatusBadRequest (errorBody msg);
         traces := []; gcs_writes := []; outbox := []; logs := [] |}
| LeftUnresolved user msg line :
    Authenticates h r user -> user_Role user = "admin" ->
    Leaves L h r
      {| w := respond StatusInternalServerError (errorBody msg);
         traces := []; gcs_writes := []; outbox := []; logs := [line] |}
| LeftUploadFailed user courseID form file course instructor err rows msg :
    Authenticates h r user -> user_Role user = "admin" ->
    WellFormed L r courseID form file ->
    Resolves h courseID course instructor ->
    uploadToGCS h file (deriveName course instructor) = inl err ->
    rows = [] \/ rows = [traceRow user course instructor "failed" courseID form ""] ->
    Leaves L h r
      {| w := respond StatusInternalServerError (errorBody msg);
         traces := rows;
         gcs_writes := [(deriveName course instructor, file)];
         outbox := [];
         logs := ["GCS upload failed: " +:+ err] |}
| LeftInsertFailed user courseID form file course instructor bucketURL :
    Authenticates h r user -> user_Role user = "admin" ->
    WellFormed L r courseID form file ->
    Resolves h courseID course instructor ->
    uploadToGCS h file (deriveName course instructor) = inr bucketURL ->
    Leaves L h r
      {| w := respond StatusInternalServerError (errorBody "Failed to insert trace record");
         traces := [];
         gcs_writes := [(deriveName course instructor, file)];
         outbox := [];
         logs := [] |}
| LeftCreated user courseID form file course instructor bucketURL msgs :
    Authenticates h r user -> user_Role user = "admin" ->
    WellFormed L r courseID form file ->
    Resolves h courseID course instructor ->
    uploadToGCS h file (deriveName course instructor) = inr bucketURL ->
    msgs = [] \/ msgs = [notification L course instructor bucketURL] ->
    Leaves L h r
      {| w := respond StatusCreated (successBody bucketURL);
         traces := [traceRow user course instructor "uploaded" courseID form bucketURL];
         gcs_writes := [(deriveName course instructor, file)];
         outbox := msgs;
         logs := notificationLog L h course instructor bucketURL |}.

(** ** Outcomes that differ in the text of an error only *)

Definition sameButErrorText {A} (x y : error + A) : Prop :=
  match x, y with
  | inl _, inl _ => True
  | inr a, inr b => a = b
  | _, _ => False
  end.

Definition sameButErrorTextOpt (x y : option error) : Prop :=
  match x, y with
  | Some _, Some _ => True
  | None, None => True
  | _, _ => False
  end.

(** Two deployments that authenticate alike and whose library, database,
    storage and producer succeed and fail on the same calls, with the same
    results when they succeed. *)
Record SameButErrorTexts (L L' : Lib) (h h' : CourseHandler) : Prop := {
  same_uuid : forall s, sameButErrorText (uuid_Parse L s) (uuid_Parse L' s);
  same_lower : forall s, unicode_mapLower L s = unicode_mapLower L' s;
  same_marshal : forall m,
    sameButErrorTextOpt (json_Marshal_result L m) (json_Marshal_result L' m);
  same_auth : forall u p,
    AuthenticateUser (db h) u p = AuthenticateUser (db h') u p;
  same_course : forall id,
    sameButErrorText (GetCourseByID (db h) id) (GetCourseByID (db h') id);
  same_instructor : forall id,
    sameButErrorText (GetInstructorByID (db h) id) (GetInstructorByID (db h') id);
  same_insert : forall row,
    sameButErrorTextOpt (InsertTrace_result (db h) row) (InsertTrace_result (db h') row);
  same_copy : forall name file,
    sameButErrorTextOpt (gcs_Copy (gcsClient h) name file) (gcs_Copy (gcsClient h') name file);
  same_close : forall name,
    sameButErrorTextOpt (gcs_Close (gcsClient h) name) (gcs_Close (gcsClient h') name);
  same_attrs : forall name,
    sameButErrorText (gcs_Attrs_Name (gcsClient h) name) (gcs_Attrs_Name (gcsClient h') name);
  same_bucket : bucketName h = bucketName h';
  same_send : forall msg,
    sameButErrorText (SendMessage (producer h) msg) (SendMessage (producer h') msg);
}.

(** * The other handlers of [course.go] *)

Definition StatusNotFound : Z := 404.

(** ** Errors with an identity, and what the handlers read and delete *)

(** An error of [database/sql] as the handlers tell it apart: the value
    [sql.ErrNoRows], which they compare with [==], or any other error, of
    which only the text is known. *)
Inductive dberror :=
| ErrNoRows
| ErrOther (text : string).

(** [err.Error()]. *)
Definition Error (e : dberror) : error :=
  match e with
  | ErrNoRows => "sql: no rows in result set"
  | ErrOther text => text
  end.

(** Modelled from the spec: [model.Trace] as the read functions of
    [internal/model] return it, the row with the identifier the database gave
    it. *)
Record StoredTrace := {
  stored_id : UUID;
  stored_row : Trace;
}.

(** The read and delete functions of [internal/model] over [h.db], an
    outcome per argument. *)
Record Repository := {
  repo_GetCourseByID : UUID -> dberror + Course;
  repo_DeleteCourseByID : UUID -> option dberror;
  repo_GetTracesByCourseID : UUID -> dberror + list StoredTrace;
  repo_GetTraceByID : UUID -> UUID -> dberror + StoredTrace;
  repo_DeleteTraceByID : UUID -> UUID -> option dberror;
}.

(** A JSON value written to the body that is not a [map[string]string]:
    a course, a trace, or the object [{"data": traces}]. *)
Inductive Value :=
| VCourse (course : Course)
| VTrace (trace : StoredTrace)
| VData (traces : list StoredTrace).

(** A delete that reached the database. *)
Inductive Call :=
| CallDeleteCourse (courseID : UUID)
| CallDeleteTrace (courseID traceID : UUID).

(** The state of a request to one of these handlers: the state of the
    upload handler, the values written to the body after the status, and the
    deletes that reached the database. *)
Record Site := {
  world : World;
  values : list Value;
  calls : list Call;
}.

Definition newSite : Site := {| world := newWorld; values := []; calls := [] |}.

Definition MS (A : Type) : Type := Site -> option A * Site.

Definition retS {A} (a : A) : MS A := fun s => (Some a, s).

Definition bindS {A B} (m : MS A) (k : A -> MS B) : MS B :=
  fun s => match m s with
           | (Some a, s') => k a s'
           | (None, s') => (None, s')
           end.

Definition leaveS {A} : MS A := fun s => (None, s).

(** A step of the upload handler's monad, run on the [world] of the site. *)
Definition liftW {A} (m : M A) : MS A :=
  fun s => match m (world s) with
           | (a, w') => (a, {| world := w'; values := values s; calls := calls s |})
           end.

Declare Scope site_scope.
Delimit Scope site_scope with site.
Notation "x <- m ;; k" := (bindS m (fun x => k))
  (at level 100, m at next level, right associativity) : site_scope.
Notation "m ;; k" := (bindS m (fun _ => k))
  (at level 100, right associativity) : site_scope.

Module Handlers.
Local Open Scope site_scope.

Section Handlers.

Variable L : Lib.
Variable h : CourseHandler.
Variable repo : Repository.

(** [w.WriteHeader(code)] followed by [json.NewEncoder(w).Encode(m)]. *)
Definition reply (code : Z) (m : gmap string string) : MS unit :=
  liftW (WriteHeader code) ;; liftW (Encode m).

(** [json.NewEncoder(w).Encode(v)] for a value that is not a map of
    strings: the status goes out if it has not, and the value follows. *)
Definition EncodeValue (v : Value) : MS unit :=
  liftW (modify_w (rw_WriteHeader StatusOK)) ;;
  fun s => (Some tt, {| world := world s; values := values s ++ [v]; calls := calls s |}).

Definition orLeaveS {A} (x : error + A) (onError : error -> MS unit) : MS A :=
  match x with
  | inl e => onError e ;; leaveS
  | inr a => retS a
  end.

(** The opening of every handler that authenticates:
    [user, err := h.authenticateRequest(w, r)], and on an error
    [h.handleAuthError(w, err)] and [return]. *)
Definition authenticate (r : Request) : MS User :=
  auth <- liftW (authenticateRequest h r) ;;
  orLeaveS auth (fun err => liftW (handleAuthError err)).

Definition call_DeleteCourseByID (courseID : UUID) : MS (option dberror) :=
  fun s => (Some (repo_DeleteCourseByID repo courseID),
            {| world := world s; values := values s;
               calls := calls s ++ [CallDeleteCourse courseID] |}).

Definition call_DeleteTraceByID (courseID traceID : UUID) : MS (option dberror) :=
  fun s => (Some (repo_DeleteTraceByID repo courseID traceID),
            {| world := world s; values := values s;
               calls := calls s ++ [CallDeleteTrace courseID traceID] |}).

(** [GetCourseByID], the handler of [GET /v1/course/{course_id}]. *)
Definition GetCourseByID (r : Request) : MS unit :=
  liftW (Header_Set "Content-Type" "application/json") ;;
  let courseIDStr := PathValue r "course_id" in
  (if String.eqb courseIDStr "" then
     reply StatusBadRequest (errorBody "Course ID is required") ;; leaveS
   else retS tt) ;;
  courseID <- orLeaveS (uuid_Parse L courseIDStr) (fun _ =>
    reply StatusBadRequest (errorBody "Invalid course ID format")) ;;
  match repo_GetCourseByID repo courseID with
  | inl err =>
      match err with
      | ErrNoRows => reply StatusNotFound (errorBody "Course not found") ;; leaveS
      | ErrOther _ =>
          reply StatusInternalServerError (errorBody "Failed to retrieve course") ;; leaveS
      end
  | inr course =>
      liftW (WriteHeader StatusOK) ;;
      EncodeValue (VCourse course)
  end.

(** [DeleteCourseByID]. *)
Definition DeleteCourseByID (r : Request) : MS unit :=
  liftW (Header_Set "Content-Type" "application/json") ;;
  _ <- authenticate r ;;
  let courseIDStr := PathValue r "course_id" in
  (if String.eqb courseIDStr "" then
     reply StatusBadRequest (errorBody "Course ID is required") ;; leaveS
   else retS tt) ;;
  courseID <- orLeaveS (uuid_Parse L courseIDStr) (fun _ =>
    reply StatusBadRequest (errorBody "Invalid course ID format")) ;;
  err <- call_DeleteCourseByID courseID ;;
  match err with
  | Some ErrNoRows => reply StatusNotFound (errorBody "Course not found") ;; leaveS
  | Some (ErrOther _) =>
      reply StatusInternalServerError (errorBody "Failed to delete course") ;; leaveS
  | None =>
      reply StatusOK {[ "message" := "Course deleted successfully" ]}
  end.

(** [GetTracesByCourseID]. *)
Definition GetTracesByCourseID (r : Request) : MS unit :=
  liftW (Header_Set "Content-Type" "application/json") ;;
  _ <- authenticate r ;;
  let courseIDStr := PathValue r "course_id" in
  courseID <- orLeaveS (uuid_Parse L courseIDStr) (fun _ =>
    reply StatusBadRequest (errorBody "Invalid course_id format")) ;;
  match repo_GetTracesByCourseID repo courseID with
  | inl _ =>
      reply StatusInternalServerError (errorBody "Failed to retrieve traces") ;; leaveS
  | inr traces =>
      liftW (WriteHeader StatusOK) ;;
      EncodeValue (VData traces)
  end.

(** [GetTraceByID]: it authenticates, checks the role once more, and looks
    the trace up. *)
Definition GetTraceByID (r : Request) : MS unit :=
  liftW (Header_Set "Content-Type" "application/json") ;;
  user <- authenticate r ;;
  (if negb (String.eqb (user_Role user) "admin") then
     reply StatusForbidden (errorBody "Insufficient permissions") ;; leaveS
   else retS tt) ;;
  let courseIDStr := PathValue r "course_id" in
  let traceIDStr := PathValue r "trace_id" in
  courseID <- orLeaveS (uuid_Parse L courseIDStr) (fun _ =>
    reply StatusBadRequest (errorBody "Invalid course_id format")) ;;
  traceID <- orLeaveS (uuid_Parse L traceIDStr) (fun _ =>
    reply StatusBadRequest (errorBody "Invalid trace_id format")) ;;
  match repo_GetTraceByID repo courseID traceID with
  | inl err =>
      match err with
      | ErrNoRows => reply StatusNotFound (errorBody "Trace not found") ;; leaveS
      | ErrOther _ =>
          reply StatusInternalServerError (errorBody "Failed to retrieve trace") ;; leaveS
      end
  | inr trace =>
      liftW (WriteHeader StatusOK) ;;
      EncodeValue (VTrace trace)
  end.

(** [GetTraceByID] with its own check of the role taken out, to compare
    with. *)
Definition GetTraceByID_without_role_check (r : Request) : MS unit :=
  liftW (Header_Set "Content-Type" "application/json") ;;
  _ <- authenticate r ;;
  let courseIDStr := PathValue r "course_id" in
  let traceIDStr := PathValue r "trace_id" in
  courseID <- orLeaveS (uuid_Parse L courseIDStr) (fun _ =>
    reply StatusBadRequest (errorBody "Invalid course_id format")) ;;
  traceID <- orLeaveS (uuid_Parse L traceIDStr) (fun _ =>
    reply StatusBadRequest (errorBody "Invalid trace_id format")) ;;
  match repo_GetTraceByID repo courseID traceID with
  | inl err =>
      match err with
      | ErrNoRows => reply StatusNotFound (errorBody "Trace not found") ;; leaveS
      | ErrOther _ =>
          reply StatusInternalServerError (errorBody "Failed to retrieve trace") ;; leaveS
      end
  | inr trace =>
      liftW (WriteHeader StatusOK) ;;
      EncodeValue (VTrace trace)
  end.

(** [DeleteTraceByID]. *)
Definition DeleteTraceByID (r : Request) : MS unit :=
  liftW (Header_Set "Content-Type" "application/json") ;;
  _ <- authenticate r ;;
  let courseIDStr := PathValue r "course_id" in
  let traceIDStr := PathValue r "trace_id" in
  courseID <- orLeaveS (uuid_Parse L courseIDStr) (fun _ =>
    reply StatusBadRequest (errorBody "Invalid course_id format")) ;;
  traceID <- orLeaveS (uuid_Parse L traceIDStr) (fun _ =>
    reply StatusBadRequest (errorBody "Invalid trace_id format")) ;;
  err <- call_DeleteTraceByID courseID traceID ;;
  match err with
  | Some ErrNoRows => reply StatusNotFound (errorBody "Trace not found") ;; leaveS
  | Some (ErrOther _) =>
      reply StatusInternalServerError (errorBody "Failed to delete trace") ;; leaveS
  | None =>
      reply StatusOK {[ "message" := "Trace deleted successfully" ]}
  end.

(** The state in which a handler leaves a fresh request. *)
Definition visit (handler : Request -> MS unit) (r : Request) : Site :=
  snd (handler r newSite).

End Handlers.
End Handlers.

(** What a handler leaves when the caller does not pass
    [authenticateRequest]. *)
Definition unauthenticatedWorld (err : error) : World :=
  {| w := {| rw_header := <[ "WWW-Authenticate" := challenge ]>
                          (<[ "Content-Type" := "application/json" ]> ∅);
             rw_wroteHeader := true;
             rw_status := StatusUnauthorized;
             rw_sentHeader := <[ "WWW-Authenticate" := challenge ]>
                              (<[ "Content-Type" := "application/json" ]> ∅);
             rw_body := [errorBody err] |};
     traces := []; gcs_writes := []; outbox := []; logs := [] |}.

Definition forbiddenWorld : World :=
  {| w := {| rw_header := <[ "WWW-Authenticate" := challenge ]>
                          (<[ "Content-Type" := "application/json" ]> ∅);
             rw_wroteHeader := true;
             rw_status := StatusForbidden;
             rw_sentHeader := <[ "Content-Type" := "application/json" ]> ∅;
             rw_body := [errorBody "Insufficient permissions";
                         errorBody "insufficient permissions"] |};
     traces := []; gcs_writes := []; outbox := []; logs := [] |}.

(** The error [authenticateRequest] returns for a caller who is not
    authenticated. *)
Definition authenticationError (h : CourseHandler) (r : Request) : option error :=
  match req_BasicAuth r with
  | None => Some "authentication required"
  | Some (username, password) =>
      match AuthenticateUser (db h) username password with
      | inl err => Some err
      | inr _ => None
      end
  end.

(** The site of a response that wrote the one document [doc]. *)
Definition replied (code : Z) (doc : gmap string string) (cs : list Call) : Site :=
  {| world := {| w := respond code doc; traces := []; gcs_writes := [];
                 outbox := []; logs := [] |};
     values := []; calls := cs |}.

(** The site of a 200 response that wrote the one value [v]. *)
Definition answered (v : Value) : Site :=
  {| world := {| w := {| rw_header := <[ "Content-Type" := "application/json" ]> ∅;
                         rw_wroteHeader := true;
                         rw_status := StatusOK;
                         rw_sentHeader := <[ "Content-Type" := "application/json" ]> ∅;
                         rw_body := [] |};
                 traces := []; gcs_writes := []; outbox := []; logs := [] |};
     values := [v]; calls := [] |}.

(** The gate of [authenticateRequest] and [handleAuthError] in front of what
    a handler does for an administrator. *)
Definition gate (h : CourseHandler) (r : Request) (admin : User -> Site) : Site :=
  match req_BasicAuth r with
  | None =>
      {| world := unauthenticatedWorld "authentication required";
         values := []; calls := [] |}
  | Some (username, password) =>
      match AuthenticateUser (db h) username password with
      | inl err => {| world := unauthenticatedWorld err; values := []; calls := [] |}
      | inr user =>
          if String.eqb (user_Role user) "admin" then admin user
          else {| world := forbiddenWorld; values := []; calls := [] |}
      end
  end.

(** The handlers of [course.go] that open with [authenticateRequest], the
    upload handler left aside. *)
Definition gatedHandlers (L : Lib) (h : CourseHandler) (repo : Repository)
    : list (Request -> MS unit) :=
  [ Handlers.DeleteCourseByID L h repo;
    Handlers.GetTracesByCourseID L h repo;
    Handlers.GetTraceByID L h repo;
    Handlers.DeleteTraceByID L h repo ].

(** ** A repository for the demonstration deployment *)

Module DemoRepository.

Definition traceID : UUID := 4242%N.

Definition storedTrace : StoredTrace :=
  {| stored_id := traceID;
     stored_row := {| trace_user_id := 3%N; trace_instructor_id := Demo.instructorID;
                      trace_status := "uploaded"; trace_course_id := Demo.courseID;
                      trace_vector_id := None; trace_file_name := Demo.fileName;
                      trace_bucket_url := Demo.location |} |}.

Definition repository : Repository :=
  {| repo_GetCourseByID := fun id =>
       if N.eqb id Demo.courseID then inr Demo.course else inl ErrNoRows;
     repo_DeleteCourseByID := fun id =>
       if N.eqb id Demo.courseID then None else Some ErrNoRows;
     repo_GetTracesByCourseID := fun id =>
       if N.eqb id Demo.courseID then inr [storedTrace] else inr [];
     repo_GetTraceByID := fun courseID id =>
       if N.eqb courseID Demo.courseID && N.eqb id traceID then inr storedTrace
       else inl ErrNoRows;
     repo_DeleteTraceByID := fun courseID id =>
       if N.eqb courseID Demo.courseID && N.eqb id traceID then None
       else Some ErrNoRows |}.


End DemoRepository.

(** The number of JSON documents in the body of a response. *)
Definition documents (s : Site) : nat :=
  (length (rw_body (w (world s))) + length (values s))%nat.

(** An administrator asks for a trace that is not there. *)
Definition requestForUnknownTrace : Request :=
  {| req_BasicAuth := Some ("root@example.com", "s3cret");
     req_PathValues := <[ "trace_id" := "00000000-0000-0000-0000-000000000005" ]>
                       {[ "course_id" := "8f14e45f-ceea-467f-a9c1-0d4b5e3a7c21" ]};
     req_ParseMultipartForm := inl "request Content-Type isn't multipart/form-data" |}.

(** * Configuration and construction *)

Module Configuration.

(** [config.Config]. *)
Record Config := {
  DBHost : string;
  DBPort : string;
  DBUser : string;
  DBPassword : string;
  DBName : string;
  GCSBucketName : string;
  GCSCredentialsFile : string;
}.

(** The process environment. *)
Definition Environ := gmap string string.

(** [os.Getenv]: the empty string for a variable that is not set. *)
Definition Getenv (env : Environ) (key : string) : string := default "" (env !! key).

(** [getEnv]: the value of the variable when it exists, the fallback
    otherwise. *)
Definition getEnv (env : Environ) (key fallback : string) : string :=
  match env !! key with
  | Some value => value
  | None => fallback
  end.

(** [godotenv.Load(path)]: when the file is read and parsed to [vars], each
    variable of [vars] that the environment does not have yet is set; when
    it is not, the environment stays as it is and the error comes back. *)
Definition godotenv_Load (file : error + gmap string string) (env : Environ)
    : option error * Environ :=
  match file with
  | inl err => (Some err, env)
  | inr vars => (None, env ∪ vars)
  end.

(** [NewConfig]: the configuration and the lines it logs.  [file] is what
    reading and parsing [.env] in the working directory gives. *)
Definition NewConfig (env : Environ) (file : error + gmap string string)
    : Config * list string :=
  let '(env, lines) :=
    if String.eqb (Getenv env "ENV") "development" then
      let lines := ["Running in development mode, loading .env file"] in
      match godotenv_Load file env with
      | (Some _, env') =>
          (env', (lines ++ ["Warning: .env file not found, using default values or env vars"])%list)
      | (None, env') => (env', lines)
      end
    else (env, ["Running in production mode, using environment variables directly"]) in
  ({| DBHost := getEnv env "DB_HOST" "localhost";
      DBPort := getEnv env "DB_PORT" "5432";
      DBUser := getEnv env "DB_USER" "admin";
      DBPassword := getEnv env "DB_PASSWORD" "password";
      DBName := getEnv env "DB_NAME" "api";
      GCSBucketName := getEnv env "GCS_BUCKET_NAME" "bucket_name";
      GCSCredentialsFile := getEnv env "GCS_CREDENTIALS_FILE" "credentials.json" |},
   lines).

(** How [storage.NewClient] is called. *)
Inductive ClientOption :=
| WithCredentialsFile (path : string)
| ApplicationDefaultCredentials.

(** [NewCourseHandler]: the lines it logs, and the handler, or the message
    of [log.Fatalf], which ends the process.  [quote] is the verb [%q] of
    [fmt], [storage_NewClient] the constructor of the storage client. *)
Definition NewCourseHandler (quote : string -> string)
    (storage_NewClient : ClientOption -> error + Storage)
    (db : DB) (cfg : Config) (producer : SyncProducer)
    : list string * (string + CourseHandler) :=
  let lines := ["GCSCredentialsFile: " +:+ quote (GCSCredentialsFile cfg)] in
  let '(lines, client) :=
    if negb (String.eqb (GCSCredentialsFile cfg) "") then
      (lines, storage_NewClient (WithCredentialsFile (GCSCredentialsFile cfg)))
    else
      ((lines ++ ["Using Application Default Credentials"])%list,
       storage_NewClient ApplicationDefaultCredentials) in
  match client with
  | inl err => (lines, inl ("Failed to create GCS client: " +:+ err))
  | inr client =>
      (lines, inr {| db := db; gcsClient := client;
                     bucketName := GCSBucketName cfg; producer := producer |})
  end.

(** The variables the configuration is read from, once [.env] is taken in:
    the environment first, then, in development mode, the file. *)
Definition effective (env : Environ) (file : error + gmap string string) : Environ :=
  if String.eqb (Getenv env "ENV") "development" then
    match file with
    | inl _ => env
    | inr vars => env ∪ vars
    end
  else env.

(** The option [NewCourseHandler] passes to [storage.NewClient]. *)
Definition clientOption (cfg : Config) : ClientOption :=
  if String.eqb (GCSCredentialsFile cfg) "" then ApplicationDefaultCredentials
  else WithCredentialsFile (GCSCredentialsFile cfg).

(** The value a setting takes: the environment first, even when it holds
    the empty string; then, in development mode, the file [.env] when it
    could be read; then the fallback. *)
Definition resolved (env : Environ) (file : error + gmap string string)
    (key fallback : string) : string :=
  match env !! key with
  | Some value => value
  | None =>
      if String.eqb (Getenv env "ENV") "development" then
        match file with
        | inr vars => default fallback (vars !! key)
        | inl _ => fallback
        end
      else fallback
  end.

(** The settings of [NewConfig]: variable, fallback and field. *)
Definition settings : list (string * string * (Config -> string)) :=
  [ ("DB_HOST", "localhost", DBHost);
    ("DB_PORT", "5432", DBPort);
    ("DB_USER", "admin", DBUser);
    ("DB_PASSWORD", "password", DBPassword);
    ("DB_NAME", "api", DBName);
    ("GCS_BUCKET_NAME", "bucket_name", GCSBucketName);
    ("GCS_CREDENTIALS_FILE", "credentials.json", GCSCredentialsFile) ].

End Configuration.

(** * Properties *)

Example sanitize_ex1 :
  Filename.sanitizeFilename "  Intro to  C++ (Part #2)! " = "Intro_to_C_Part_2".
Proof. reflexivity. Qed.

Example customName_ex1 :
  Filename.customName "Network Structures & Cloud" "Dr. T. Ansari" "CSYE" 7125 "Spring" 2025
  = "Network_Structures_Cloud_Dr_T_Ansari_CSYE_7125_Spring_2025.pdf".
Proof. reflexivity. Qed.

(** ** Strings *)

Module StringFacts.
Import Bytes Strings StringSpec.

#[local] Arguments String.append !_ _ / : simpl nomatch.

Lemma app_empty_r (s : string) : s +:+ "" = s.
Proof. induction s as [|c s IH]; simpl; [reflexivity | now rewrite IH]. Qed.

Lemma app_assoc (a b c : string) : (a +:+ b) +:+ c = a +:+ (b +:+ c).
Proof. induction a as [|x a IH]; simpl; [reflexivity | now rewrite IH]. Qed.

Lemma all_app p (a b : string) : all p (a +:+ b) = all p a && all p b.
Proof.
  induction a as [|x a IH]; simpl; [reflexivity|].
  rewrite IH. now rewrite andb_assoc.
Qed.

Lemma all_rev p (s : string) : all p (rev s) = all p s.
Proof.
  induction s as [|c s IH]; simpl; [reflexivity|].
  rewrite all_app, IH. simpl. rewrite andb_true_r. apply andb_comm.
Qed.

Lemma all_impl (p q : ascii -> bool) (s : string) :
  (forall c, p c = true -> q c = true) -> all p s = true -> all q s = true.
Proof.
  intros Hpq. induction s as [|c s IH]; simpl; [reflexivity|].
  intros H. apply andb_true_iff in H as [Hc Hs].
  rewrite (Hpq c Hc). now apply IH.
Qed.

Lemma rev_app (a b : string) : rev (a +:+ b) = rev b +:+ rev a.
Proof.
  induction a as [|x a IH]; simpl.
  - now rewrite app_empty_r.
  - rewrite IH. apply app_assoc.
Qed.

Lemma rev_involutive (s : string) : rev (rev s) = s.
Proof.
  induction s as [|c s IH]; simpl; [reflexivity|].
  rewrite rev_app, IH. reflexivity.
Qed.

Lemma firstIs_app c (a b : string) :
  a <> "" -> firstIs c (a +:+ b) = firstIs c a.
Proof. destruct a; [congruence | reflexivity]. Qed.

Lemma TrimLeft_split c (s : string) :
  exists p, all (fun a => Ascii.eqb a c) p = true /\ s = p +:+ TrimLeft c s.
Proof.
  induction s as [|a s [p [Hp Hs]]]; simpl.
  - exists "". split; reflexivity.
  - destruct (Ascii.eqb a c) eqn:E.
    + exists (String a p). simpl. rewrite E, Hp. split; [reflexivity|].
      now rewrite <- Hs.
    + exists "". split; reflexivity.
Qed.

Lemma TrimLeft_first c (s : string) : firstIs c (TrimLeft c s) = false.
Proof.
  induction s as [|a s IH]; simpl; [reflexivity|].
  destruct (Ascii.eqb a c) eqn:E; [exact IH | simpl; exact E].
Qed.

Lemma all_TrimLeft p c (s : string) : all p s = true -> all p (TrimLeft c s) = true.
Proof.
  induction s as [|a s IH]; simpl; [reflexivity|].
  intros H. destruct (Ascii.eqb a c); [|exact H].
  apply andb_true_iff in H as [_ H]. now apply IH.
Qed.

Lemma TrimLeft_all c (s : string) :
  all (fun a => Ascii.eqb a c) s = true -> TrimLeft c s = "".
Proof.
  induction s as [|a s IH]; simpl; [reflexivity|].
  intros H. apply andb_true_iff in H as [Ha Hs]. rewrite Ha. now apply IH.
Qed.

Lemma TrimRight_split c (s : string) :
  exists q, all (fun a => Ascii.eqb a c) q = true /\ s = TrimRight c s +:+ q.
Proof.
  unfold TrimRight.
  destruct (TrimLeft_split c (rev s)) as [p [Hp Hs]].
  exists (rev p). split.
  - now rewrite all_rev.
  - rewrite <- rev_app, <- Hs. symmetry. apply rev_involutive.
Qed.

Lemma TrimRight_last c (s : string) : lastIs c (TrimRight c s) = false.
Proof.
  unfold lastIs, TrimRight. rewrite rev_involutive. apply TrimLeft_first.
Qed.

Lemma TrimRight_first c (s : string) :
  firstIs c s = false -> firstIs c (TrimRight c s) = false.
Proof.
  intros H. destruct (TrimRight_split c s) as [q [_ Hs]].
  destruct (TrimRight c s) as [|a t] eqn:E; [reflexivity|].
  rewrite Hs in H. exact H.
Qed.

Lemma all_TrimRight p c (s : string) : all p s = true -> all p (TrimRight c s) = true.
Proof.
  intros H. unfold TrimRight. rewrite all_rev. apply all_TrimLeft. now rewrite all_rev.
Qed.

Lemma all_Trim p c (s : string) : all p s = true -> all p (Trim s c) = true.
Proof. intros H. unfold Trim. now apply all_TrimRight, all_TrimLeft. Qed.

Lemma Trim_stripped c (s : string) : stripped c s (Trim s c).
Proof.
  unfold Trim. split; [|split].
  - destruct (TrimLeft_split c s) as [p [Hp Hs]].
    destruct (TrimRight_split c (TrimLeft c s)) as [q [Hq Ht]].
    exists p, q. repeat split; try assumption.
    now rewrite <- Ht.
  - apply TrimRight_first, TrimLeft_first.
  - apply TrimRight_last.
Qed.

(** Decimal rendering. *)
Lemma all_digits_uint (d : Decimal.uint) : all isDigit (NilEmpty.string_of_uint d) = true.
Proof. induction d; simpl; try rewrite IHd; reflexivity. Qed.

Lemma all_digits_uint0 (d : Decimal.uint) : all isDigit (NilZero.string_of_uint d) = true.
Proof. destruct d; try reflexivity; apply (all_digits_uint (_ d)). Qed.

Lemma itoa_nonneg (n : Z) : 0 <= n -> all isDigit (itoa n) = true.
Proof.
  intros H. unfold itoa. destruct n as [|p|p]; simpl.
  - reflexivity.
  - apply all_digits_uint0.
  - lia.
Qed.

Lemma itoa_neg (n : Z) : n < 0 -> exists t, itoa n = String "-" t.
Proof.
  intros H. unfold itoa. destruct n as [|p|p]; try lia.
  simpl. eauto.
Qed.

End StringFacts.

(** ** The filename deriver *)

Module FilenameFacts.
Import Bytes Strings Filename StringSpec FilenameSpec StringFacts.

#[local] Arguments String.append !_ _ / : simpl nomatch.

Lemma runs_partition (s : string) : joinRuns snd (runs s) = s.
Proof.
  induction s as [|c s IH]; simpl; [reflexivity|].
  destruct (runs s) as [|[k run] rest]; simpl in *.
  - now rewrite <- IH.
  - destruct (Bool.eqb k (isAlnum c)); simpl; now rewrite <- IH.
Qed.

Lemma runs_homogeneous (s : string) : Forall homogeneous (runs s).
Proof.
  induction s as [|c s IH]; simpl; [constructor|].
  destruct (runs s) as [|[k run] rest].
  - constructor; [|constructor]. split; simpl; [discriminate|].
    now rewrite eqb_reflx.
  - inversion IH as [|? ? [Hne Hall] Hrest]; subst. simpl in *.
    destruct (Bool.eqb k (isAlnum c)) eqn:E.
    + constructor; [|assumption]. split; simpl; [discriminate|].
      apply eqb_prop in E. subst k. now rewrite eqb_reflx.
    + constructor; [|constructor; [split; assumption | assumption]].
      split; simpl; [discriminate|]. now rewrite eqb_reflx.
Qed.

Lemma runs_alternating (s : string) : alternating (runs s).
Proof.
  induction s as [|c s IH]; simpl; [exact I|].
  destruct (runs s) as [|[k run] rest]; [exact I|].
  destruct (Bool.eqb k (isAlnum c)) eqn:E.
  - destruct rest; [exact I | exact IH].
  - split; [|exact IH]. simpl. intros Heq.
    rewrite Heq, eqb_reflx in E. discriminate.
Qed.

(** *** The scanner against the runs *)

Lemma replaceFrom_runs (inMatch : bool) (s : string) :
  replaceFrom inMatch s
  = joinRuns underscoreRun (if inMatch then afterMatch (runs s) else runs s).
Proof.
  revert inMatch. induction s as [|c s IH]; intros inMatch.
  - now destruct inMatch.
  - simpl. destruct (isAlnum c) eqn:Ec.
    + rewrite (IH false).
      destruct (runs s) as [|[k run] rest]; [now destruct inMatch|].
      destruct k; simpl; now destruct inMatch.
    + destruct inMatch.
      * rewrite (IH true).
        destruct (runs s) as [|[k run] rest]; [reflexivity|].
        destruct k; reflexivity.
      * rewrite (IH true).
        destruct (runs s) as [|[k run] rest]; [reflexivity|].
        destruct k; reflexivity.
Qed.

Lemma ReplaceAllString_runs (s : string) : ReplaceAllString s = replaceRuns s.
Proof. apply (replaceFrom_runs false). Qed.

(** *** Characters of the result *)

Lemma all_replaceFrom inMatch (s : string) : all isWord (replaceFrom inMatch s) = true.
Proof.
  revert inMatch.
  induction s as [|c s IH]; intros inMatch; cbn [replaceFrom]; [reflexivity|].
  destruct (isAlnum c) eqn:Ec.
  - cbn [all]. rewrite IH. unfold isWord. now rewrite Ec.
  - destruct inMatch; [apply IH|]. cbn [all]. now rewrite IH.
Qed.

Lemma all_sanitizeFilename (s : string) : all isWord (sanitizeFilename s) = true.
Proof. unfold sanitizeFilename. apply all_Trim, all_replaceFrom. Qed.

Lemma isWord_isFileChar c : isWord c = true -> isFileChar c = true.
Proof. unfold isWord, isFileChar. intros ->. reflexivity. Qed.

Lemma isDigit_isFileChar c : isDigit c = true -> isFileChar c = true.
Proof.
  unfold isFileChar, isAlnum. intros ->.
  now rewrite !orb_true_r.
Qed.

(** *** Names without a letter or digit *)

Lemma replaceFrom_notAlnum (s : string) :
  all notAlnum s = true ->
  replaceFrom true s = "" /\ (replaceFrom false s = "" \/ replaceFrom false s = "_").
Proof.
  induction s as [|c s IH]; simpl; [auto|].
  intros H. apply andb_true_iff in H as [Hc Hs].
  unfold notAlnum in Hc. apply negb_true_iff in Hc. rewrite Hc.
  destruct (IH Hs) as [-> _]. auto.
Qed.

Lemma sanitizeFilename_notAlnum (s : string) :
  all notAlnum s = true -> sanitizeFilename s = "".
Proof.
  intros H. unfold sanitizeFilename, ReplaceAllString.
  destruct (replaceFrom_notAlnum s H) as [_ [-> | ->]]; reflexivity.
Qed.

End FilenameFacts.

(** ** The handler, branch by branch *)

Ltac hstep :=
  cbv beta iota zeta delta
    [serve HandleTraceUpload authenticateRequest handleAuthError call_uploadToGCS
     InsertTrace producer_SendMessage json_Marshal orLeave bind ret leave
     Header_Set WriteHeader Encode Printf modify_w newWorld newResponseWriter
     rw_Header_Set rw_WriteHeader rw_Write fst snd app
     w traces gcs_writes outbox logs
     rw_header rw_wroteHeader rw_status rw_sentHeader rw_body].

Ltac hrewrite H := rewrite H; hstep.

Section Branches.

Variable L : Lib.
Variable h : CourseHandler.
Variable r : Request.

Lemma serve_no_credentials :
  req_BasicAuth r = None ->
  rw_status (w (serve L h r)) = StatusUnauthorized /\
  rw_body (w (serve L h r)) = [errorBody "authentication required"] /\
  traces (serve L h r) = [] /\ gcs_writes (serve L h r) = [] /\ outbox (serve L h r) = [].
Proof. intros H. hstep. hrewrite H. repeat split. Qed.

Lemma serve_bad_credentials username password err :
  req_BasicAuth r = Some (username, password) ->
  AuthenticateUser (db h) username password = inl err ->
  rw_status (w (serve L h r)) = StatusUnauthorized /\
  rw_body (w (serve L h r)) = [errorBody err] /\
  traces (serve L h r) = [] /\ gcs_writes (serve L h r) = [] /\ outbox (serve L h r) = [].
Proof. intros H1 H2. hstep. hrewrite H1. hrewrite H2. repeat split. Qed.

(** A caller who is not an administrator: [authenticateRequest] sends 403,
    and the 401 of [handleAuthError] comes too late to change it. *)
Lemma serve_forbidden user :
  Authenticates h r user ->
  user_Role user <> "admin" ->
  serve L h r =
  {| w := {| rw_header := <[ "WWW-Authenticate" :=
                             "Basic realm=" +:+ dquote +:+ "Course Authentication Required"
                             +:+ dquote ]>
                          (<[ "Content-Type" := "application/json" ]> ∅);
             rw_wroteHeader := true;
             rw_status := StatusForbidden;
             rw_sentHeader := <[ "Content-Type" := "application/json" ]> ∅;
             rw_body := [errorBody "Insufficient permissions";
                         errorBody "insufficient permissions"] |};
     traces := []; gcs_writes := []; outbox := []; logs := [] |}.
Proof.
  intros (username & password & H1 & H2) Hrole.
  apply String.eqb_neq in Hrole.
  hstep. hrewrite H1. hrewrite H2. rewrite Hrole.
  change (negb false) with true. hstep. reflexivity.
Qed.

Section Administrator.

Variable user : User.
Hypothesis Hauth : Authenticates h r user.
Hypothesis Hrole : user_Role user = "admin".

Ltac hauth :=
  let username := fresh "username" in
  let password := fresh "password" in
  let H1 := fresh in
  let H2 := fresh in
  destruct Hauth as (username & password & H1 & H2);
  hstep; hrewrite H1; hrewrite H2; rewrite Hrole;
  change (negb (String.eqb "admin" "admin")) with false; hstep.

Lemma serve_bad_course_id err :
  uuid_Parse L (PathValue r "course_id") = inl err ->
  serve L h r =
  {| w := respond StatusBadRequest (errorBody "Invalid course_id format");
     traces := []; gcs_writes := []; outbox := []; logs := [] |}.
Proof. intros H. hauth. hrewrite H. reflexivity. Qed.

Lemma serve_bad_form courseID err :
  uuid_Parse L (PathValue r "course_id") = inr courseID ->
  req_ParseMultipartForm r = inl err ->
  serve L h r =
  {| w := respond StatusBadRequest (errorBody "Failed to parse multipart form");
     traces := []; gcs_writes := []; outbox := []; logs := [] |}.
Proof. intros H1 H2. hauth. hrewrite H1. hrewrite H2. reflexivity. Qed.

Lemma serve_missing_file courseID form err :
  uuid_Parse L (PathValue r "course_id") = inr courseID ->
  req_ParseMultipartForm r = inr form ->
  FormFile form "file" = inl err ->
  serve L h r =
  {| w := respond StatusBadRequest (errorBody "File is required");
     traces := []; gcs_writes := []; outbox := []; logs := [] |}.
Proof. intros H1 H2 H3. hauth. hrewrite H1. hrewrite H2. hrewrite H3. reflexivity. Qed.

Section WellFormedRequest.

Variable courseID : UUID.
Variable form : ParsedForm.
Variable file : string.
Hypothesis Hwf : WellFormed L r courseID form file.

Ltac hform :=
  let H1 := fresh in
  let H2 := fresh in
  let H3 := fresh in
  destruct Hwf as (H1 & H2 & H3);
  hauth; hrewrite H1; hrewrite H2; hrewrite H3.

Lemma serve_course_error err :
  GetCourseByID (db h) courseID = inl err ->
  serve L h r =
  {| w := respond StatusInternalServerError (errorBody "Failed to fetch course details");
     traces := []; gcs_writes := []; outbox := [];
     logs := ["Failed to fetch course: " +:+ err] |}.
Proof. intros H. hform. hrewrite H. reflexivity. Qed.

Lemma serve_instructor_error course err :
  GetCourseByID (db h) courseID = inr course ->
  GetInstructorByID (db h) (course_InstructorID course) = inl err ->
  serve L h r =
  {| w := respond StatusInternalServerError (errorBody "Failed to fetch instructor details");
     traces := []; gcs_writes := []; outbox := [];
     logs := ["Failed to fetch instructor: " +:+ err] |}.
Proof. intros H1 H2. hform. hrewrite H1. hrewrite H2. reflexivity. Qed.

Section ResolvedCourse.

Variable course : Course.
Variable instructor : Instructor.
Hypothesis Hres : Resolves h courseID course instructor.

Ltac hresolve :=
  let H1 := fresh in
  let H2 := fresh in
  destruct Hres as (H1 & H2);
  hform; hrewrite H1; hrewrite H2.

(** The upload fails and the row that records it is stored. *)
Lemma serve_upload_failed_recorded err :
  uploadToGCS h file (deriveName course instructor) = inl err ->
  InsertTrace_result (db h) (traceRow user course instructor "failed" courseID form "") = None ->
  serve L h r =
  {| w := respond StatusInternalServerError (errorBody "Failed to upload file to GCS");
     traces := [traceRow user course instructor "failed" courseID form ""];
     gcs_writes := [(deriveName course instructor, file)];
     outbox := [];
     logs := ["GCS upload failed: " +:+ err] |}.
Proof.
  intros H1 H2. hresolve. hrewrite H1.
  unfold traceRow, vectorID_of in H2. hrewrite H2. reflexivity.
Qed.

(** The upload fails and the insert of the row fails too. *)
Lemma serve_upload_failed_unrecorded err err' :
  uploadToGCS h file (deriveName course instructor) = inl err ->
  InsertTrace_result (db h) (traceRow user course instructor "failed" courseID form "")
    = Some err' ->
  serve L h r =
  {| w := respond StatusInternalServerError (errorBody "Failed to insert trace record");
     traces := [];
     gcs_writes := [(deriveName course instructor, file)];
     outbox := [];
     logs := ["GCS upload failed: " +:+ err] |}.
Proof.
  intros H1 H2. hresolve. hrewrite H1.
  unfold traceRow, vectorID_of in H2. hrewrite H2. reflexivity.
Qed.

(** The upload succeeds and the insert of the row fails. *)
Lemma serve_insert_failed bucketURL err :
  uploadToGCS h file (deriveName course instructor) = inr bucketURL ->
  InsertTrace_result (db h) (traceRow user course instructor "uploaded" courseID form bucketURL)
    = Some err ->
  serve L h r =
  {| w := respond StatusInternalServerError (errorBody "Failed to insert trace record");
     traces := [];
     gcs_writes := [(deriveName course instructor, file)];
     outbox := [];
     logs := [] |}.
Proof.
  intros H1 H2. hresolve. hrewrite H1.
  unfold traceRow, vectorID_of in H2. hrewrite H2. reflexivity.
Qed.

(** The upload succeeds and the row is stored: the notification is tried,
    and whatever comes of it the response is the same. *)
Lemma serve_created bucketURL :
  uploadToGCS h file (deriveName course instructor) = inr bucketURL ->
  InsertTrace_result (db h) (traceRow user course instructor "uploaded" courseID form bucketURL)
    = None ->
  w (serve L h r) = respond StatusCreated (successBody bucketURL) /\
  traces (serve L h r) = [traceRow user course instructor "uploaded" courseID form bucketURL] /\
  gcs_writes (serve L h r) = [(deriveName course instructor, file)] /\
  outbox (serve L h r) =
    match json_Marshal_result L (traceMessage L course instructor bucketURL) with
    | Some _ => []
    | None => [notification L course instructor bucketURL]
    end.
Proof.
  intros H1 H2. hresolve. hrewrite H1.
  unfold traceRow, vectorID_of in H2. hrewrite H2.
  unfold notification.
  destruct (json_Marshal_result L _); hstep.
  - repeat split.
  - destruct (SendMessage (producer h) _) as [e | [partition offset]]; hstep; repeat split.
Qed.

End ResolvedCourse.
End WellFormedRequest.
End Administrator.
End Branches.

(** ** Every request takes one of the branches *)

Lemma path_total (L : Lib) (h : CourseHandler) (r : Request) : Path L h r.
Proof.
  destruct (req_BasicAuth r) as [[username password]|] eqn:Hb;
    [|now apply NoCredentials].
  destruct (AuthenticateUser (db h) username password) as [err|user] eqn:Ha;
    [now apply (BadCredentials L h r username password err)|].
  assert (Hauth : Authenticates h r user) by (exists username, password; auto).
  destruct (String.eqb_spec (user_Role user) "admin") as [Hrole|Hrole];
    [|now apply (Forbidden L h r user)].
  destruct (uuid_Parse L (PathValue r "course_id")) as [err|courseID] eqn:Hid;
    [now apply (BadCourseID L h r user err)|].
  destruct (req_ParseMultipartForm r) as [err|form] eqn:Hf;
    [now apply (BadForm L h r user courseID err)|].
  destruct (FormFile form "file") as [err|file] eqn:Hfile;
    [now apply (MissingFile L h r user courseID form err)|].
  assert (Hwf : WellFormed L r courseID form file) by (repeat split; assumption).
  destruct (GetCourseByID (db h) courseID) as [err|course] eqn:Hc;
    [now apply (CourseError L h r user courseID form file err)|].
  destruct (GetInstructorByID (db h) (course_InstructorID course)) as [err|instructor] eqn:Hi;
    [now apply (InstructorError L h r user courseID form file course err)|].
  assert (Hres : Resolves h courseID course instructor) by (split; assumption).
  destruct (uploadToGCS h file (deriveName course instructor)) as [err|bucketURL] eqn:Hup.
  - destruct (InsertTrace_result (db h)
                (traceRow user course instructor "failed" courseID form "")) as [err'|] eqn:Hins.
    + now apply (UploadFailedUnrecorded L h r user courseID form file course instructor err err').
    + now apply (UploadFailedRecorded L h r user courseID form file course instructor err).
  - destruct (InsertTrace_result (db h)
                (traceRow user course instructor "uploaded" courseID form bucketURL))
      as [err|] eqn:Hins.
    + now apply (InsertFailed L h r user courseID form file course instructor bucketURL err).
    + now apply (Created L h r user courseID form file course instructor bucketURL).
Qed.

(** The two functional facts that make the branches exclusive. *)
Lemma Authenticates_fun h r user user' :
  Authenticates h r user -> Authenticates h r user' -> user = user'.
Proof.
  intros (u & p & H1 & H2) (u' & p' & H1' & H2'). congruence.
Qed.

Lemma WellFormed_fun L r c f x c' f' x' :
  WellFormed L r c f x -> WellFormed L r c' f' x' -> c = c' /\ f = f' /\ x = x'.
Proof.
  intros (H1 & H2 & H3) (H1' & H2' & H3').
  assert (c = c') by congruence. assert (f = f') by congruence. subst.
  repeat split. congruence.
Qed.

Lemma Resolves_fun h c course instructor course' instructor' :
  Resolves h c course instructor -> Resolves h c course' instructor' ->
  course = course' /\ instructor = instructor'.
Proof.
  intros (H1 & H2) (H1' & H2').
  assert (course = course') by congruence. subst. split; congruence.
Qed.

(** Case analysis on the branch a request takes; [Hserve] is what the
    branch leaves behind. *)
Ltac paths L h r :=
  let H := fresh "H" in
  let H1 := fresh "H1" in
  let H2 := fresh "H2" in
  let H3 := fresh "H3" in
  let Ha := fresh "Ha" in
  let Hr := fresh "Hr" in
  let Hwf := fresh "Hwf" in
  let Hres := fresh "Hres" in
  let Hup := fresh "Hup" in
  let Hins := fresh "Hins" in
  let user := fresh "user" in
  let Hserve := fresh "Hserve" in
  destruct (path_total L h r) as
    [H | ? ? ? H1 H2 | user Ha Hr | user ? Ha Hr H | user ? ? Ha Hr H1 H2
     | user ? ? ? Ha Hr H1 H2 H3 | user ? ? ? ? Ha Hr Hwf H
     | user ? ? ? ? ? Ha Hr Hwf H1 H2
     | user ? ? ? ? ? ? Ha Hr Hwf Hres Hup Hins
     | user ? ? ? ? ? ? ? Ha Hr Hwf Hres Hup Hins
     | user ? ? ? ? ? ? ? Ha Hr Hwf Hres Hup Hins
     | user ? ? ? ? ? ? Ha Hr Hwf Hres Hup Hins];
  [ pose proof (serve_no_credentials L h r H) as Hserve
  | pose proof (serve_bad_credentials L h r _ _ _ H1 H2) as Hserve
  | pose proof (serve_forbidden L h r user Ha Hr) as Hserve
  | pose proof (serve_bad_course_id L h r user Ha Hr _ H) as Hserve
  | pose proof (serve_bad_form L h r user Ha Hr _ _ H1 H2) as Hserve
  | pose proof (serve_missing_file L h r user Ha Hr _ _ _ H1 H2 H3) as Hserve
  | pose proof (serve_course_error L h r user Ha Hr _ _ _ Hwf _ H) as Hserve
  | pose proof (serve_instructor_error L h r user Ha Hr _ _ _ Hwf _ _ H1 H2) as Hserve
  | pose proof (serve_upload_failed_recorded L h r user Ha Hr _ _ _ Hwf _ _ Hres _ Hup Hins)
      as Hserve
  | pose proof (serve_upload_failed_unrecorded L h r user Ha Hr _ _ _ Hwf _ _ Hres _ _ Hup Hins)
      as Hserve
  | pose proof (serve_insert_failed L h r user Ha Hr _ _ _ Hwf _ _ Hres _ _ Hup Hins)
      as Hserve
  | pose proof (serve_created L h r user Ha Hr _ _ _ Hwf _ _ Hres _ Hup Hins) as Hserve ].

(** Membership in an empty list. *)
Ltac nothing := let HF := fresh in intros HF; exact (False_ind _ HF).

(** *** What a request can leave behind *)

(** Every stored row was built from the authenticated administrator, the
    resolved course and instructor and the parsed form, with the status and
    location of the upload's outcome. *)
Lemma serve_traces L h r row :
  In row (traces (serve L h r)) ->
  exists user courseID form file course instructor,
    Authenticates h r user /\ user_Role user = "admin" /\
    WellFormed L r courseID form file /\
    Resolves h courseID course instructor /\
    traces (serve L h r) = [row] /\
    ((exists err, uploadToGCS h file (deriveName course instructor) = inl err /\
                  row = traceRow user course instructor "failed" courseID form "") \/
     (exists bucketURL, uploadToGCS h file (deriveName course instructor) = inr bucketURL /\
                  row = traceRow user course instructor "uploaded" courseID form bucketURL)).
Proof.
  paths L h r;
    try (rewrite Hserve; nothing);
    try (destruct Hserve as (_ & _ & -> & _); nothing).
  - rewrite Hserve. intros [<- | []].
    do 6 eexists. repeat (split; [eassumption || reflexivity|]). left. eauto.
  - destruct Hserve as (_ & -> & _). intros [<- | []].
    do 6 eexists. repeat (split; [eassumption || reflexivity|]). right. eauto.
Qed.

(** Every object written and every message sent comes after the course and
    the instructor were resolved; a message is sent only after the upload
    succeeded and its row was stored. *)
Lemma serve_gcs_writes L h r name payload :
  In (name, payload) (gcs_writes (serve L h r)) ->
  exists user courseID form course instructor,
    Authenticates h r user /\ user_Role user = "admin" /\
    WellFormed L r courseID form payload /\
    Resolves h courseID course instructor /\
    name = deriveName course instructor.
Proof.
  paths L h r;
    try (rewrite Hserve; nothing);
    try (destruct Hserve as (_ & _ & _ & -> & _); nothing).
  1-3: rewrite Hserve; intros [[= <- <-] | []]; do 5 eexists; eauto 10.
  destruct Hserve as (_ & _ & -> & _). intros [[= <- <-] | []].
  do 5 eexists; eauto 10.
Qed.

Lemma serve_outbox L h r msg :
  In msg (outbox (serve L h r)) ->
  exists user courseID form file course instructor bucketURL,
    Authenticates h r user /\ user_Role user = "admin" /\
    WellFormed L r courseID form file /\
    Resolves h courseID course instructor /\
    uploadToGCS h file (deriveName course instructor) = inr bucketURL /\
    traces (serve L h r)
      = [traceRow user course instructor "uploaded" courseID form bucketURL] /\
    outbox (serve L h r) = [msg] /\
    msg = notification L course instructor bucketURL.
Proof.
  paths L h r;
    try (rewrite Hserve; nothing);
    try (destruct Hserve as (_ & _ & _ & _ & ->); nothing).
  destruct Hserve as (_ & Ht & _ & Ho). rewrite Ho, Ht.
  destruct (json_Marshal_result L _); [intros []|].
  intros [<- | []]. do 7 eexists. eauto 10.
Qed.

(** The status of the response, branch by branch. *)
Lemma serve_status L h r :
  rw_status (w (serve L h r)) = StatusUnauthorized \/
  rw_status (w (serve L h r)) = StatusForbidden \/
  rw_status (w (serve L h r)) = StatusBadRequest \/
  rw_status (w (serve L h r)) = StatusInternalServerError \/
  rw_status (w (serve L h r)) = StatusCreated.
Proof.
  paths L h r; try (rewrite Hserve; simpl; tauto).
  - destruct Hserve as (-> & _). tauto.
  - destruct Hserve as (-> & _). tauto.
  - destruct Hserve as (-> & _). simpl. tauto.
Qed.

(** ** Runs of the demonstration deployment *)

Example demo_created :
  serve Demo.lib Demo.handler Demo.request =
  {| w := respond StatusCreated (successBody Demo.location);
     traces := [ {| trace_user_id := 3%N; trace_instructor_id := Demo.instructorID;
                    trace_status := "uploaded"; trace_course_id := Demo.courseID;
                    trace_vector_id := Some "vec-17";
                    trace_file_name := Demo.fileName;
                    trace_bucket_url := Demo.location |} ];
     gcs_writes := [(Demo.fileName, Demo.payload)];
     outbox := [notification Demo.lib Demo.course Demo.instructor Demo.location];
     logs := ["Sent message to partition 0, offset 42"] |}.
Proof. vm_compute. reflexivity. Qed.

Example demo_storage_failure :
  serve Demo.lib Demo.handlerWithFailingStorage Demo.request =
  {| w := respond StatusInternalServerError (errorBody "Failed to upload file to GCS");
     traces := [ {| trace_user_id := 3%N; trace_instructor_id := Demo.instructorID;
                    trace_status := "failed"; trace_course_id := Demo.courseID;
                    trace_vector_id := Some "vec-17";
                    trace_file_name := Demo.fileName;
                    trace_bucket_url := "" |} ];
     gcs_writes := [(Demo.fileName, Demo.payload)];
     outbox := [];
     logs := ["GCS upload failed: googleapi: Error 403: forbidden"] |}.
Proof. vm_compute. reflexivity. Qed.

Example demo_notification :
  map_to_list (traceMessage Demo.lib Demo.course Demo.instructor Demo.location) ≡ₚ
  [ ("instructor_name", "dr. tejas parikh");
    ("course_code", "csye 7125");
    ("semester_term", "spring");
    ("semester_year", "2025");
    ("course_name", "network structures & cloud computing");
    ("credit_hours", "4");
    ("bucket_path", Demo.location) ].
Proof. vm_compute. solve_Permutation. Qed.

(** ** More on trimming and lower-casing *)

Module TrimFacts.
Import Bytes Strings StringSpec StringFacts.

#[local] Arguments String.append !_ _ / : simpl nomatch.

Lemma TrimLeft_app_all c (p x : string) :
  all (fun a => Ascii.eqb a c) p = true -> TrimLeft c (p +:+ x) = TrimLeft c x.
Proof.
  induction p as [|a p IH]; simpl; [reflexivity|].
  intros H. apply andb_true_iff in H as [Ha Hp]. rewrite Ha. now apply IH.
Qed.

Lemma TrimLeft_id c (x : string) : firstIs c x = false -> TrimLeft c x = x.
Proof. destruct x as [|a x]; simpl; [reflexivity | now intros ->]. Qed.

Lemma TrimRight_app_all c (x q : string) :
  all (fun a => Ascii.eqb a c) q = true -> TrimRight c (x +:+ q) = TrimRight c x.
Proof.
  intros H. unfold TrimRight. rewrite rev_app, TrimLeft_app_all; [reflexivity|].
  now rewrite all_rev.
Qed.

Lemma TrimRight_id c (x : string) : lastIs c x = false -> TrimRight c x = x.
Proof.
  intros H. unfold TrimRight. rewrite TrimLeft_id by exact H. apply rev_involutive.
Qed.

(** [Trim] gives the one string that [stripped] describes. *)
Lemma stripped_Trim c (s t : string) : stripped c s t -> t = Trim s c.
Proof.
  intros [(p & q & Hp & Hq & ->) [Hfirst Hlast]]. unfold Trim.
  rewrite TrimLeft_app_all by exact Hp.
  destruct t as [|a t].
  - simpl. now rewrite (TrimLeft_all c q Hq).
  - rewrite TrimLeft_id by exact Hfirst.
    rewrite TrimRight_app_all by exact Hq.
    now rewrite TrimRight_id.
Qed.

Lemma isUpper_toLowerByte c : isUpper (toLowerByte c) = false.
Proof. destruct c as [[] [] [] [] [] [] [] []]; reflexivity. Qed.

Lemma toLowerByte_not_upper c : isUpper c = false -> toLowerByte c = c.
Proof. unfold toLowerByte. now intros ->. Qed.

Lemma any_upper_map_toLowerByte (s : string) : any isUpper (map toLowerByte s) = false.
Proof.
  induction s as [|c s IH]; simpl; [reflexivity|].
  now rewrite isUpper_toLowerByte, IH.
Qed.

(** On an ASCII string [strings.ToLower] leaves no upper-case letter, and it
    shifts the letters only. *)
Lemma ToLower_ascii_no_upper f (s : string) :
  all isASCII s = true -> any isUpper (ToLower f s) = false.
Proof.
  intros H. unfold ToLower. rewrite H.
  destruct (any isUpper s) eqn:E; simpl; [apply any_upper_map_toLowerByte | exact E].
Qed.

Lemma ToLower_ascii_map f (s : string) :
  all isASCII s = true -> ToLower f s = map toLowerByte s.
Proof.
  intros H. unfold ToLower. rewrite H.
  destruct (any isUpper s) eqn:E; simpl; [reflexivity|].
  clear H. induction s as [|c s IH]; simpl; [reflexivity|].
  simpl in E. apply orb_false_iff in E as [Ec Es].
  now rewrite (toLowerByte_not_upper c Ec), <- IH.
Qed.

End TrimFacts.

(** ** The characters of a derived name *)

Module CharsetFacts.
Import Bytes Strings Filename StringSpec FilenameSpec StringFacts FilenameFacts.

#[local] Arguments String.append !_ _ / : simpl nomatch.

Lemma all_fileChar_sanitizeFilename (s : string) :
  all isFileChar (sanitizeFilename s) = true.
Proof.
  apply (all_impl isWord); [exact isWord_isFileChar | apply all_sanitizeFilename].
Qed.

Lemma all_fileChar_itoa (n : Z) : all isFileChar (itoa n) = (0 <=? n).
Proof.
  destruct (Z.leb_spec 0 n) as [H|H].
  - apply (all_impl isDigit); [exact isDigit_isFileChar | now apply itoa_nonneg].
  - destruct (itoa_neg n H) as [t ->]. reflexivity.
Qed.

Lemma all_fileChar_customName cn inn sc num term yr :
  all isFileChar (customName cn inn sc num term yr)
  = all isFileChar sc && (0 <=? num) && all isFileChar term && (0 <=? yr).
Proof.
  unfold customName. rewrite !all_app.
  rewrite !all_fileChar_sanitizeFilename, !all_fileChar_itoa.
  simpl. rewrite !andb_true_r. now rewrite !andb_assoc.
Qed.

End CharsetFacts.

(** ** The JSON documents *)

Lemma errorBody_lookup msg : errorBody msg !! "error" = Some msg.
Proof. apply lookup_singleton_eq. Qed.

Lemma errorBody_dom msg : dom (errorBody msg) = ({[ "error" ]} : gset string).
Proof. unfold errorBody. apply dom_singleton_L. Qed.

Lemma successBody_message url :
  successBody url !! "message" = Some "File uploaded successfully".
Proof. unfold successBody. now rewrite lookup_insert_eq. Qed.

Lemma successBody_bucket_url url : successBody url !! "bucket_url" = Some url.
Proof.
  unfold successBody. rewrite lookup_insert_ne by discriminate.
  now rewrite lookup_insert_eq.
Qed.

Lemma successBody_dom url :
  dom (successBody url) = ({[ "message"; "bucket_url" ]} : gset string).
Proof. unfold successBody. rewrite !dom_insert_L, dom_empty_L. set_solver. Qed.

Lemma errorBody_not_successBody msg url : errorBody msg <> successBody url.
Proof.
  intros H. assert (E : errorBody msg !! "message" = successBody url !! "message")
    by now rewrite H.
  rewrite successBody_message in E. unfold errorBody in E.
  rewrite lookup_singleton_ne in E by discriminate. discriminate.
Qed.

Lemma one_document (a b : gmap string string) : [a] = [b] -> a = b.
Proof. intros E. now injection E. Qed.

Lemma traceMessage_dom L course instructor url :
  dom (traceMessage L course instructor url) = notificationKeys.
Proof.
  unfold traceMessage, notificationKeys.
  rewrite !dom_insert_L, dom_empty_L. set_solver.
Qed.

Lemma traceMessage_lookup L course instructor url :
  let m := traceMessage L course instructor url in
  m !! "instructor_name" = Some (ToLower L (instructor_Name instructor)) /\
  m !! "course_code" = Some (ToLower L (course_SubjectCode course +:+ " "
                                         +:+ Strings.itoa (course_CourseID course))) /\
  m !! "semester_term" = Some (ToLower L (course_SemesterTerm course)) /\
  m !! "semester_year" = Some (ToLower L (Strings.itoa (course_SemesterYear course))) /\
  m !! "course_name" = Some (ToLower L (course_Name course)) /\
  m !! "credit_hours" = Some (ToLower L (Strings.itoa (course_CreditHours course))) /\
  m !! "bucket_path" = Some url.
Proof.
  unfold traceMessage. cbv zeta.
  repeat split;
    repeat (first [ rewrite lookup_insert_eq; reflexivity
                  | rewrite lookup_insert_ne by discriminate ]).
Qed.

(** [uploadToGCS] succeeds exactly when the copy, the close and the
    attribute read do. *)
Lemma uploadToGCS_ok h file filename url :
  uploadToGCS h file filename = inr url <->
  gcs_Copy (gcsClient h) filename file = None /\
  gcs_Close (gcsClient h) filename = None /\
  exists name, gcs_Attrs_Name (gcsClient h) filename = inr name /\
               url = "https://storage.googleapis.com/" +:+ bucketName h +:+ "/" +:+ name.
Proof.
  unfold uploadToGCS.
  destruct (gcs_Copy _ _ _); [split; [discriminate | intros [[=] _]]|].
  destruct (gcs_Close _ _); [split; [discriminate | intros (_ & [=] & _)]|].
  destruct (gcs_Attrs_Name _ _) as [err|name].
  - split; [discriminate | intros (_ & _ & n & [=] & _)].
  - split.
    + intros [= <-]. eauto.
    + intros (_ & _ & n & [= <-] & ->). reflexivity.
Qed.

(** * The claims of the specification *)

Ltac demo_hyps :=
  repeat match goal with
         | |- Authenticates _ _ _ => eexists _, _; split; vm_compute; reflexivity
         | |- WellFormed _ _ _ _ _ => repeat split; vm_compute; reflexivity
         | |- Resolves _ _ _ _ => split; vm_compute; reflexivity
         | |- _ = _ => vm_compute; reflexivity
         end.

(** C1.  An administrator sends a well-formed upload for a course that
    resolves, together with its instructor; the storage upload fails and the
    database stores the row.  Then exactly one Trace row is inserted, with
    status "failed" and an empty [bucket_url], and the response is 500 with
    the JSON error body, not the 201 success body, although the row was
    written. *)
Theorem failed_upload_is_recorded_and_answered_500
    L h r user courseID form file course instructor err :
  Authenticates h r user -> user_Role user = "admin" ->
  WellFormed L r courseID form file ->
  Resolves h courseID course instructor ->
  uploadToGCS h file (deriveName course instructor) = inl err ->
  InsertTrace_result (db h) (traceRow user course instructor "failed" courseID form "")
    = None ->
  (exists row, traces (serve L h r) = [row] /\
               trace_status row = "failed" /\ trace_bucket_url row = "") /\
  rw_status (w (serve L h r)) = StatusInternalServerError /\
  rw_body (w (serve L h r)) = [errorBody "Failed to upload file to GCS"] /\
  (forall url, rw_body (w (serve L h r)) <> [successBody url]) /\
  outbox (serve L h r) = [].
Proof.
  intros Ha Hr Hwf Hres Hup Hins.
  rewrite (serve_upload_failed_recorded L h r user Ha Hr _ _ _ Hwf _ _ Hres _ Hup Hins).
  cbn [w traces outbox]. unfold respond. cbn [rw_status rw_body].
  split_and!; try reflexivity.
  - eexists. split_and!; reflexivity.
  - intros url E. exact (errorBody_not_successBody _ _ (one_document _ _ E)).
Qed.

Lemma failed_upload_witness :
  (exists row, traces (serve Demo.lib Demo.handlerWithFailingStorage Demo.request) = [row] /\
               trace_status row = "failed" /\ trace_bucket_url row = "") /\
  rw_status (w (serve Demo.lib Demo.handlerWithFailingStorage Demo.request))
    = StatusInternalServerError /\
  rw_body (w (serve Demo.lib Demo.handlerWithFailingStorage Demo.request))
    = [errorBody "Failed to upload file to GCS"] /\
  (forall url, rw_body (w (serve Demo.lib Demo.handlerWithFailingStorage Demo.request))
               <> [successBody url]) /\
  outbox (serve Demo.lib Demo.handlerWithFailingStorage Demo.request) = [].
Proof.
  apply (failed_upload_is_recorded_and_answered_500
           Demo.lib Demo.handlerWithFailingStorage Demo.request Demo.administrator
           Demo.courseID (Demo.form ["vec-17"]) Demo.payload Demo.course Demo.instructor
           "googleapi: Error 403: forbidden"); demo_hyps.
Defined.

(** C3.  An administrator sends a well-formed upload for a course that
    resolves, together with its instructor; the write, the close and the
    attribute read of the storage backend succeed and the database stores
    the row.  Then exactly one Trace row is inserted, with status "uploaded",
    and the response is 201 and carries the location
    "https://storage.googleapis.com/{bucket}/{object name}", which is not
    empty and is the [bucket_url] of the row. *)
Theorem successful_upload_is_recorded_and_answered_201
    L h r user courseID form file course instructor name :
  Authenticates h r user -> user_Role user = "admin" ->
  WellFormed L r courseID form file ->
  Resolves h courseID course instructor ->
  gcs_Copy (gcsClient h) (deriveName course instructor) file = None ->
  gcs_Close (gcsClient h) (deriveName course instructor) = None ->
  gcs_Attrs_Name (gcsClient h) (deriveName course instructor) = inr name ->
  InsertTrace_result (db h)
    (traceRow user course instructor "uploaded" courseID form
       ("https://storage.googleapis.com/" +:+ bucketName h +:+ "/" +:+ name)) = None ->
  let location := "https://storage.googleapis.com/" +:+ bucketName h +:+ "/" +:+ name in
  location <> "" /\
  (exists row, traces (serve L h r) = [row] /\
               trace_status row = "uploaded" /\ trace_bucket_url row = location) /\
  rw_status (w (serve L h r)) = StatusCreated /\
  rw_body (w (serve L h r)) = [successBody location] /\
  successBody location !! "bucket_url" = Some location.
Proof.
  intros Ha Hr Hwf Hres Hcopy Hclose Hattrs Hins location.
  assert (Hup : uploadToGCS h file (deriveName course instructor) = inr location).
  { apply uploadToGCS_ok. eauto 6. }
  destruct (serve_created L h r user Ha Hr _ _ _ Hwf _ _ Hres _ Hup Hins)
    as (Hw & Ht & _ & _).
  rewrite Hw, Ht. unfold respond. cbn [rw_status rw_body].
  split_and!; try reflexivity; try apply successBody_bucket_url.
  - discriminate.
  - eexists. split_and!; reflexivity.
Qed.

Lemma successful_upload_witness :
  Demo.location <> "" /\
  (exists row, traces (serve Demo.lib Demo.handler Demo.request) = [row] /\
               trace_status row = "uploaded" /\ trace_bucket_url row = Demo.location) /\
  rw_status (w (serve Demo.lib Demo.handler Demo.request)) = StatusCreated /\
  rw_body (w (serve Demo.lib Demo.handler Demo.request)) = [successBody Demo.location] /\
  successBody Demo.location !! "bucket_url" = Some Demo.location.
Proof.
  apply (successful_upload_is_recorded_and_answered_201
           Demo.lib Demo.handler Demo.request Demo.administrator
           Demo.courseID (Demo.form ["vec-17"]) Demo.payload Demo.course Demo.instructor
           Demo.fileName); demo_hyps.
Defined.

(** C4.  The course id parses as a UUID and the course cannot be fetched.
    Then no Trace row is inserted, no storage upload is attempted and
    nothing is published; and when the caller is an administrator and the
    form carries the file, the response is 500 with an error body, not
    404. *)
Theorem unknown_course_is_answered_500 L h r courseID err :
  uuid_Parse L (PathValue r "course_id") = inr courseID ->
  GetCourseByID (db h) courseID = inl err ->
  traces (serve L h r) = [] /\
  gcs_writes (serve L h r) = [] /\
  outbox (serve L h r) = [] /\
  rw_status (w (serve L h r)) <> 404 /\
  (forall user form file,
     Authenticates h r user -> user_Role user = "admin" ->
     req_ParseMultipartForm r = inr form -> FormFile form "file" = inr file ->
     rw_status (w (serve L h r)) = StatusInternalServerError /\
     rw_body (w (serve L h r)) = [errorBody "Failed to fetch course details"]).
Proof.
  intros Hid Hc.
  assert (Hno : forall c f x course instructor,
             WellFormed L r c f x -> Resolves h c course instructor -> False).
  { intros c f x course instructor (Hid' & _) (Hc' & _). congruence. }
  split_and!.
  - destruct (traces (serve L h r)) as [|row rows] eqn:E; [reflexivity|].
    destruct (serve_traces L h r row) as (? & ? & ? & ? & ? & ? & _ & _ & Hwf & Hres & _).
    { rewrite E. now left. }
    destruct (Hno _ _ _ _ _ Hwf Hres).
  - destruct (gcs_writes (serve L h r)) as [|[name payload] rows] eqn:E; [reflexivity|].
    destruct (serve_gcs_writes L h r name payload)
      as (? & ? & ? & ? & ? & _ & _ & Hwf & Hres & _).
    { rewrite E. now left. }
    destruct (Hno _ _ _ _ _ Hwf Hres).
  - destruct (outbox (serve L h r)) as [|msg rows] eqn:E; [reflexivity|].
    destruct (serve_outbox L h r msg)
      as (? & ? & ? & ? & ? & ? & ? & _ & _ & Hwf & Hres & _).
    { rewrite E. now left. }
    destruct (Hno _ _ _ _ _ Hwf Hres).
  - destruct (serve_status L h r) as [E | [E | [E | [E | E]]]]; rewrite E; discriminate.
  - intros user form file Ha Hr Hf Hfile.
    rewrite (serve_course_error L h r user Ha Hr courseID form file
               (conj Hid (conj Hf Hfile)) err Hc).
    split; reflexivity.
Qed.

Lemma unknown_course_witness :
  traces (serve Demo.lib Demo.handler Demo.requestForUnknownCourse) = [] /\
  gcs_writes (serve Demo.lib Demo.handler Demo.requestForUnknownCourse) = [] /\
  outbox (serve Demo.lib Demo.handler Demo.requestForUnknownCourse) = [] /\
  rw_status (w (serve Demo.lib Demo.handler Demo.requestForUnknownCourse)) <> 404 /\
  rw_status (w (serve Demo.lib Demo.handler Demo.requestForUnknownCourse))
    = StatusInternalServerError /\
  rw_body (w (serve Demo.lib Demo.handler Demo.requestForUnknownCourse))
    = [errorBody "Failed to fetch course details"].
Proof.
  destruct (unknown_course_is_answered_500 Demo.lib Demo.handler
              Demo.requestForUnknownCourse Demo.otherID "sql: no rows in result set")
    as (Ht & Hg & Ho & Hs & Hresp); [demo_hyps ..|].
  split_and!; try assumption;
    apply (Hresp Demo.administrator (Demo.form ["vec-17"]) Demo.payload); demo_hyps.
Defined.

(** C2, as stated, fails: when the upload fails and the row that records
    the failure is stored, the response is 500 with an error body, not 201
    with "message" and "bucket_url". *)
Lemma recorded_failure_is_not_201 :
  (exists row, traces (serve Demo.lib Demo.handlerWithFailingStorage Demo.request) = [row] /\
               trace_status row = "failed") /\
  rw_status (w (serve Demo.lib Demo.handlerWithFailingStorage Demo.request))
    <> StatusCreated /\
  rw_body (w (serve Demo.lib Demo.handlerWithFailingStorage Demo.request))
    = [errorBody "Failed to upload file to GCS"] /\
  errorBody "Failed to upload file to GCS" !! "message" = None /\
  errorBody "Failed to upload file to GCS" !! "bucket_url" = None.
Proof.
  rewrite demo_storage_failure. cbn [w traces]. unfold respond. cbn [rw_status rw_body].
  split_and!.
  - eexists. split; reflexivity.
  - discriminate.
  - reflexivity.
  - apply lookup_singleton_ne. discriminate.
  - apply lookup_singleton_ne. discriminate.
Qed.

(** C2, amended.  For an administrator the endpoint responds 201 Created
    with a body made of "message" and "bucket_url" on the upload-success
    branch only, that is when the upload succeeds and its row is stored; it
    responds 500 with an error body when the upload fails, whether or not
    the row recording the failure is stored, when the course or the
    instructor cannot be fetched, and when the row of a successful upload
    cannot be stored; and it responds 400 with an error body for malformed
    input (unparseable course id, bad form, missing file). *)
Theorem trace_upload_responses L h r user :
  Authenticates h r user -> user_Role user = "admin" ->
  (Malformed L r ->
     rw_status (w (serve L h r)) = StatusBadRequest /\
     exists msg, rw_body (w (serve L h r)) = [errorBody msg]) /\
  (forall courseID form file, WellFormed L r courseID form file ->
     (Unresolved h courseID ->
        rw_status (w (serve L h r)) = StatusInternalServerError /\
        exists msg, rw_body (w (serve L h r)) = [errorBody msg]) /\
     (forall course instructor, Resolves h courseID course instructor ->
        (forall err, uploadToGCS h file (deriveName course instructor) = inl err ->
           rw_status (w (serve L h r)) = StatusInternalServerError /\
           exists msg, rw_body (w (serve L h r)) = [errorBody msg]) /\
        (forall bucketURL,
           uploadToGCS h file (deriveName course instructor) = inr bucketURL ->
           (forall err,
              InsertTrace_result (db h)
                (traceRow user course instructor "uploaded" courseID form bucketURL)
                = Some err ->
              rw_status (w (serve L h r)) = StatusInternalServerError /\
              exists msg, rw_body (w (serve L h r)) = [errorBody msg]) /\
           (InsertTrace_result (db h)
              (traceRow user course instructor "uploaded" courseID form bucketURL)
              = None ->
            rw_status (w (serve L h r)) = StatusCreated /\
            rw_body (w (serve L h r)) = [successBody bucketURL] /\
            dom (successBody bucketURL) = ({[ "message"; "bucket_url" ]} : gset string) /\
            successBody bucketURL !! "bucket_url" = Some bucketURL)))).
Proof.
  intros Ha Hr. split.
  - intros [[err Hid] | [[err Hf] | (form & err & Hf & Hfile)]].
    + rewrite (serve_bad_course_id L h r user Ha Hr err Hid). split; [reflexivity | eauto].
    + destruct (uuid_Parse L (PathValue r "course_id")) as [e|courseID] eqn:Hid.
      * rewrite (serve_bad_course_id L h r user Ha Hr e Hid). split; [reflexivity | eauto].
      * rewrite (serve_bad_form L h r user Ha Hr courseID err Hid Hf).
        split; [reflexivity | eauto].
    + destruct (uuid_Parse L (PathValue r "course_id")) as [e|courseID] eqn:Hid.
      * rewrite (serve_bad_course_id L h r user Ha Hr e Hid). split; [reflexivity | eauto].
      * rewrite (serve_missing_file L h r user Ha Hr courseID form err Hid Hf Hfile).
        split; [reflexivity | eauto].
  - intros courseID form file Hwf. split.
    + intros [[err Hc] | (course & err & Hc & Hi)].
      * rewrite (serve_course_error L h r user Ha Hr _ _ _ Hwf err Hc).
        split; [reflexivity | eauto].
      * rewrite (serve_instructor_error L h r user Ha Hr _ _ _ Hwf course err Hc Hi).
        split; [reflexivity | eauto].
    + intros course instructor Hres. split.
      * intros err Hup.
        destruct (InsertTrace_result (db h)
                    (traceRow user course instructor "failed" courseID form ""))
          as [err'|] eqn:Hins.
        -- rewrite (serve_upload_failed_unrecorded L h r user Ha Hr _ _ _ Hwf _ _ Hres
                      _ _ Hup Hins).
           split; [reflexivity | eauto].
        -- rewrite (serve_upload_failed_recorded L h r user Ha Hr _ _ _ Hwf _ _ Hres
                      _ Hup Hins).
           split; [reflexivity | eauto].
      * intros bucketURL Hup. split.
        -- intros err Hins.
           rewrite (serve_insert_failed L h r user Ha Hr _ _ _ Hwf _ _ Hres _ _ Hup Hins).
           split; [reflexivity | eauto].
        -- intros Hins.
           destruct (serve_created L h r user Ha Hr _ _ _ Hwf _ _ Hres _ Hup Hins)
             as (-> & _).
           split_and!; [reflexivity | reflexivity | apply successBody_dom
                       | apply successBody_bucket_url].
Qed.

Lemma trace_upload_responses_witness :
  rw_status (w (serve Demo.lib Demo.handlerWithFailingStorage Demo.request))
    = StatusInternalServerError /\
  exists msg, rw_body (w (serve Demo.lib Demo.handlerWithFailingStorage Demo.request))
              = [errorBody msg].
Proof.
  destruct (trace_upload_responses Demo.lib Demo.handlerWithFailingStorage Demo.request
              Demo.administrator) as (_ & H); [demo_hyps ..|].
  destruct (H Demo.courseID (Demo.form ["vec-17"]) Demo.payload) as (_ & H');
    [demo_hyps|].
  destruct (H' Demo.course Demo.instructor) as (Hfail & _); [demo_hyps|].
  apply (Hfail "googleapi: Error 403: forbidden"). demo_hyps.
Defined.

(** C9, as stated, fails: valid credentials of a user who is not an
    administrator are answered 403, on account of the role. *)
Lemma student_upload_is_forbidden :
  Authenticates Demo.handler Demo.requestOfStudent Demo.student /\
  user_Role Demo.student <> "admin" /\
  rw_status (w (serve Demo.lib Demo.handler Demo.requestOfStudent)) = StatusForbidden.
Proof.
  split_and!.
  - exists "jane@example.com", "pa55". split; reflexivity.
  - discriminate.
  - vm_compute. reflexivity.
Qed.

(** C9, amended.  The trace-upload endpoint is open to authenticated
    administrators only: the request of an authenticated caller whose role
    is "admin" is never answered 403, and the request of an authenticated
    caller with any other role is answered 403 with the error body of
    [authenticateRequest], with no upload, no row and no message. *)
Theorem upload_requires_administrator L h r user :
  Authenticates h r user ->
  (user_Role user = "admin" -> rw_status (w (serve L h r)) <> StatusForbidden) /\
  (user_Role user <> "admin" ->
     rw_status (w (serve L h r)) = StatusForbidden /\
     rw_body (w (serve L h r))
       = [errorBody "Insufficient permissions"; errorBody "insufficient permissions"] /\
     traces (serve L h r) = [] /\
     gcs_writes (serve L h r) = [] /\
     outbox (serve L h r) = []).
Proof.
  intros Hauth. split.
  - intros Hrole.
    paths L h r;
      try (rewrite Hserve; cbn [w]; unfold respond; cbn [rw_status]; discriminate).
    + destruct Hauth as (? & ? & ? & _). congruence.
    + destruct Hauth as (? & ? & ? & ?). congruence.
    + rewrite (Authenticates_fun h r _ _ Hauth Ha) in Hrole. contradiction.
    + destruct Hserve as (-> & _). discriminate.
  - intros Hrole. rewrite (serve_forbidden L h r user Hauth Hrole).
    split_and!; reflexivity.
Qed.

Lemma upload_requires_administrator_witness :
  rw_status (w (serve Demo.lib Demo.handler Demo.requestOfStudent)) = StatusForbidden /\
  rw_body (w (serve Demo.lib Demo.handler Demo.requestOfStudent))
    = [errorBody "Insufficient permissions"; errorBody "insufficient permissions"] /\
  traces (serve Demo.lib Demo.handler Demo.requestOfStudent) = [] /\
  gcs_writes (serve Demo.lib Demo.handler Demo.requestOfStudent) = [] /\
  outbox (serve Demo.lib Demo.handler Demo.requestOfStudent) = [].
Proof.
  apply (upload_requires_administrator Demo.lib Demo.handler Demo.requestOfStudent
           Demo.student).
  - exists "jane@example.com", "pa55". split; reflexivity.
  - discriminate.
Defined.

Section FilenameClaims.
Import Bytes Strings Filename StringSpec FilenameSpec.

(** C5.  The derived name is exactly
    "{sanitized course name}_{sanitized instructor name}_{subject_code}_{course_number}_{semester_term}_{semester_year}.pdf":
    the two names are sanitized and the other fields are put in as they are,
    the numbers in decimal.  Sanitization replaces every maximal run of
    bytes outside [a-zA-Z0-9] by one underscore and then strips the leading
    and trailing underscores, and it is the only string that does so; a
    name without any letter or digit sanitizes to the empty string. *)
Theorem derived_name_follows_template (course : Course) (instructor : Instructor) :
  deriveName course instructor =
    sanitizeFilename (course_Name course) +:+ "_" +:+
    sanitizeFilename (instructor_Name instructor) +:+ "_" +:+
    course_SubjectCode course +:+ "_" +:+
    itoa (course_CourseID course) +:+ "_" +:+
    course_SemesterTerm course +:+ "_" +:+
    itoa (course_SemesterYear course) +:+ ".pdf" /\
  (forall s : string,
     stripped "_" (replaceRuns s) (sanitizeFilename s) /\
     (forall t, stripped "_" (replaceRuns s) t -> t = sanitizeFilename s)) /\
  (forall s : string, all notAlnum s = true -> sanitizeFilename s = "").
Proof.
  split_and!.
  - reflexivity.
  - intros s. unfold sanitizeFilename. rewrite FilenameFacts.ReplaceAllString_runs.
    split; [apply StringFacts.Trim_stripped | apply TrimFacts.stripped_Trim].
  - apply FilenameFacts.sanitizeFilename_notAlnum.
Qed.

Lemma derived_name_witness :
  deriveName Demo.course Demo.instructor = Demo.fileName /\
  sanitizeFilename " -- (#!?) -- " = "".
Proof.
  destruct (derived_name_follows_template Demo.course Demo.instructor) as (H1 & _ & H3).
  split.
  - rewrite H1. reflexivity.
  - apply H3. reflexivity.
Defined.

(** C6, as stated, fails: the subject code and the semester term go into
    the name as they are, so a subject code with a space gives a name with
    a character outside [A-Za-z0-9_.]. *)
Lemma derived_name_with_space :
  customName "Cloud Computing" "Ada Lovelace" "CS YE" 7125 "Spring" 2025
    = "Cloud_Computing_Ada_Lovelace_CS YE_7125_Spring_2025.pdf" /\
  all isFileChar (customName "Cloud Computing" "Ada Lovelace" "CS YE" 7125 "Spring" 2025)
    = false.
Proof. split; reflexivity. Qed.

(** C6, amended.  The name the handler uses for the object and stores in
    the row is a function of the metadata of the resolved course and
    instructor only, whatever the upload holds; and the derived name has no
    character outside [A-Za-z0-9_.] exactly when the subject code and the
    semester term have none and the course number and the semester year are
    not negative. *)
Theorem derived_name_is_deterministic_with_bounded_charset :
  (forall L h r,
     Forall (fun row : Trace =>
               exists courseID course instructor,
                 uuid_Parse L (PathValue r "course_id") = inr courseID /\
                 Resolves h courseID course instructor /\
                 trace_file_name row = deriveName course instructor)
            (traces (serve L h r)) /\
     Forall (fun object : string * string =>
               exists courseID course instructor,
                 uuid_Parse L (PathValue r "course_id") = inr courseID /\
                 Resolves h courseID course instructor /\
                 fst object = deriveName course instructor)
            (gcs_writes (serve L h r))) /\
  (forall courseName instructorName subjectCode courseNumber semesterTerm semesterYear,
     all isFileChar (customName courseName instructorName subjectCode courseNumber
                       semesterTerm semesterYear)
     = all isFileChar subjectCode && (0 <=? courseNumber)
       && all isFileChar semesterTerm && (0 <=? semesterYear)).
Proof.
  split.
  - intros L h r. split; apply Forall_forall.
    + intros row Hin.
      destruct (serve_traces L h r row) as
        (user & courseID & form & file & course & instructor & _ & _ & Hwf & Hres & _ & Hrow).
      { now apply list_elem_of_In. }
      exists courseID, course, instructor. split_and!; [apply Hwf | exact Hres |].
      destruct Hrow as [(? & _ & ->) | (? & _ & ->)]; reflexivity.
    + intros [name payload] Hin.
      destruct (serve_gcs_writes L h r name payload) as
        (user & courseID & form & course & instructor & _ & _ & Hwf & Hres & ->).
      { now apply list_elem_of_In. }
      exists courseID, course, instructor. split_and!; [apply Hwf | exact Hres | reflexivity].
  - apply CharsetFacts.all_fileChar_customName.
Qed.

End FilenameClaims.

(** C7, as stated, fails: the value of [bucket_path] is the storage
    location as it is, and it keeps the upper-case letters of the derived
    name. *)
Lemma bucket_path_is_not_lower_cased :
  rw_status (w (serve Demo.lib Demo.handler Demo.request)) = StatusCreated /\
  exists msg value,
    outbox (serve Demo.lib Demo.handler Demo.request) = [msg] /\
    msg_Value msg !! "bucket_path" = Some value /\
    Strings.any Bytes.isUpper value = true /\
    ToLower Demo.lib value <> value.
Proof.
  rewrite demo_created. split; [reflexivity|].
  exists (notification Demo.lib Demo.course Demo.instructor Demo.location), Demo.location.
  split_and!.
  - reflexivity.
  - apply traceMessage_lookup.
  - vm_compute. reflexivity.
  - vm_compute. discriminate.
Qed.

(** C7, amended.  On the success path the handler hands the producer at
    most one message, and exactly one when the message can be serialized;
    the message goes to the topic "pdf-upload" and is a JSON object with
    exactly the keys [instructor_name], [course_code] (subject code, a space,
    the course number), [semester_term], [semester_year], [course_name],
    [credit_hours] and [bucket_path]; the first six values are lower-cased
    with [strings.ToLower], and [bucket_path] is the storage location as the
    upload returned it, not lower-cased. *)
Theorem notification_on_success
    L h r user courseID form file course instructor bucketURL :
  Authenticates h r user -> user_Role user = "admin" ->
  WellFormed L r courseID form file ->
  Resolves h courseID course instructor ->
  uploadToGCS h file (deriveName course instructor) = inr bucketURL ->
  InsertTrace_result (db h)
    (traceRow user course instructor "uploaded" courseID form bucketURL) = None ->
  (json_Marshal_result L (traceMessage L course instructor bucketURL) = None ->
   exists msg, outbox (serve L h r) = [msg]) /\
  Forall (fun msg : ProducerMessage =>
            outbox (serve L h r) = [msg] /\
            msg_Topic msg = "pdf-upload" /\
            dom (msg_Value msg) = notificationKeys /\
            msg_Value msg !! "instructor_name"
              = Some (ToLower L (instructor_Name instructor)) /\
            msg_Value msg !! "course_code"
              = Some (ToLower L (course_SubjectCode course +:+ " "
                                   +:+ Strings.itoa (course_CourseID course))) /\
            msg_Value msg !! "semester_term" = Some (ToLower L (course_SemesterTerm course)) /\
            msg_Value msg !! "semester_year"
              = Some (ToLower L (Strings.itoa (course_SemesterYear course))) /\
            msg_Value msg !! "course_name" = Some (ToLower L (course_Name course)) /\
            msg_Value msg !! "credit_hours"
              = Some (ToLower L (Strings.itoa (course_CreditHours course))) /\
            msg_Value msg !! "bucket_path" = Some bucketURL)
         (outbox (serve L h r)).
Proof.
  intros Ha Hr Hwf Hres Hup Hins.
  destruct (serve_created L h r user Ha Hr _ _ _ Hwf _ _ Hres _ Hup Hins)
    as (_ & _ & _ & ->).
  destruct (json_Marshal_result L _) as [err|].
  - split; [discriminate | constructor].
  - split; [eauto|]. constructor; [|constructor].
    split; [reflexivity|]. split; [reflexivity|].
    split; [apply traceMessage_dom|]. apply traceMessage_lookup.
Qed.

Lemma notification_on_success_witness :
  (exists msg, outbox (serve Demo.lib Demo.handler Demo.request) = [msg]) /\
  Forall (fun msg : ProducerMessage =>
            msg_Topic msg = "pdf-upload" /\
            dom (msg_Value msg) = notificationKeys /\
            msg_Value msg !! "course_code" = Some "csye 7125" /\
            msg_Value msg !! "bucket_path" = Some Demo.location)
         (outbox (serve Demo.lib Demo.handler Demo.request)).
Proof.
  destruct (notification_on_success Demo.lib Demo.handler Demo.request Demo.administrator
              Demo.courseID (Demo.form ["vec-17"]) Demo.payload Demo.course Demo.instructor
              Demo.location) as (Hone & Hall); [demo_hyps ..|].
  split.
  - apply Hone. reflexivity.
  - eapply Forall_impl; [exact Hall|].
    intros msg (_ & Ht & Hd & _ & Hc & _ & _ & _ & _ & Hb). tauto.
Defined.

(** C8.  On the success path the response is 201 with the success body and
    the row is stored, whatever the producer answers and whether or not the
    message can be serialized: replacing the producer and the outcome of
    [json.Marshal] changes neither. *)
Theorem publish_failure_leaves_response
    L h r user courseID form file course instructor bucketURL :
  Authenticates h r user -> user_Role user = "admin" ->
  WellFormed L r courseID form file ->
  Resolves h courseID course instructor ->
  uploadToGCS h file (deriveName course instructor) = inr bucketURL ->
  InsertTrace_result (db h)
    (traceRow user course instructor "uploaded" courseID form bucketURL) = None ->
  forall (p : SyncProducer) (j : gmap string string -> option error),
    w (serve (withMarshal L j) (withProducer h p) r)
      = respond StatusCreated (successBody bucketURL) /\
    w (serve (withMarshal L j) (withProducer h p) r) = w (serve L h r) /\
    traces (serve (withMarshal L j) (withProducer h p) r) = traces (serve L h r).
Proof.
  intros Ha Hr Hwf Hres Hup Hins p j.
  destruct (serve_created L h r user Ha Hr _ _ _ Hwf _ _ Hres _ Hup Hins)
    as (-> & -> & _).
  destruct (serve_created (withMarshal L j) (withProducer h p) r user Ha Hr
              courseID form file Hwf course instructor Hres bucketURL Hup Hins)
    as (-> & -> & _).
  split_and!; reflexivity.
Qed.

Lemma publish_failure_witness :
  w (serve (withMarshal Demo.lib (fun _ => Some "json: unsupported value"))
           (withProducer Demo.handler Demo.failingProducer) Demo.request)
    = respond StatusCreated (successBody Demo.location) /\
  w (serve (withMarshal Demo.lib (fun _ => Some "json: unsupported value"))
           (withProducer Demo.handler Demo.failingProducer) Demo.request)
    = w (serve Demo.lib Demo.handler Demo.request) /\
  traces (serve (withMarshal Demo.lib (fun _ => Some "json: unsupported value"))
                (withProducer Demo.handler Demo.failingProducer) Demo.request)
    = traces (serve Demo.lib Demo.handler Demo.request).
Proof.
  apply (publish_failure_leaves_response Demo.lib Demo.handler Demo.request
           Demo.administrator Demo.courseID (Demo.form ["vec-17"]) Demo.payload
           Demo.course Demo.instructor Demo.location); demo_hyps.
Defined.

(** C10.  A [vector_id] field that is present and empty counts as absent:
    every row the handler stores has the vector id of the form when that is
    not empty and a NULL vector id otherwise, so that an empty string is
    never stored as a vector id. *)
Theorem empty_vector_id_is_stored_as_null L h r form row :
  req_ParseMultipartForm r = inr form ->
  In row (traces (serve L h r)) ->
  trace_vector_id row <> Some "" /\
  trace_vector_id row
    = (if String.eqb (FormValue form "vector_id") "" then None
       else Some (FormValue form "vector_id")) /\
  (forall rest, Form form !! "vector_id" = Some ("" :: rest) ->
                trace_vector_id row = None) /\
  (forall value rest, Form form !! "vector_id" = Some (value :: rest) -> value <> "" ->
                      trace_vector_id row = Some value).
Proof.
  intros Hf Hin.
  destruct (serve_traces L h r row Hin) as
    (user & courseID & form' & file & course & instructor & _ & _ & Hwf & _ & _ & Hrow).
  assert (form' = form) as -> by (destruct Hwf as (_ & Hf' & _); congruence).
  assert (Hv : trace_vector_id row = vectorID_of form)
    by (destruct Hrow as [(? & _ & ->) | (? & _ & ->)]; reflexivity).
  rewrite Hv. unfold vectorID_of. cbv zeta.
  destruct (String.eqb_spec (FormValue form "vector_id") "") as [E|E]; simpl.
  - split_and!; try reflexivity; try discriminate.
    intros value rest Hl Hne. unfold FormValue in E. rewrite Hl in E. contradiction.
  - split_and!; try reflexivity.
    + congruence.
    + intros rest Hl. unfold FormValue in E. rewrite Hl in E. contradiction.
    + intros value rest Hl _. unfold FormValue. now rewrite Hl.
Qed.

Lemma empty_vector_id_witness :
  exists row,
    traces (serve Demo.lib Demo.handler Demo.requestWithEmptyVectorID) = [row] /\
    trace_vector_id row = None /\
    trace_vector_id row <> Some "".
Proof.
  set (row := {| trace_user_id := 3%N; trace_instructor_id := Demo.instructorID;
                 trace_status := "uploaded"; trace_course_id := Demo.courseID;
                 trace_vector_id := None; trace_file_name := Demo.fileName;
                 trace_bucket_url := Demo.location |}).
  assert (Hrun : traces (serve Demo.lib Demo.handler Demo.requestWithEmptyVectorID) = [row])
    by (vm_compute; reflexivity).
  assert (Hin : In row (traces (serve Demo.lib Demo.handler Demo.requestWithEmptyVectorID)))
    by (rewrite Hrun; left; reflexivity).
  exists row. split; [exact Hrun|].
  destruct (empty_vector_id_is_stored_as_null Demo.lib Demo.handler
              Demo.requestWithEmptyVectorID (Demo.form [""]) row eq_refl Hin)
    as (Hne & _ & Hnull & _).
  split; [apply (Hnull []); vm_compute; reflexivity | exact Hne].
Defined.

(** * Further properties of the code *)

(** ** Sanitized names, word by word *)

Module NameShapeFacts.
Import Bytes Strings Filename StringSpec FilenameSpec NameShape StringFacts FilenameFacts.

#[local] Arguments String.append !_ _ / : simpl nomatch.

Lemma words_startsAlnum (s : string) :
  startsAlnum s = true -> exists w ws, words s = w :: ws.
Proof.
  destruct s as [|c s]; simpl; [discriminate|].
  intros ->. destruct (startsAlnum s), (words s); eauto.
Qed.

Lemma words_wellformed (s : string) : Forall isWordOf (words s).
Proof.
  induction s as [|c s IH]; simpl; [constructor|].
  destruct (isAlnum c) eqn:Ec; [|exact IH].
  destruct (startsAlnum s) eqn:Es; destruct (words s) as [|w ws] eqn:Ew.
  - constructor; [|constructor]. split; [discriminate | simpl; now rewrite Ec].
  - inversion IH as [|? ? [Hne Hw] Hws]; subst.
    constructor; [|exact Hws]. split; [discriminate | simpl; now rewrite Ec, Hw].
  - constructor; [|constructor]. split; [discriminate | simpl; now rewrite Ec].
  - constructor; [|exact IH]. split; [discriminate | simpl; now rewrite Ec].
Qed.

Lemma joinWords_cons_char c w ws :
  joinWords (String c w :: ws) = String c (joinWords (w :: ws)).
Proof. simpl. destruct ws; reflexivity. Qed.

Lemma joinWords_cons2 w w' ws :
  joinWords (w :: w' :: ws) = w +:+ "_" +:+ joinWords (w' :: ws).
Proof. reflexivity. Qed.

Lemma all_underscore_cons (q : string) :
  all (fun a => Ascii.eqb a "_") q = true ->
  all (fun a => Ascii.eqb a "_") (String "_" q) = true.
Proof. intros H. simpl. exact H. Qed.

(** The scanner's output is the words joined by underscores, after the
    leading underscore of [lead] and before some trailing underscores. *)
Lemma replaceFrom_words (s : string) :
  forall inMatch, exists q,
    all (fun a => Ascii.eqb a "_") q = true /\
    replaceFrom inMatch s = lead inMatch s +:+ joinWords (words s) +:+ q.
Proof.
  induction s as [|c s IH]; intros inMatch.
  - exists "". split; reflexivity.
  - cbn [replaceFrom words lead]. destruct (isAlnum c) eqn:Ec.
    + rewrite andb_false_r. cbn [String.append].
      destruct (IH false) as (q & Hq & E). rewrite E. clear E.
      destruct s as [|d s'].
      * cbn. exists q. split; [exact Hq | reflexivity].
      * cbn [startsAlnum lead negb andb]. destruct (isAlnum d) eqn:Ed.
        -- destruct (words_startsAlnum (String d s')) as (w & ws & Ew);
             [simpl; exact Ed|].
           rewrite Ew. cbn [String.append]. exists q. split; [exact Hq|].
           now rewrite joinWords_cons_char.
        -- cbn [negb String.append]. destruct (words (String d s')) as [|w ws] eqn:Ew.
           ++ exists (String "_" q). split; [exact Hq | reflexivity].
           ++ exists q. split; [exact Hq|]. cbn [joinWords].
              cbn [String.append]. reflexivity.
    + rewrite andb_true_r. destruct (IH true) as (q & Hq & E).
      assert (El : lead true s = "") by (destruct s; reflexivity).
      rewrite El in E. cbn [String.append] in E.
      destruct inMatch; cbn [negb].
      * exists q. split; [exact Hq|]. exact E.
      * exists q. split; [exact Hq|]. rewrite E. reflexivity.
Qed.

Lemma all_underscore_lead inMatch (s : string) :
  all (fun a => Ascii.eqb a "_") (lead inMatch s) = true.
Proof.
  destruct s as [|c s]; [reflexivity|]. simpl.
  destruct (negb inMatch && negb (isAlnum c)); reflexivity.
Qed.

Lemma alnum_not_underscore c : isAlnum c = true -> Ascii.eqb c "_" = false.
Proof. destruct c as [[] [] [] [] [] [] [] []]; vm_compute; intros H; congruence. Qed.

Lemma firstIs_word (w : string) : isWordOf w -> firstIs "_" w = false.
Proof.
  intros [Hne Hw]. destruct w as [|c w]; [reflexivity|]. simpl in *.
  apply andb_true_iff in Hw as [Hc _]. now apply alnum_not_underscore.
Qed.

Lemma lastIs_app c (a b : string) : b <> "" -> lastIs c (a +:+ b) = lastIs c b.
Proof.
  intros Hb. unfold lastIs. rewrite rev_app. apply firstIs_app.
  destruct b as [|x b]; [congruence|]. simpl.
  destruct (rev b); discriminate.
Qed.

Lemma lastIs_word (w : string) : isWordOf w -> lastIs "_" w = false.
Proof.
  intros [Hne Hw]. induction w as [|c w IH]; [congruence|].
  simpl in Hw. apply andb_true_iff in Hw as [Hc Hw].
  destruct w as [|d w].
  - unfold lastIs. simpl. now apply alnum_not_underscore.
  - change (String c (String d w)) with (String c "" +:+ String d w).
    rewrite lastIs_app by discriminate. apply IH; [discriminate | exact Hw].
Qed.

Lemma joinWords_nonempty (ws : list string) :
  Forall isWordOf ws -> ws <> [] -> joinWords ws <> "".
Proof.
  intros H Hne. destruct ws as [|w ws]; [congruence|].
  inversion H as [|? ? [Hw _] _]; subst.
  destruct w as [|c w]; [congruence|].
  rewrite joinWords_cons_char. discriminate.
Qed.

Lemma firstIs_joinWords (ws : list string) :
  Forall isWordOf ws -> firstIs "_" (joinWords ws) = false.
Proof.
  intros H. destruct ws as [|w ws]; [reflexivity|].
  inversion H as [|? ? Hw _]; subst.
  pose proof (firstIs_word w Hw) as Hf. destruct Hw as [Hne _].
  destruct w as [|c w]; [congruence|].
  rewrite joinWords_cons_char. exact Hf.
Qed.

Lemma lastIs_joinWords (ws : list string) :
  Forall isWordOf ws -> lastIs "_" (joinWords ws) = false.
Proof.
  induction ws as [|w ws IH]; intros H; [reflexivity|].
  inversion H as [|? ? Hw Hws]; subst.
  destruct ws as [|w' ws'].
  - simpl. now apply lastIs_word.
  - rewrite joinWords_cons2, <- StringFacts.app_assoc.
    rewrite lastIs_app.
    + now apply IH.
    + apply joinWords_nonempty; [exact Hws | discriminate].
Qed.

Lemma sanitizeFilename_words (s : string) :
  sanitizeFilename s = joinWords (words s).
Proof.
  unfold sanitizeFilename, ReplaceAllString. symmetry.
  apply TrimFacts.stripped_Trim.
  destruct (replaceFrom_words s false) as (q & Hq & E).
  split; [|split].
  - exists (lead false s), q. split; [apply all_underscore_lead|]. split; [exact Hq | exact E].
  - apply firstIs_joinWords, words_wellformed.
  - apply lastIs_joinWords, words_wellformed.
Qed.

(** *** Clean names *)

Lemma noDouble_alnum_app (w t : string) :
  all isAlnum w = true -> noDouble (w +:+ t) = noDouble t.
Proof.
  induction w as [|c w IH]; simpl; [reflexivity|].
  intros H. apply andb_true_iff in H as [Hc Hw].
  unfold isUnderscore. rewrite (alnum_not_underscore c Hc). simpl. now apply IH.
Qed.

Lemma noDouble_joinWords (ws : list string) :
  Forall isWordOf ws -> noDouble (joinWords ws) = true.
Proof.
  induction ws as [|w ws IH]; intros H; [reflexivity|].
  inversion H as [|? ? [Hne Hw] Hws]; subst.
  destruct ws as [|w' ws'].
  - simpl. rewrite <- (StringFacts.app_empty_r w).
    now rewrite noDouble_alnum_app.
  - rewrite joinWords_cons2, noDouble_alnum_app by exact Hw.
    cbn [String.append noDouble]. rewrite (IH Hws).
    now rewrite (firstIs_joinWords _ Hws).
Qed.

Lemma clean_sanitizeFilename (s : string) : clean (sanitizeFilename s) = true.
Proof.
  unfold clean. rewrite all_sanitizeFilename. rewrite sanitizeFilename_words.
  pose proof (words_wellformed s) as H.
  now rewrite (noDouble_joinWords _ H), (firstIs_joinWords _ H), (lastIs_joinWords _ H).
Qed.

Lemma isWord_cases c : isWord c = true -> isAlnum c = true \/ c = "_"%char.
Proof.
  unfold isWord, isUnderscore. destruct (isAlnum c); [now left|]. simpl.
  intros H. right. now apply Ascii.eqb_eq.
Qed.

Lemma replaceFrom_clean (s : string) :
  forall inMatch,
    all isWord s = true -> noDouble s = true ->
    (inMatch = true -> firstIs "_" s = false) ->
    replaceFrom inMatch s = s.
Proof.
  induction s as [|c s IH]; intros inMatch Hw Hd Hf; [reflexivity|].
  cbn [all] in Hw. apply andb_true_iff in Hw as [Hc Hw].
  cbn [noDouble] in Hd. apply andb_true_iff in Hd as [Hcd Hd].
  cbn [replaceFrom].
  destruct (isWord_cases c Hc) as [Ec | ->].
  - rewrite Ec. f_equal. apply IH; try assumption. discriminate.
  - change (isAlnum "_") with false. cbv iota.
    destruct inMatch; [specialize (Hf eq_refl); discriminate|].
    f_equal. apply IH; try assumption.
    intros _. simpl in Hcd. now apply negb_true_iff in Hcd.
Qed.

Lemma sanitizeFilename_clean (s : string) : clean s = true -> sanitizeFilename s = s.
Proof.
  unfold clean. intros H.
  apply andb_true_iff in H as [H Hl]. apply andb_true_iff in H as [H Hf].
  apply andb_true_iff in H as [Hw Hd].
  apply negb_true_iff in Hl, Hf.
  unfold sanitizeFilename, ReplaceAllString, Trim.
  rewrite (replaceFrom_clean s false Hw Hd) by discriminate.
  rewrite TrimFacts.TrimLeft_id by exact Hf.
  now apply TrimFacts.TrimRight_id.
Qed.

(** *** Letters and digits are kept *)

Lemma keepAlnum_app (a b : string) : keepAlnum (a +:+ b) = keepAlnum a +:+ keepAlnum b.
Proof.
  induction a as [|c a IH]; simpl; [reflexivity|].
  destruct (isAlnum c); simpl; now rewrite IH.
Qed.

Lemma keepAlnum_rev (s : string) : keepAlnum (rev s) = rev (keepAlnum s).
Proof.
  induction s as [|c s IH]; simpl; [reflexivity|].
  rewrite keepAlnum_app, IH. simpl.
  destruct (isAlnum c); simpl; [reflexivity | apply StringFacts.app_empty_r].
Qed.

Lemma keepAlnum_TrimLeft (s : string) : keepAlnum (TrimLeft "_" s) = keepAlnum s.
Proof.
  induction s as [|c s IH]; simpl; [reflexivity|].
  destruct (Ascii.eqb_spec c "_") as [-> | Hne]; [exact IH | reflexivity].
Qed.

Lemma keepAlnum_replaceFrom inMatch (s : string) :
  keepAlnum (replaceFrom inMatch s) = keepAlnum s.
Proof.
  revert inMatch. induction s as [|c s IH]; intros inMatch; [reflexivity|].
  cbn [replaceFrom keepAlnum]. destruct (isAlnum c) eqn:Ec.
  - cbn [keepAlnum]. now rewrite Ec, IH.
  - destruct inMatch; [apply IH|]. cbn [keepAlnum].
    change (isAlnum "_") with false. cbv iota. apply IH.
Qed.

Lemma keepAlnum_sanitizeFilename (s : string) :
  keepAlnum (sanitizeFilename s) = keepAlnum s.
Proof.
  unfold sanitizeFilename, ReplaceAllString, Trim, TrimRight.
  rewrite keepAlnum_rev, keepAlnum_TrimLeft, keepAlnum_rev, rev_involutive.
  now rewrite keepAlnum_TrimLeft, keepAlnum_replaceFrom.
Qed.

Lemma keepAlnum_empty (s : string) : keepAlnum s = "" -> all notAlnum s = true.
Proof.
  induction s as [|c s IH]; simpl; [reflexivity|].
  unfold notAlnum at 1. destruct (isAlnum c); [discriminate|]. exact IH.
Qed.

Lemma length_app (a b : string) :
  String.length (a +:+ b) = (String.length a + String.length b)%nat.
Proof. induction a as [|c a IH]; simpl; [reflexivity | now rewrite IH]. Qed.

Lemma length_rev (s : string) : String.length (rev s) = String.length s.
Proof.
  induction s as [|c s IH]; simpl; [reflexivity|].
  rewrite length_app, IH. simpl. lia.
Qed.

Lemma length_TrimLeft c (s : string) :
  (String.length (TrimLeft c s) <= String.length s)%nat.
Proof.
  induction s as [|a s IH]; simpl; [lia|].
  destruct (Ascii.eqb a c); simpl; lia.
Qed.

Lemma length_replaceFrom inMatch (s : string) :
  (String.length (replaceFrom inMatch s) <= String.length s)%nat.
Proof.
  revert inMatch. induction s as [|c s IH]; intros inMatch; simpl; [lia|].
  destruct (isAlnum c); simpl.
  - specialize (IH false). lia.
  - destruct inMatch; simpl; specialize (IH true); lia.
Qed.

Lemma length_sanitizeFilename (s : string) :
  (String.length (sanitizeFilename s) <= String.length s)%nat.
Proof.
  unfold sanitizeFilename, ReplaceAllString, Trim, TrimRight.
  rewrite length_rev.
  etransitivity; [apply length_TrimLeft|]. rewrite length_rev.
  etransitivity; [apply length_TrimLeft|]. apply length_replaceFrom.
Qed.

(** *** Words under padding and concatenation *)

Lemma words_notAlnum (q : string) : all notAlnum q = true -> words q = [].
Proof.
  induction q as [|c q IH]; simpl; [reflexivity|].
  intros H. apply andb_true_iff in H as [Hc Hq].
  unfold notAlnum in Hc. apply negb_true_iff in Hc. rewrite Hc. now apply IH.
Qed.

Lemma words_pad_left (p s : string) : all notAlnum p = true -> words (p +:+ s) = words s.
Proof.
  induction p as [|c p IH]; simpl; [reflexivity|].
  intros H. apply andb_true_iff in H as [Hc Hp].
  unfold notAlnum in Hc. apply negb_true_iff in Hc. rewrite Hc. now apply IH.
Qed.

Lemma startsAlnum_notAlnum (q : string) : all notAlnum q = true -> startsAlnum q = false.
Proof.
  destruct q as [|c q]; simpl; [reflexivity|].
  intros H. apply andb_true_iff in H as [Hc _].
  unfold notAlnum in Hc. now apply negb_true_iff in Hc.
Qed.

Lemma words_pad_right (s q : string) : all notAlnum q = true -> words (s +:+ q) = words s.
Proof.
  intros Hq. induction s as [|c s IH]; [now apply words_notAlnum|].
  cbn [String.append words]. rewrite IH.
  destruct s as [|d s]; [|reflexivity].
  cbn [String.append startsAlnum]. now rewrite (startsAlnum_notAlnum q Hq).
Qed.

Lemma joinWords_app (ws1 ws2 : list string) :
  ws1 <> [] -> ws2 <> [] ->
  joinWords (ws1 ++ ws2) = joinWords ws1 +:+ "_" +:+ joinWords ws2.
Proof.
  intros H1 H2. induction ws1 as [|w ws1 IH]; [congruence|].
  destruct ws1 as [|w' ws1'].
  - destruct ws2 as [|v ws2]; [congruence|]. reflexivity.
  - rewrite <- !List.app_comm_cons. rewrite joinWords_cons2.
    rewrite (List.app_comm_cons ws1' ws2 w').
    rewrite IH by discriminate.
    rewrite joinWords_cons2. now rewrite !StringFacts.app_assoc.
Qed.

End NameShapeFacts.

Section NameShapeProperties.
Import Bytes Strings Filename StringSpec FilenameSpec NameShape.

(** X1.  [sanitizeFilename] keeps the words of its input, the maximal runs
    of letters and digits, and joins them with single underscores. *)
Theorem sanitized_name_is_its_words_joined (s : string) :
  sanitizeFilename s = joinWords (words s) /\ Forall isWordOf (words s).
Proof.
  split; [apply NameShapeFacts.sanitizeFilename_words | apply NameShapeFacts.words_wellformed].
Qed.

(** X2.  A sanitized name is clean: letters, digits and underscores only, no
    underscore at either end, no two underscores in a row; and sanitizing
    twice is sanitizing once. *)
Theorem sanitized_name_is_clean (s : string) :
  clean (sanitizeFilename s) = true /\
  sanitizeFilename (sanitizeFilename s) = sanitizeFilename s.
Proof.
  split; [apply NameShapeFacts.clean_sanitizeFilename|].
  apply NameShapeFacts.sanitizeFilename_clean, NameShapeFacts.clean_sanitizeFilename.
Qed.

(** X3.  A name that is clean already comes out of [sanitizeFilename]
    unchanged. *)
Theorem clean_name_is_kept (s : string) :
  clean s = true -> sanitizeFilename s = s.
Proof. apply NameShapeFacts.sanitizeFilename_clean. Qed.

Lemma clean_name_is_kept_witness :
  sanitizeFilename "CSYE_7125_Spring" = "CSYE_7125_Spring".
Proof. apply clean_name_is_kept. reflexivity. Defined.

(** X4.  [sanitizeFilename] neither drops nor reorders nor adds a letter or
    digit, and its result is never longer than its input. *)
Theorem sanitized_name_keeps_letters_and_digits (s : string) :
  keepAlnum (sanitizeFilename s) = keepAlnum s /\
  (String.length (sanitizeFilename s) <= String.length s)%nat.
Proof.
  split; [apply NameShapeFacts.keepAlnum_sanitizeFilename
         | apply NameShapeFacts.length_sanitizeFilename].
Qed.

(** X5.  The sanitized name is empty exactly when the input has no letter
    and no digit. *)
Theorem sanitized_name_empty_iff (s : string) :
  String.eqb (sanitizeFilename s) "" = all notAlnum s.
Proof.
  destruct (all notAlnum s) eqn:E.
  - now rewrite (FilenameFacts.sanitizeFilename_notAlnum s E).
  - apply String.eqb_neq. intros H.
    pose proof (NameShapeFacts.keepAlnum_sanitizeFilename s) as K.
    rewrite H in K. symmetry in K.
    apply NameShapeFacts.keepAlnum_empty in K. congruence.
Qed.

(** X6.  Bytes outside [a-zA-Z0-9] around a name do not show in the
    sanitized name. *)
Theorem padding_is_dropped (p s q : string) :
  all notAlnum p = true -> all notAlnum q = true ->
  sanitizeFilename (p +:+ s +:+ q) = sanitizeFilename s.
Proof.
  intros Hp Hq. rewrite !NameShapeFacts.sanitizeFilename_words.
  now rewrite NameShapeFacts.words_pad_left, NameShapeFacts.words_pad_right.
Qed.

Lemma padding_is_dropped_witness :
  sanitizeFilename ("  (" +:+ "Cloud Computing" +:+ ") !") = sanitizeFilename "Cloud Computing".
Proof. apply padding_is_dropped; reflexivity. Defined.

(** X7.  The derived name does not tell where the course name ends and the
    instructor name begins: two pairs of names whose words, put together,
    are the same give the same file name for the same other fields. *)
Theorem derived_names_collide
    (courseName instructorName courseName' instructorName' subjectCode : string)
    (courseNumber : Z) (semesterTerm : string) (semesterYear : Z) :
  words courseName <> [] -> words instructorName <> [] ->
  words courseName' <> [] -> words instructorName' <> [] ->
  (words courseName ++ words instructorName
   = words courseName' ++ words instructorName')%list ->
  customName courseName instructorName subjectCode courseNumber semesterTerm semesterYear
  = customName courseName' instructorName' subjectCode courseNumber semesterTerm semesterYear.
Proof.
  intros H1 H2 H1' H2' E. unfold customName.
  rewrite !NameShapeFacts.sanitizeFilename_words.
  assert (A : forall a b rest : string,
             a +:+ "_" +:+ b +:+ rest = (a +:+ "_" +:+ b) +:+ rest)
    by (intros; now rewrite !StringFacts.app_assoc).
  rewrite (A (joinWords (words courseName))), (A (joinWords (words courseName'))).
  rewrite <- (NameShapeFacts.joinWords_app _ _ H1 H2).
  rewrite <- (NameShapeFacts.joinWords_app _ _ H1' H2').
  now rewrite E.
Qed.

Lemma derived_names_collide_witness :
  customName "Data Science" "Lee" "CSYE" 7125 "Spring" 2025
  = customName "Data" "Science Lee" "CSYE" 7125 "Spring" 2025.
Proof. apply derived_names_collide; vm_compute; congruence. Defined.

End NameShapeProperties.

(** ** The upload handler: what every request leaves behind *)

Lemma serve_created_world L h r user courseID form file course instructor bucketURL :
  Authenticates h r user -> user_Role user = "admin" ->
  WellFormed L r courseID form file ->
  Resolves h courseID course instructor ->
  uploadToGCS h file (deriveName course instructor) = inr bucketURL ->
  InsertTrace_result (db h)
    (traceRow user course instructor "uploaded" courseID form bucketURL) = None ->
  serve L h r =
  {| w := respond StatusCreated (successBody bucketURL);
     traces := [traceRow user course instructor "uploaded" courseID form bucketURL];
     gcs_writes := [(deriveName course instructor, file)];
     outbox := match json_Marshal_result L (traceMessage L course instructor bucketURL) with
               | Some _ => []
               | None => [notification L course instructor bucketURL]
               end;
     logs := notificationLog L h course instructor bucketURL |}.
Proof.
  intros (username & password & Hb & Hu) Hrole (Hid & Hf & Hfile) (Hc & Hi) Hup Hins.
  hstep. hrewrite Hb. hrewrite Hu. rewrite Hrole.
  change (negb (String.eqb "admin" "admin")) with false. hstep.
  hrewrite Hid. hrewrite Hf. hrewrite Hfile. hrewrite Hc. hrewrite Hi. hrewrite Hup.
  unfold traceRow, vectorID_of in Hins. hrewrite Hins.
  unfold notificationLog, notification.
  destruct (json_Marshal_result L _); hstep; [reflexivity|].
  destruct (SendMessage (producer h) _) as [e | [partition offset]]; hstep; reflexivity.
Qed.

Lemma serve_unauthenticated_world L h r err :
  (req_BasicAuth r = None /\ err = "authentication required") \/
  (exists username password,
     req_BasicAuth r = Some (username, password) /\
     AuthenticateUser (db h) username password = inl err) ->
  serve L h r =
  {| w := {| rw_header := <[ "WWW-Authenticate" := challenge ]>
                          (<[ "Content-Type" := "application/json" ]> ∅);
             rw_wroteHeader := true;
             rw_status := StatusUnauthorized;
             rw_sentHeader := <[ "WWW-Authenticate" := challenge ]>
                              (<[ "Content-Type" := "application/json" ]> ∅);
             rw_body := [errorBody err] |};
     traces := []; gcs_writes := []; outbox := []; logs := [] |}.
Proof.
  intros [[Hb ->] | (username & password & Hb & Hu)].
  - hstep. hrewrite Hb. reflexivity.
  - hstep. hrewrite Hb. hrewrite Hu. reflexivity.
Qed.

Lemma serve_leaves L h r : Leaves L h r (serve L h r).
Proof.
  paths L h r.
  - rewrite (serve_unauthenticated_world L h r "authentication required") by auto.
    constructor. intros u (? & ? & ? & _). congruence.
  - rewrite (serve_unauthenticated_world L h r err) by eauto 6.
    constructor. intros u (? & ? & ? & ?). congruence.
  - rewrite Hserve. now apply LeftForbidden with (user := user).
  - rewrite Hserve. now apply LeftBadRequest with (user := user).
  - rewrite Hserve. now apply LeftBadRequest with (user := user).
  - rewrite Hserve. now apply LeftBadRequest with (user := user).
  - rewrite Hserve. now apply LeftUnresolved with (user := user).
  - rewrite Hserve. now apply LeftUnresolved with (user := user).
  - rewrite Hserve. eapply LeftUploadFailed; eauto.
  - rewrite Hserve. eapply LeftUploadFailed; eauto.
  - rewrite Hserve. eapply LeftInsertFailed; eauto.
  - rewrite (serve_created_world L h r user _ _ _ _ _ _ Ha Hr Hwf Hres Hup Hins).
    eapply LeftCreated; eauto.
    destruct (json_Marshal_result L _); auto.
Qed.

Ltac leaves L h r :=
  let Ha := fresh "Ha" in
  let Hr := fresh "Hr" in
  let Hwf := fresh "Hwf" in
  let Hres := fresh "Hres" in
  let Hup := fresh "Hup" in
  let Hcase := fresh "Hcase" in
  destruct (serve_leaves L h r) as
    [ err Ha
    | user Ha Hr
    | user msg Ha Hr
    | user msg line Ha Hr
    | user courseID form file course instructor err rows msg Ha Hr Hwf Hres Hup Hcase
    | user courseID form file course instructor bucketURL Ha Hr Hwf Hres Hup
    | user courseID form file course instructor bucketURL msgs Ha Hr Hwf Hres Hup Hcase ];
  cbn [w traces gcs_writes outbox logs];
  unfold respond;
  cbn [rw_header rw_wroteHeader rw_status rw_sentHeader rw_body].

Lemma uploaded_location_not_empty h file filename url :
  uploadToGCS h file filename = inr url ->
  exists rest, url = "https://storage.googleapis.com/" +:+ rest.
Proof.
  intros H. apply uploadToGCS_ok in H as (_ & _ & name & _ & ->). eauto.
Qed.

(** X8.  One request makes at most one upload attempt, stores at most one
    row and sends at most one message; a row is stored only after an upload
    was attempted, and a message is sent only after a row was stored. *)
Theorem upload_effects_are_nested L h r :
  (length (outbox (serve L h r)) <= length (traces (serve L h r)))%nat /\
  (length (traces (serve L h r)) <= length (gcs_writes (serve L h r)))%nat /\
  (length (gcs_writes (serve L h r)) <= 1)%nat.
Proof.
  leaves L h r; try (simpl; lia).
  - destruct Hcase as [-> | ->]; simpl; lia.
  - destruct Hcase as [-> | ->]; simpl; lia.
Qed.

(** X9.  Every row the handler stores passes the CHECK constraint and the
    width of the column [status]: its status is "uploaded", with a location
    that starts with "https://storage.googleapis.com/", or "failed", with
    the empty location; the status "processed" is never written. *)
Theorem stored_row_status L h r :
  Forall (fun row : Trace =>
            status_allowed (trace_status row) = true /\
            fits_status_column (trace_status row) = true /\
            ((trace_status row = "uploaded" /\
              exists rest, trace_bucket_url row = "https://storage.googleapis.com/" +:+ rest) \/
             (trace_status row = "failed" /\ trace_bucket_url row = "")))
         (traces (serve L h r)).
Proof.
  leaves L h r; try constructor.
  - destruct Hcase as [-> | ->]; constructor; [|constructor].
    cbn [traceRow trace_status trace_bucket_url]. split_and!; try reflexivity.
    right. split; reflexivity.
  - cbn [traceRow trace_status trace_bucket_url]. split_and!; try reflexivity.
    left. split; [reflexivity|]. eapply uploaded_location_not_empty, Hup.
  - constructor.
Qed.

(** X10.  Every stored row names the authenticated administrator as its
    user, the course id of the path as its course and the instructor of that
    course as its instructor. *)
Theorem stored_row_attribution L h r :
  Forall (fun row : Trace =>
            exists user courseID course,
              Authenticates h r user /\ user_Role user = "admin" /\
              uuid_Parse L (PathValue r "course_id") = inr courseID /\
              GetCourseByID (db h) courseID = inr course /\
              trace_user_id row = user_ID user /\
              trace_course_id row = courseID /\
              trace_instructor_id row = course_InstructorID course)
         (traces (serve L h r)).
Proof.
  leaves L h r; try constructor.
  - destruct Hcase as [-> | ->]; constructor; [|constructor].
    exists user, courseID, course. split_and!; try reflexivity; try assumption;
      [apply Hwf | apply Hres].
  - exists user, courseID, course. split_and!; try reflexivity; try assumption;
      [apply Hwf | apply Hres].
  - constructor.
Qed.





(** X13.  Every response has its status sent once, with the header
    [Content-Type: application/json]; its body is not empty; a 201 body is
    one object with the keys "message" and "bucket_url", and every document
    of any other body is an object with the one key "error". *)
Theorem response_envelope L h r :
  rw_wroteHeader (w (serve L h r)) = true /\
  rw_sentHeader (w (serve L h r)) !! "Content-Type" = Some "application/json" /\
  rw_body (w (serve L h r)) <> [] /\
  Forall (fun doc : gmap string string =>
            dom doc = bodyKeys (rw_status (w (serve L h r))))
         (rw_body (w (serve L h r))).
Proof.
  leaves L h r; (split; [reflexivity|]);
    (split; [first [ apply lookup_insert_eq
                   | rewrite lookup_insert_ne by discriminate; apply lookup_insert_eq ]|]);
    (split; [discriminate|]);
    repeat constructor; unfold bodyKeys; simpl;
    first [apply errorBody_dom | apply successBody_dom].
Qed.

(** X14.  The response is 401 exactly when the caller is not authenticated,
    and the [WWW-Authenticate] challenge is sent with a 401 and with no other
    status: a caller who is not an administrator, answered 403, does not get
    it. *)
Theorem challenge_iff_unauthenticated L h r :
  (rw_status (w (serve L h r)) = StatusUnauthorized <->
   forall user, ~ Authenticates h r user) /\
  rw_sentHeader (w (serve L h r)) !! "WWW-Authenticate"
  = (if rw_status (w (serve L h r)) =? StatusUnauthorized then Some challenge else None).
Proof.
  leaves L h r;
    (split; [| simpl; first [ apply lookup_insert_eq
                            | rewrite lookup_insert_ne by discriminate; apply lookup_empty ]]);
    try (split; [discriminate | intros Hn; destruct (Hn _ Ha)]).
  split; [intros _; exact Ha | reflexivity].
Qed.

Lemma challenge_iff_unauthenticated_witness :
  rw_status (w (serve Demo.lib Demo.handler
                  {| req_BasicAuth := None; req_PathValues := ∅;
                     req_ParseMultipartForm := inl "request Content-Type isn't multipart/form-data" |}))
  = StatusUnauthorized.
Proof.
  apply (proj1 (challenge_iff_unauthenticated Demo.lib Demo.handler _)).
  intros user (username & password & Hb & _). discriminate.
Defined.

(** ** Error texts and the response *)

Lemma sameButErrorText_inl {A} (x y : error + A) e :
  sameButErrorText x y -> x = inl e -> exists e', y = inl e'.
Proof. intros H ->. destruct y; [eauto | destruct H]. Qed.

Lemma sameButErrorText_inr {A} (x y : error + A) a :
  sameButErrorText x y -> x = inr a -> y = inr a.
Proof. intros H ->. destruct y; [destruct H | now rewrite H]. Qed.

Lemma sameButErrorTextOpt_Some (x y : option error) e :
  sameButErrorTextOpt x y -> x = Some e -> exists e', y = Some e'.
Proof. intros H ->. destruct y; [eauto | destruct H]. Qed.

Lemma sameButErrorTextOpt_None (x y : option error) :
  sameButErrorTextOpt x y -> x = None -> y = None.
Proof. intros H ->. destruct y; [destruct H | reflexivity]. Qed.

Section SameButErrorTexts.

Variables (L L' : Lib) (h h' : CourseHandler).
Hypothesis S : SameButErrorTexts L L' h h'.

Lemma same_Authenticates r user : Authenticates h r user -> Authenticates h' r user.
Proof.
  intros (u & p & Hb & Hu). exists u, p. split; [exact Hb|].
  now rewrite <- (same_auth _ _ _ _ S).
Qed.

Lemma same_WellFormed r courseID form file :
  WellFormed L r courseID form file -> WellFormed L' r courseID form file.
Proof.
  intros (Hid & Hf & Hfile). split_and!; try assumption.
  exact (sameButErrorText_inr _ _ _ (same_uuid _ _ _ _ S _) Hid).
Qed.

Lemma same_Resolves courseID course instructor :
  Resolves h courseID course instructor -> Resolves h' courseID course instructor.
Proof.
  intros (Hc & Hi). split.
  - exact (sameButErrorText_inr _ _ _ (same_course _ _ _ _ S _) Hc).
  - exact (sameButErrorText_inr _ _ _ (same_instructor _ _ _ _ S _) Hi).
Qed.

Lemma same_upload_ok file name url :
  uploadToGCS h file name = inr url -> uploadToGCS h' file name = inr url.
Proof.
  intros H. apply uploadToGCS_ok in H as (Hc & Hcl & n & Ha & ->).
  apply uploadToGCS_ok. split_and!.
  - exact (sameButErrorTextOpt_None _ _ (same_copy _ _ _ _ S _ _) Hc).
  - exact (sameButErrorTextOpt_None _ _ (same_close _ _ _ _ S _) Hcl).
  - exists n. split.
    + exact (sameButErrorText_inr _ _ _ (same_attrs _ _ _ _ S _) Ha).
    + now rewrite (same_bucket _ _ _ _ S).
Qed.

Lemma same_upload_failed file name err :
  uploadToGCS h file name = inl err -> exists err', uploadToGCS h' file name = inl err'.
Proof.
  unfold uploadToGCS. intros H.
  pose proof (same_copy _ _ _ _ S name file) as Hc.
  pose proof (same_close _ _ _ _ S name) as Hcl.
  pose proof (same_attrs _ _ _ _ S name) as Ha.
  destruct (gcs_Copy (gcsClient h) name file), (gcs_Copy (gcsClient h') name file);
    try destruct Hc; eauto.
  destruct (gcs_Close (gcsClient h) name), (gcs_Close (gcsClient h') name);
    try destruct Hcl; eauto.
  destruct (gcs_Attrs_Name (gcsClient h) name), (gcs_Attrs_Name (gcsClient h') name);
    try destruct Ha; eauto. discriminate.
Qed.

Lemma same_traceMessage course instructor url :
  traceMessage L course instructor url = traceMessage L' course instructor url.
Proof.
  unfold traceMessage, ToLower, Strings.ToLower.
  now rewrite !(same_lower _ _ _ _ S).
Qed.

End SameButErrorTexts.

(** X15.  No error of the library, the database, the storage or the
    producer reaches the caller in its text: two deployments that fail on the
    same calls, whatever the errors say, give the same response, store the
    same rows, write the same objects and send the same messages.  (The text
    of an authentication error is the exception: [handleAuthError] sends it,
    and the deployments are taken to authenticate alike.) *)
Theorem error_texts_do_not_reach_the_caller L L' h h' r :
  SameButErrorTexts L L' h h' ->
  w (serve L h r) = w (serve L' h' r) /\
  traces (serve L h r) = traces (serve L' h' r) /\
  gcs_writes (serve L h r) = gcs_writes (serve L' h' r) /\
  outbox (serve L h r) = outbox (serve L' h' r).
Proof.
  intros S.
  pose proof (same_Authenticates L L' h h' S r) as SA.
  pose proof (same_WellFormed L L' h h' S r) as SW.
  pose proof (same_Resolves L L' h h' S) as SR.
  paths L h r.
  - rewrite (serve_unauthenticated_world L h r "authentication required") by auto.
    rewrite (serve_unauthenticated_world L' h' r "authentication required") by auto.
    split_and!; reflexivity.
  - rewrite (serve_unauthenticated_world L h r err) by eauto 6.
    rewrite (same_auth _ _ _ _ S) in H2.
    rewrite (serve_unauthenticated_world L' h' r err) by eauto 6.
    split_and!; reflexivity.
  - rewrite Hserve, (serve_forbidden L' h' r user (SA _ Ha) Hr). split_and!; reflexivity.
  - destruct (sameButErrorText_inl _ _ _ (same_uuid _ _ _ _ S _) H) as (e' & H').
    rewrite Hserve, (serve_bad_course_id L' h' r user (SA _ Ha) Hr e' H').
    split_and!; reflexivity.
  - pose proof (sameButErrorText_inr _ _ _ (same_uuid _ _ _ _ S _) H1) as H1'.
    rewrite Hserve, (serve_bad_form L' h' r user (SA _ Ha) Hr _ _ H1' H2).
    split_and!; reflexivity.
  - pose proof (sameButErrorText_inr _ _ _ (same_uuid _ _ _ _ S _) H1) as H1'.
    rewrite Hserve, (serve_missing_file L' h' r user (SA _ Ha) Hr _ _ _ H1' H2 H3).
    split_and!; reflexivity.
  - destruct (sameButErrorText_inl _ _ _ (same_course _ _ _ _ S _) H) as (e' & H').
    rewrite Hserve,
      (serve_course_error L' h' r user (SA _ Ha) Hr _ _ _ (SW _ _ _ Hwf) e' H').
    split_and!; reflexivity.
  - pose proof (sameButErrorText_inr _ _ _ (same_course _ _ _ _ S _) H1) as H1'.
    destruct (sameButErrorText_inl _ _ _ (same_instructor _ _ _ _ S _) H2) as (e' & H2').
    rewrite Hserve,
      (serve_instructor_error L' h' r user (SA _ Ha) Hr _ _ _ (SW _ _ _ Hwf) _ e' H1' H2').
    split_and!; reflexivity.
  - destruct (same_upload_failed L L' h h' S _ _ _ Hup) as (e' & Hup').
    pose proof (sameButErrorTextOpt_None _ _ (same_insert _ _ _ _ S _) Hins) as Hins'.
    rewrite Hserve,
      (serve_upload_failed_recorded L' h' r user (SA _ Ha) Hr _ _ _ (SW _ _ _ Hwf)
         _ _ (SR _ _ _ Hres) e' Hup' Hins').
    split_and!; reflexivity.
  - destruct (same_upload_failed L L' h h' S _ _ _ Hup) as (e' & Hup').
    destruct (sameButErrorTextOpt_Some _ _ _ (same_insert _ _ _ _ S _) Hins) as (i' & Hins').
    rewrite Hserve,
      (serve_upload_failed_unrecorded L' h' r user (SA _ Ha) Hr _ _ _ (SW _ _ _ Hwf)
         _ _ (SR _ _ _ Hres) e' i' Hup' Hins').
    split_and!; reflexivity.
  - pose proof (same_upload_ok L L' h h' S _ _ _ Hup) as Hup'.
    destruct (sameButErrorTextOpt_Some _ _ _ (same_insert _ _ _ _ S _) Hins) as (i' & Hins').
    rewrite Hserve,
      (serve_insert_failed L' h' r user (SA _ Ha) Hr _ _ _ (SW _ _ _ Hwf)
         _ _ (SR _ _ _ Hres) _ i' Hup' Hins').
    split_and!; reflexivity.
  - pose proof (same_upload_ok L L' h h' S _ _ _ Hup) as Hup'.
    pose proof (sameButErrorTextOpt_None _ _ (same_insert _ _ _ _ S _) Hins) as Hins'.
    destruct Hserve as (-> & -> & -> & ->).
    destruct (serve_created L' h' r user (SA _ Ha) Hr _ _ _ (SW _ _ _ Hwf)
                _ _ (SR _ _ _ Hres) _ Hup' Hins') as (-> & -> & -> & ->).
    split_and!; try reflexivity.
    unfold notification. rewrite <- (same_traceMessage L L' h h' S).
    pose proof (same_marshal _ _ _ _ S (traceMessage L course instructor bucketURL)) as Hm.
    destruct (json_Marshal_result L _), (json_Marshal_result L' _);
      try destruct Hm; reflexivity.
Qed.

Lemma error_texts_witness :
  w (serve Demo.lib Demo.handlerWithFailingStorage Demo.request)
  = w (serve Demo.lib
         {| db := Demo.database;
            gcsClient := {| gcs_Copy := fun _ _ => Some "context deadline exceeded";
                            gcs_Close := fun _ => None;
                            gcs_Attrs_Name := fun name => inr name |};
            bucketName := "trace-bucket";
            producer := Demo.workingProducer |}
         Demo.request).
Proof.
  apply (error_texts_do_not_reach_the_caller Demo.lib Demo.lib
           Demo.handlerWithFailingStorage _ Demo.request).
  constructor; intros; simpl; try reflexivity;
    match goal with
    | |- sameButErrorText ?x ?x => destruct x; simpl; auto
    | |- sameButErrorTextOpt ?x ?x => destruct x; simpl; auto
    end.
Defined.

(** X16.  A 500 that leaves no line in the log is the case of an object
    that was uploaded and whose row could not be stored: the object is in the
    bucket, no row names it, and the error of the insert is written
    nowhere. *)
Theorem silent_500_is_an_unrecorded_upload L h r :
  rw_status (w (serve L h r)) = StatusInternalServerError /\ logs (serve L h r) = [] <->
  exists user courseID form file course instructor bucketURL err,
    Authenticates h r user /\ user_Role user = "admin" /\
    WellFormed L r courseID form file /\
    Resolves h courseID course instructor /\
    uploadToGCS h file (deriveName course instructor) = inr bucketURL /\
    InsertTrace_result (db h)
      (traceRow user course instructor "uploaded" courseID form bucketURL) = Some err /\
    gcs_writes (serve L h r) = [(deriveName course instructor, file)] /\
    traces (serve L h r) = [].
Proof.
  split.
  - intros [E1 E2].
    paths L h r;
      try (rewrite Hserve in E1, E2; cbn [w logs] in E1, E2;
           unfold respond in E1; cbn [rw_status] in E1);
      try (destruct Hserve as (Hs & _); rewrite Hs in E1;
           unfold respond in E1; cbn [rw_status] in E1);
      try discriminate E2;
      try (vm_compute in E1; discriminate E1).
    rewrite Hserve. cbn [gcs_writes traces].
    exists user, courseID, form, file, course, instructor, bucketURL, err.
    split_and!; try assumption; reflexivity.
  - intros (user & courseID & form & file & course & instructor & bucketURL & err
            & Ha & Hr & Hwf & Hres & Hup & Hins & _).
    rewrite (serve_insert_failed L h r user Ha Hr _ _ _ Hwf _ _ Hres _ _ Hup Hins).
    split; reflexivity.
Qed.

Lemma silent_500_witness :
  rw_status (w (serve Demo.lib (withInsertResult Demo.handler
                                  (fun _ => Some "pq: value too long for type character varying(255)"))
                  Demo.request)) = StatusInternalServerError /\
  logs (serve Demo.lib (withInsertResult Demo.handler
                          (fun _ => Some "pq: value too long for type character varying(255)"))
          Demo.request) = [].
Proof.
  apply (proj2 (silent_500_is_an_unrecorded_upload Demo.lib _ Demo.request)).
  exists Demo.administrator, Demo.courseID, (Demo.form ["vec-17"]), Demo.payload,
    Demo.course, Demo.instructor, Demo.location,
    "pq: value too long for type character varying(255)".
  split_and!; demo_hyps.
Defined.

(** * The other handlers *)

Ltac sstep :=
  cbv beta iota zeta delta
    [Handlers.visit Handlers.GetCourseByID Handlers.DeleteCourseByID
     Handlers.GetTracesByCourseID Handlers.GetTraceByID
     Handlers.GetTraceByID_without_role_check Handlers.DeleteTraceByID
     Handlers.reply Handlers.EncodeValue Handlers.orLeaveS Handlers.authenticate
     Handlers.call_DeleteCourseByID Handlers.call_DeleteTraceByID
     bindS retS leaveS liftW newSite world values calls
     authenticateRequest handleAuthError orLeave bind ret leave
     Header_Set WriteHeader Encode Printf modify_w newWorld newResponseWriter
     rw_Header_Set rw_WriteHeader rw_Write fst snd app
     w traces gcs_writes outbox logs
     rw_header rw_wroteHeader rw_status rw_sentHeader rw_body].

Ltac srewrite H := rewrite H; sstep.

Lemma authenticationError_None h r :
  authenticationError h r = None <-> exists user, Authenticates h r user.
Proof.
  unfold authenticationError, Authenticates. split.
  - destruct (req_BasicAuth r) as [[u p]|]; [|discriminate].
    destruct (AuthenticateUser (db h) u p) as [e|user] eqn:E; [discriminate|].
    intros _. eauto.
  - intros (user & u & p & -> & ->). reflexivity.
Qed.

(** The handler of [GET /v1/course/{course_id}] as one case analysis. *)
Lemma GetCourseByID_visit L repo r :
  Handlers.visit (Handlers.GetCourseByID L repo) r =
  if String.eqb (PathValue r "course_id") "" then
    replied StatusBadRequest (errorBody "Course ID is required") []
  else
    match uuid_Parse L (PathValue r "course_id") with
    | inl _ => replied StatusBadRequest (errorBody "Invalid course ID format") []
    | inr courseID =>
        match repo_GetCourseByID repo courseID with
        | inl ErrNoRows => replied StatusNotFound (errorBody "Course not found") []
        | inl (ErrOther _) =>
            replied StatusInternalServerError (errorBody "Failed to retrieve course") []
        | inr course => answered (VCourse course)
        end
    end.
Proof.
  sstep. destruct (String.eqb (PathValue r "course_id") ""); sstep; [reflexivity|].
  destruct (uuid_Parse L (PathValue r "course_id")) as [e|courseID]; sstep; [reflexivity|].
  destruct (repo_GetCourseByID repo courseID) as [[|text]|course]; sstep; reflexivity.
Qed.

Ltac sgate h r :=
  sstep; unfold gate;
  destruct (req_BasicAuth r) as [[? ?]|]; sstep; [|reflexivity];
  match goal with
  | |- context [AuthenticateUser (db h) ?u ?p] =>
      destruct (AuthenticateUser (db h) u p) as [?|?user]; sstep; [reflexivity|]
  end;
  match goal with
  | |- context [String.eqb (user_Role ?u) "admin"] =>
      destruct (String.eqb (user_Role u) "admin") eqn:?Hrole;
      cbv beta iota delta [negb]; sstep; [|reflexivity]
  end.

Lemma DeleteCourseByID_visit L h repo r :
  Handlers.visit (Handlers.DeleteCourseByID L h repo) r =
  gate h r (fun _ =>
    if String.eqb (PathValue r "course_id") "" then
      replied StatusBadRequest (errorBody "Course ID is required") []
    else
      match uuid_Parse L (PathValue r "course_id") with
      | inl _ => replied StatusBadRequest (errorBody "Invalid course ID format") []
      | inr courseID =>
          match repo_DeleteCourseByID repo courseID with
          | Some ErrNoRows =>
              replied StatusNotFound (errorBody "Course not found")
                [CallDeleteCourse courseID]
          | Some (ErrOther _) =>
              replied StatusInternalServerError (errorBody "Failed to delete course")
                [CallDeleteCourse courseID]
          | None =>
              replied StatusOK {[ "message" := "Course deleted successfully" ]}
                [CallDeleteCourse courseID]
          end
      end).
Proof.
  sgate h r.
  destruct (String.eqb (PathValue r "course_id") ""); sstep; [reflexivity|].
  destruct (uuid_Parse L (PathValue r "course_id")) as [e|courseID]; sstep; [reflexivity|].
  destruct (repo_DeleteCourseByID repo courseID) as [[|text]|]; sstep; reflexivity.
Qed.

Lemma GetTracesByCourseID_visit L h repo r :
  Handlers.visit (Handlers.GetTracesByCourseID L h repo) r =
  gate h r (fun _ =>
    match uuid_Parse L (PathValue r "course_id") with
    | inl _ => replied StatusBadRequest (errorBody "Invalid course_id format") []
    | inr courseID =>
        match repo_GetTracesByCourseID repo courseID with
        | inl _ =>
            replied StatusInternalServerError (errorBody "Failed to retrieve traces") []
        | inr traces => answered (VData traces)
        end
    end).
Proof.
  sgate h r.
  destruct (uuid_Parse L (PathValue r "course_id")) as [e|courseID]; sstep; [reflexivity|].
  destruct (repo_GetTracesByCourseID repo courseID) as [e|ts]; sstep; reflexivity.
Qed.

Lemma GetTraceByID_without_role_check_visit L h repo r :
  Handlers.visit (Handlers.GetTraceByID_without_role_check L h repo) r =
  gate h r (fun _ =>
    match uuid_Parse L (PathValue r "course_id") with
    | inl _ => replied StatusBadRequest (errorBody "Invalid course_id format") []
    | inr courseID =>
        match uuid_Parse L (PathValue r "trace_id") with
        | inl _ => replied StatusBadRequest (errorBody "Invalid trace_id format") []
        | inr traceID =>
            match repo_GetTraceByID repo courseID traceID with
            | inl ErrNoRows => replied StatusNotFound (errorBody "Trace not found") []
            | inl (ErrOther _) =>
                replied StatusInternalServerError (errorBody "Failed to retrieve trace") []
            | inr trace => answered (VTrace trace)
            end
        end
    end).
Proof.
  sgate h r.
  destruct (uuid_Parse L (PathValue r "course_id")) as [e|courseID]; sstep; [reflexivity|].
  destruct (uuid_Parse L (PathValue r "trace_id")) as [e|traceID]; sstep; [reflexivity|].
  destruct (repo_GetTraceByID repo courseID traceID) as [[|text]|t]; sstep; reflexivity.
Qed.

Lemma DeleteTraceByID_visit L h repo r :
  Handlers.visit (Handlers.DeleteTraceByID L h repo) r =
  gate h r (fun _ =>
    match uuid_Parse L (PathValue r "course_id") with
    | inl _ => replied StatusBadRequest (errorBody "Invalid course_id format") []
    | inr courseID =>
        match uuid_Parse L (PathValue r "trace_id") with
        | inl _ => replied StatusBadRequest (errorBody "Invalid trace_id format") []
        | inr traceID =>
            match repo_DeleteTraceByID repo courseID traceID with
            | Some ErrNoRows =>
                replied StatusNotFound (errorBody "Trace not found")
                  [CallDeleteTrace courseID traceID]
            | Some (ErrOther _) =>
                replied StatusInternalServerError (errorBody "Failed to delete trace")
                  [CallDeleteTrace courseID traceID]
            | None =>
                replied StatusOK {[ "message" := "Trace deleted successfully" ]}
                  [CallDeleteTrace courseID traceID]
            end
        end
    end).
Proof.
  sgate h r.
  destruct (uuid_Parse L (PathValue r "course_id")) as [e|courseID]; sstep; [reflexivity|].
  destruct (uuid_Parse L (PathValue r "trace_id")) as [e|traceID]; sstep; [reflexivity|].
  destruct (repo_DeleteTraceByID repo courseID traceID) as [[|text]|]; sstep; reflexivity.
Qed.

(** The second check of the role in [GetTraceByID] never decides: a user
    who comes out of [authenticateRequest] is an administrator. *)
Lemma GetTraceByID_role_check_is_dead L h repo (r : Request) (s : Site) :
  Handlers.GetTraceByID L h repo r s
  = Handlers.GetTraceByID_without_role_check L h repo r s.
Proof.
  cbv beta iota zeta delta
    [Handlers.GetTraceByID Handlers.GetTraceByID_without_role_check
     Handlers.authenticate Handlers.orLeaveS bindS retS leaveS liftW
     authenticateRequest bind ret].
  destruct (Header_Set "Content-Type" "application/json" (world s)) as [[[]|] w0];
    [|reflexivity].
  cbv beta iota zeta delta [world values calls].
  destruct (req_BasicAuth r) as [[u p]|]; [|reflexivity].
  destruct (AuthenticateUser (db h) u p) as [e|user]; [reflexivity|].
  destruct (String.eqb (user_Role user) "admin") eqn:Hrole; cbv beta iota delta [negb].
  - rewrite Hrole. reflexivity.
  - destruct (WriteHeader StatusForbidden w0) as [[[]|] w1]; [|reflexivity].
    destruct (Encode _ w1) as [[[]|] w2]; reflexivity.
Qed.

Ltac cases :=
  repeat match goal with
         | |- context [match ?x with _ => _ end] =>
             lazymatch x with
             | context [match _ with _ => _ end] => fail
             | _ => destruct x eqn:?
             end
         end.

Ltac site_simpl :=
  unfold replied, answered, respond;
  cbn [world values calls w rw_status rw_body traces gcs_writes outbox logs].



(** X18.  The same missing course is answered differently by the two
    handlers: the database says [sql.ErrNoRows] for the course id; the read
    handler answers 404 "Course not found", and the upload handler, for an
    administrator with a well-formed upload, answers 500 "Failed to fetch
    course details". *)
Theorem missing_course_404_on_read_500_on_upload
    L h repo r user courseID form file :
  Authenticates h r user -> user_Role user = "admin" ->
  WellFormed L r courseID form file ->
  PathValue r "course_id" <> "" ->
  repo_GetCourseByID repo courseID = inl ErrNoRows ->
  GetCourseByID (db h) courseID = inl (Error ErrNoRows) ->
  Handlers.visit (Handlers.GetCourseByID L repo) r
    = replied StatusNotFound (errorBody "Course not found") [] /\
  w (serve L h r)
    = respond StatusInternalServerError (errorBody "Failed to fetch course details").
Proof.
  intros Ha Hr Hwf Hne Hrepo Hdb. split.
  - rewrite GetCourseByID_visit.
    apply String.eqb_neq in Hne. rewrite Hne.
    destruct Hwf as (-> & _). now rewrite Hrepo.
  - now rewrite (serve_course_error L h r user Ha Hr _ _ _ Hwf _ Hdb).
Qed.

Lemma missing_course_witness :
  Handlers.visit (Handlers.GetCourseByID Demo.lib DemoRepository.repository)
    Demo.requestForUnknownCourse
    = replied StatusNotFound (errorBody "Course not found") [] /\
  w (serve Demo.lib Demo.handler Demo.requestForUnknownCourse)
    = respond StatusInternalServerError (errorBody "Failed to fetch course details").
Proof.
  apply (missing_course_404_on_read_500_on_upload Demo.lib Demo.handler
           DemoRepository.repository Demo.requestForUnknownCourse Demo.administrator
           Demo.otherID (Demo.form ["vec-17"]) Demo.payload); demo_hyps.
  vm_compute. discriminate.
Defined.

Lemma gate_admin h r user admin :
  Authenticates h r user -> user_Role user = "admin" -> gate h r admin = admin user.
Proof.
  intros (u & p & Hb & Hu) Hr. unfold gate. rewrite Hb, Hu, Hr. reflexivity.
Qed.

Lemma gate_forbidden h r user admin :
  Authenticates h r user -> user_Role user <> "admin" ->
  gate h r admin = {| world := forbiddenWorld; values := []; calls := [] |}.
Proof.
  intros (u & p & Hb & Hu) Hr. unfold gate. rewrite Hb, Hu.
  apply String.eqb_neq in Hr. now rewrite Hr.
Qed.

Lemma gate_unauthenticated h r err admin :
  authenticationError h r = Some err ->
  gate h r admin = {| world := unauthenticatedWorld err; values := []; calls := [] |}.
Proof.
  unfold authenticationError, gate.
  destruct (req_BasicAuth r) as [[u p]|]; [|now intros [= <-]].
  destruct (AuthenticateUser (db h) u p); [now intros [= <-] | discriminate].
Qed.

(** The three ways through the gate. *)
Lemma gate_cases h r admin :
  (exists err, authenticationError h r = Some err /\
               gate h r admin
               = {| world := unauthenticatedWorld err; values := []; calls := [] |}) \/
  (exists user, Authenticates h r user /\ user_Role user <> "admin" /\
                gate h r admin = {| world := forbiddenWorld; values := []; calls := [] |}) \/
  (exists user, Authenticates h r user /\ user_Role user = "admin" /\
                gate h r admin = admin user).
Proof.
  destruct (authenticationError h r) as [err|] eqn:E.
  - left. exists err. split; [reflexivity | now apply gate_unauthenticated].
  - apply authenticationError_None in E as (user & Ha).
    destruct (String.eqb_spec (user_Role user) "admin") as [Hr|Hr].
    + right. right. exists user. split_and!; try assumption.
      now apply (gate_admin h r user).
    + right. left. exists user. split_and!; try assumption.
      now apply (gate_forbidden h r user).
Qed.

(** X19.  A delete reaches the database only for an authenticated
    administrator and ids that parse, and at most once per request; the
    two delete handlers answer 200 exactly when the delete was made and the
    database reported no error. *)
Theorem deletes_need_an_administrator L h repo r :
  Forall (fun call : Call =>
            calls (Handlers.visit (Handlers.DeleteCourseByID L h repo) r) = [call] /\
            exists user courseID,
              Authenticates h r user /\ user_Role user = "admin" /\
              uuid_Parse L (PathValue r "course_id") = inr courseID /\
              call = CallDeleteCourse courseID /\
              (rw_status (w (world (Handlers.visit (Handlers.DeleteCourseByID L h repo) r)))
                 = StatusOK <-> repo_DeleteCourseByID repo courseID = None))
         (calls (Handlers.visit (Handlers.DeleteCourseByID L h repo) r)) /\
  (calls (Handlers.visit (Handlers.DeleteCourseByID L h repo) r) = [] ->
   rw_status (w (world (Handlers.visit (Handlers.DeleteCourseByID L h repo) r)))
     <> StatusOK) /\
  Forall (fun call : Call =>
            calls (Handlers.visit (Handlers.DeleteTraceByID L h repo) r) = [call] /\
            exists user courseID traceID,
              Authenticates h r user /\ user_Role user = "admin" /\
              uuid_Parse L (PathValue r "course_id") = inr courseID /\
              uuid_Parse L (PathValue r "trace_id") = inr traceID /\
              call = CallDeleteTrace courseID traceID /\
              (rw_status (w (world (Handlers.visit (Handlers.DeleteTraceByID L h repo) r)))
                 = StatusOK <-> repo_DeleteTraceByID repo courseID traceID = None))
         (calls (Handlers.visit (Handlers.DeleteTraceByID L h repo) r)) /\
  (calls (Handlers.visit (Handlers.DeleteTraceByID L h repo) r) = [] ->
   rw_status (w (world (Handlers.visit (Handlers.DeleteTraceByID L h repo) r)))
     <> StatusOK).
Proof.
  rewrite DeleteCourseByID_visit, DeleteTraceByID_visit.
  split_and!.
  - destruct (gate_cases h r (fun _ : User =>
      if String.eqb (PathValue r "course_id") "" then
        replied StatusBadRequest (errorBody "Course ID is required") []
      else
        match uuid_Parse L (PathValue r "course_id") with
        | inl _ => replied StatusBadRequest (errorBody "Invalid course ID format") []
        | inr courseID =>
            match repo_DeleteCourseByID repo courseID with
            | Some ErrNoRows =>
                replied StatusNotFound (errorBody "Course not found")
                  [CallDeleteCourse courseID]
            | Some (ErrOther _) =>
                replied StatusInternalServerError (errorBody "Failed to delete course")
                  [CallDeleteCourse courseID]
            | None =>
                replied StatusOK {[ "message" := "Course deleted successfully" ]}
                  [CallDeleteCourse courseID]
            end
        end))
      as [(err & _ & ->) | [(user & _ & _ & ->) | (user & Ha & Hr & ->)]];
      try (cbn [calls]; constructor).
    destruct (String.eqb (PathValue r "course_id") ""); [constructor|].
    destruct (uuid_Parse L (PathValue r "course_id")) as [e|courseID] eqn:Hid;
      [constructor|].
    destruct (repo_DeleteCourseByID repo courseID) as [[|text]|] eqn:Hdel;
      site_simpl; (refine (@List.Forall_cons _ _ _ _ _ (@List.Forall_nil _ _))); (split; [reflexivity|]);
      exists user, courseID; split_and!; try assumption; try reflexivity;
      (split; intros E;
       first [ reflexivity | exact Hdel | congruence | (vm_compute in E; discriminate E) ]).
  - unfold gate. cases; site_simpl; try discriminate;
      unfold unauthenticatedWorld, forbiddenWorld; cbn [w rw_status]; discriminate.
  - destruct (gate_cases h r (fun _ : User =>
      match uuid_Parse L (PathValue r "course_id") with
      | inl _ => replied StatusBadRequest (errorBody "Invalid course_id format") []
      | inr courseID =>
          match uuid_Parse L (PathValue r "trace_id") with
          | inl _ => replied StatusBadRequest (errorBody "Invalid trace_id format") []
          | inr traceID =>
              match repo_DeleteTraceByID repo courseID traceID with
              | Some ErrNoRows =>
                  replied StatusNotFound (errorBody "Trace not found")
                    [CallDeleteTrace courseID traceID]
              | Some (ErrOther _) =>
                  replied StatusInternalServerError (errorBody "Failed to delete trace")
                    [CallDeleteTrace courseID traceID]
              | None =>
                  replied StatusOK {[ "message" := "Trace deleted successfully" ]}
                    [CallDeleteTrace courseID traceID]
              end
          end
      end))
      as [(err & _ & ->) | [(user & _ & _ & ->) | (user & Ha & Hr & ->)]];
      try (cbn [calls]; constructor).
    destruct (uuid_Parse L (PathValue r "course_id")) as [e|courseID] eqn:Hid;
      [constructor|].
    destruct (uuid_Parse L (PathValue r "trace_id")) as [e|traceID] eqn:Htid;
      [constructor|].
    destruct (repo_DeleteTraceByID repo courseID traceID) as [[|text]|] eqn:Hdel;
      site_simpl; (refine (@List.Forall_cons _ _ _ _ _ (@List.Forall_nil _ _))); (split; [reflexivity|]);
      exists user, courseID, traceID; split_and!; try assumption; try reflexivity;
      (split; intros E;
       first [ reflexivity | exact Hdel | congruence | (vm_compute in E; discriminate E) ]).
  - unfold gate. cases; site_simpl; try discriminate;
      unfold unauthenticatedWorld, forbiddenWorld; cbn [w rw_status]; discriminate.
Qed.

Lemma deletes_need_an_administrator_witness :
  rw_status (w (world (Handlers.visit
                         (Handlers.DeleteCourseByID Demo.lib Demo.handler
                            DemoRepository.repository)
                         Demo.requestOfStudent))) <> StatusOK.
Proof.
  apply (proj1 (proj2 (deletes_need_an_administrator Demo.lib Demo.handler
                         DemoRepository.repository Demo.requestOfStudent))).
  vm_compute. reflexivity.
Defined.

(** X20.  The check of the role that [GetTraceByID] makes after
    [authenticateRequest] never decides anything: the handler behaves, from
    every state and for every request, as it does with the check taken
    out. *)
Theorem second_role_check_never_decides L h repo (r : Request) (s : Site) :
  Handlers.GetTraceByID L h repo r s
  = Handlers.GetTraceByID_without_role_check L h repo r s.
Proof. apply GetTraceByID_role_check_is_dead. Qed.



Ltac the_administrator :=
  repeat match goal with
         | H : String.eqb _ _ = true |- _ => apply String.eqb_eq in H
         | H : String.eqb _ _ = false |- _ => apply String.eqb_neq in H
         end;
  unfold Authenticates;
  repeat eexists; split_and?; try eassumption; try reflexivity.

Ltac through_gate Ha Hr :=
  let u := fresh "u" in
  let p := fresh "p" in
  let Hb := fresh "Hb" in
  let Hu := fresh "Hu" in
  destruct Ha as (u & p & Hb & Hu);
  unfold gate; rewrite Hb, Hu, Hr;
  change (String.eqb "admin" "admin") with true; cbv iota.

(** X22.  404 is the answer to [sql.ErrNoRows] and to nothing else, for an
    administrator whose ids parse, in [GetTraceByID], [DeleteCourseByID] and
    [DeleteTraceByID]; [GetTracesByCourseID] and the upload handler never
    answer 404, whatever the database says. *)
Theorem not_found_means_no_rows L h repo r :
  rw_status (w (serve L h r)) <> StatusNotFound /\
  rw_status (w (world (Handlers.visit (Handlers.GetTracesByCourseID L h repo) r)))
    <> StatusNotFound /\
  (rw_status (w (world (Handlers.visit (Handlers.GetTraceByID L h repo) r)))
     = StatusNotFound <->
   exists user courseID traceID,
     Authenticates h r user /\ user_Role user = "admin" /\
     uuid_Parse L (PathValue r "course_id") = inr courseID /\
     uuid_Parse L (PathValue r "trace_id") = inr traceID /\
     repo_GetTraceByID repo courseID traceID = inl ErrNoRows) /\
  (rw_status (w (world (Handlers.visit (Handlers.DeleteCourseByID L h repo) r)))
     = StatusNotFound <->
   exists user courseID,
     Authenticates h r user /\ user_Role user = "admin" /\
     PathValue r "course_id" <> "" /\
     uuid_Parse L (PathValue r "course_id") = inr courseID /\
     repo_DeleteCourseByID repo courseID = Some ErrNoRows) /\
  (rw_status (w (world (Handlers.visit (Handlers.DeleteTraceByID L h repo) r)))
     = StatusNotFound <->
   exists user courseID traceID,
     Authenticates h r user /\ user_Role user = "admin" /\
     uuid_Parse L (PathValue r "course_id") = inr courseID /\
     uuid_Parse L (PathValue r "trace_id") = inr traceID /\
     repo_DeleteTraceByID repo courseID traceID = Some ErrNoRows).
Proof.
  split_and!.
  - destruct (serve_status L h r) as [E | [E | [E | [E | E]]]]; rewrite E; discriminate.
  - rewrite GetTracesByCourseID_visit. unfold gate. cases; site_simpl;
      unfold unauthenticatedWorld, forbiddenWorld; cbn [w rw_status]; discriminate.
  - unfold Handlers.visit. rewrite GetTraceByID_role_check_is_dead.
    fold (Handlers.visit (Handlers.GetTraceByID_without_role_check L h repo) r).
    rewrite GetTraceByID_without_role_check_visit. split.
    + unfold gate. cases; site_simpl;
        unfold unauthenticatedWorld, forbiddenWorld; cbn [w rw_status];
        intros E; try (vm_compute in E; discriminate E).
      the_administrator.
    + intros (user & courseID & traceID & Ha & Hr & Hc & Ht & Hrepo).
      through_gate Ha Hr. now rewrite Hc, Ht, Hrepo.
  - rewrite DeleteCourseByID_visit. split.
    + unfold gate. cases; site_simpl;
        unfold unauthenticatedWorld, forbiddenWorld; cbn [w rw_status];
        intros E; try (vm_compute in E; discriminate E).
      the_administrator.
    + intros (user & courseID & Ha & Hr & Hne & Hc & Hrepo).
      through_gate Ha Hr. apply String.eqb_neq in Hne. now rewrite Hne, Hc, Hrepo.
  - rewrite DeleteTraceByID_visit. split.
    + unfold gate. cases; site_simpl;
        unfold unauthenticatedWorld, forbiddenWorld; cbn [w rw_status];
        intros E; try (vm_compute in E; discriminate E).
      the_administrator.
    + intros (user & courseID & traceID & Ha & Hr & Hc & Ht & Hrepo).
      through_gate Ha Hr. now rewrite Hc, Ht, Hrepo.
Qed.

Lemma not_found_witness :
  rw_status (w (world (Handlers.visit
                         (Handlers.GetTraceByID Demo.lib Demo.handler
                            DemoRepository.repository)
                         requestForUnknownTrace))) = StatusNotFound.
Proof.
  apply (proj2 (proj1 (proj2 (proj2
           (not_found_means_no_rows Demo.lib Demo.handler DemoRepository.repository
              requestForUnknownTrace))))).
  exists Demo.administrator, Demo.courseID, Demo.otherID.
  split_and!; demo_hyps.
Defined.

(** X23.  The handlers other than the upload handler never upload, store a
    trace or publish; each of their responses has the header
    [Content-Type: application/json] and one JSON document, a value only
    with status 200, except the response to a caller who is not an
    administrator, which has two. *)
Theorem other_handlers_envelope L h repo r :
  Forall (fun handler : Request -> MS unit =>
            rw_sentHeader (w (world (Handlers.visit handler r))) !! "Content-Type"
              = Some "application/json" /\
            (documents (Handlers.visit handler r) = 1%nat \/
             world (Handlers.visit handler r) = forbiddenWorld) /\
            (values (Handlers.visit handler r) = [] \/
             rw_status (w (world (Handlers.visit handler r))) = StatusOK) /\
            traces (world (Handlers.visit handler r)) = [] /\
            gcs_writes (world (Handlers.visit handler r)) = [] /\
            outbox (world (Handlers.visit handler r)) = [])
         (Handlers.GetCourseByID L repo :: gatedHandlers L h repo).
Proof.
  unfold gatedHandlers.
  repeat (refine (@List.Forall_cons _ _ _ _ _ _)); [| | | | |apply List.Forall_nil].
  - rewrite GetCourseByID_visit. cases; unfold documents; site_simpl;
      split_and!; auto; apply lookup_insert_eq.
  - rewrite DeleteCourseByID_visit. unfold gate. cases; unfold documents; site_simpl;
      unfold unauthenticatedWorld, forbiddenWorld;
      cbn [w rw_sentHeader rw_body rw_status traces gcs_writes outbox length Nat.add];
      split_and!; auto;
      first [ apply lookup_insert_eq
            | rewrite lookup_insert_ne by discriminate; apply lookup_insert_eq ].
  - rewrite GetTracesByCourseID_visit. unfold gate. cases; unfold documents; site_simpl;
      unfold unauthenticatedWorld, forbiddenWorld;
      cbn [w rw_sentHeader rw_body rw_status traces gcs_writes outbox length Nat.add];
      split_and!; auto;
      first [ apply lookup_insert_eq
            | rewrite lookup_insert_ne by discriminate; apply lookup_insert_eq ].
  - unfold Handlers.visit. rewrite GetTraceByID_role_check_is_dead.
    fold (Handlers.visit (Handlers.GetTraceByID_without_role_check L h repo) r).
    rewrite GetTraceByID_without_role_check_visit.
    unfold gate. cases; unfold documents; site_simpl;
      unfold unauthenticatedWorld, forbiddenWorld;
      cbn [w rw_sentHeader rw_body rw_status traces gcs_writes outbox length Nat.add];
      split_and!; auto;
      first [ apply lookup_insert_eq
            | rewrite lookup_insert_ne by discriminate; apply lookup_insert_eq ].
  - rewrite DeleteTraceByID_visit. unfold gate. cases; unfold documents; site_simpl;
      unfold unauthenticatedWorld, forbiddenWorld;
      cbn [w rw_sentHeader rw_body rw_status traces gcs_writes outbox length Nat.add];
      split_and!; auto;
      first [ apply lookup_insert_eq
            | rewrite lookup_insert_ne by discriminate; apply lookup_insert_eq ].
Qed.

(** * Configuration *)

Section ConfigurationProperties.
Import Configuration.

Lemma getEnv_effective env file key fallback :
  getEnv (effective env file) key fallback = resolved env file key fallback.
Proof.
  unfold getEnv, effective, resolved, Environ in *.
  destruct (String.eqb (Getenv env "ENV") "development").
  - destruct file as [err|vars]; [reflexivity|].
    rewrite lookup_union. destruct (env !! key), (vars !! key); reflexivity.
  - reflexivity.
Qed.

Lemma NewConfig_effective env file :
  fst (NewConfig env file) =
  {| DBHost := getEnv (effective env file) "DB_HOST" "localhost";
     DBPort := getEnv (effective env file) "DB_PORT" "5432";
     DBUser := getEnv (effective env file) "DB_USER" "admin";
     DBPassword := getEnv (effective env file) "DB_PASSWORD" "password";
     DBName := getEnv (effective env file) "DB_NAME" "api";
     GCSBucketName := getEnv (effective env file) "GCS_BUCKET_NAME" "bucket_name";
     GCSCredentialsFile :=
       getEnv (effective env file) "GCS_CREDENTIALS_FILE" "credentials.json" |}.
Proof.
  unfold NewConfig, effective, godotenv_Load.
  destruct (String.eqb (Getenv env "ENV") "development"); [|reflexivity].
  destruct file; reflexivity.
Qed.

(** X24.  Every setting of [NewConfig] takes the value of its environment
    variable when that is set, even to the empty string; otherwise, in
    development mode and when [.env] could be read, the value the file gives
    it; otherwise its fallback.  Outside development mode the file is not
    looked at. *)
Theorem settings_precedence env file :
  Forall (fun setting : string * string * (Config -> string) =>
            let '(key, fallback, field) := setting in
            field (fst (NewConfig env file)) = resolved env file key fallback)
         settings /\
  (Getenv env "ENV" <> "development" ->
   forall file', NewConfig env file' = NewConfig env file).
Proof.
  split.
  - rewrite NewConfig_effective. unfold settings.
    repeat (refine (@List.Forall_cons _ _ _ _ _ _)); try apply List.Forall_nil;
      cbn [DBHost DBPort DBUser DBPassword DBName GCSBucketName GCSCredentialsFile];
      apply getEnv_effective.
  - intros Hne file'. apply String.eqb_neq in Hne.
    unfold NewConfig. now rewrite Hne.
Qed.

Lemma settings_precedence_witness :
  NewConfig {[ "ENV" := "production"; "DB_HOST" := "" ]} (inr {[ "DB_HOST" := "db.internal" ]})
  = NewConfig {[ "ENV" := "production"; "DB_HOST" := "" ]} (inl "open .env: no such file").
Proof.
  apply (proj2 (settings_precedence _ (inl "open .env: no such file"))).
  vm_compute. discriminate.
Defined.

Lemma clientOption_effective env file :
  clientOption (fst (NewConfig env file))
  = match effective env file !! "GCS_CREDENTIALS_FILE" with
    | Some value => if String.eqb value "" then ApplicationDefaultCredentials
                    else WithCredentialsFile value
    | None => WithCredentialsFile "credentials.json"
    end.
Proof.
  rewrite NewConfig_effective. unfold clientOption. cbn [GCSCredentialsFile].
  unfold getEnv. destruct (effective env file !! "GCS_CREDENTIALS_FILE"); reflexivity.
Qed.

Lemma NewCourseHandler_result quote storage_NewClient db0 env file producer0 :
  snd (NewCourseHandler quote storage_NewClient db0 (fst (NewConfig env file)) producer0)
  = match storage_NewClient (clientOption (fst (NewConfig env file))) with
    | inl err => inl ("Failed to create GCS client: " +:+ err)
    | inr client =>
        inr {| db := db0; gcsClient := client;
               bucketName := resolved env file "GCS_BUCKET_NAME" "bucket_name";
               producer := producer0 |}
    end.
Proof.
  rewrite <- (getEnv_effective env file "GCS_BUCKET_NAME").
  rewrite NewConfig_effective. unfold clientOption, NewCourseHandler.
  cbn [GCSCredentialsFile GCSBucketName].
  destruct (String.eqb (getEnv (effective env file) "GCS_CREDENTIALS_FILE"
                          "credentials.json") ""); cbn [negb].
  - destruct (storage_NewClient ApplicationDefaultCredentials); reflexivity.
  - destruct (storage_NewClient (WithCredentialsFile _)); reflexivity.
Qed.

(** X25.  [NewCourseHandler] asks for Application Default Credentials
    exactly when [GCS_CREDENTIALS_FILE] is set to the empty string, in the
    environment or, for a variable the environment does not have, by [.env]
    in development mode; with the variable not set anywhere it asks for the
    file "credentials.json".  It hands the client, the bucket name of the
    configuration, the database and the producer to the handler, and ends
    the process when the client cannot be made. *)
Theorem credentials_choice quote storage_NewClient db0 env file producer0 :
  let cfg := fst (NewConfig env file) in
  (clientOption cfg = ApplicationDefaultCredentials <->
   effective env file !! "GCS_CREDENTIALS_FILE" = Some "") /\
  (effective env file !! "GCS_CREDENTIALS_FILE" = None ->
   clientOption cfg = WithCredentialsFile "credentials.json") /\
  snd (NewCourseHandler quote storage_NewClient db0 cfg producer0)
  = match storage_NewClient (clientOption cfg) with
    | inl err => inl ("Failed to create GCS client: " +:+ err)
    | inr client =>
        inr {| db := db0; gcsClient := client;
               bucketName := resolved env file "GCS_BUCKET_NAME" "bucket_name";
               producer := producer0 |}
    end.
Proof.
  cbv zeta. split_and!.
  - rewrite clientOption_effective.
    destruct (effective env file !! "GCS_CREDENTIALS_FILE") as [value|].
    + destruct (String.eqb_spec value "") as [-> | Hne].
      * split; reflexivity.
      * split; [discriminate | congruence].
    + split; discriminate.
  - intros E. now rewrite clientOption_effective, E.
  - apply NewCourseHandler_result.
Qed.

Lemma credentials_choice_witness :
  clientOption (fst (NewConfig ∅ (inl "open .env: no such file")))
  = WithCredentialsFile "credentials.json".
Proof.
  apply (proj1 (proj2 (credentials_choice (fun s => s) (fun _ => inr Demo.workingStorage)
                         Demo.database ∅ (inl "open .env: no such file")
                         Demo.workingProducer))).
  reflexivity.
Defined.

(** X26.  The bucket of the configuration is the bucket of every location:
    a handler made by [NewCourseHandler] from [NewConfig] returns, for an
    upload that succeeds,
    "https://storage.googleapis.com/{GCS_BUCKET_NAME}/{object name}", with
    "bucket_name" for the bucket when the variable is not set. *)
Theorem configured_bucket_is_in_every_location
    quote storage_NewClient db0 env file producer0 h payload filename location :
  snd (NewCourseHandler quote storage_NewClient db0 (fst (NewConfig env file)) producer0)
    = inr h ->
  uploadToGCS h payload filename = inr location ->
  exists name,
    gcs_Attrs_Name (gcsClient h) filename = inr name /\
    location = "https://storage.googleapis.com/"
               +:+ resolved env file "GCS_BUCKET_NAME" "bucket_name" +:+ "/" +:+ name.
Proof.
  intros Hh Hup.
  rewrite NewCourseHandler_result in Hh.
  destruct (storage_NewClient _) as [err|client]; [discriminate|].
  injection Hh as <-.
  apply uploadToGCS_ok in Hup as (_ & _ & name & Ha & ->).
  exists name. split; [exact Ha | reflexivity].
Qed.

Lemma configured_bucket_witness :
  exists name,
    gcs_Attrs_Name Demo.workingStorage Demo.fileName = inr name /\
    "https://storage.googleapis.com/bucket_name/" +:+ Demo.fileName
    = "https://storage.googleapis.com/"
      +:+ resolved ∅ (inl "open .env: no such file") "GCS_BUCKET_NAME" "bucket_name"
      +:+ "/" +:+ name.
Proof.
  apply (configured_bucket_is_in_every_location (fun s => s)
           (fun _ => inr Demo.workingStorage) Demo.database ∅
           (inl "open .env: no such file") Demo.workingProducer
           {| db := Demo.database; gcsClient := Demo.workingStorage;
              bucketName := "bucket_name"; producer := Demo.workingProducer |}
           Demo.payload Demo.fileName).
  - reflexivity.
  - reflexivity.
Defined.

End ConfigurationProperties.
